(** * A weather client over a third-party HTTP API: [forecast.py]

    Shallow embedding of [src/simple_prediction/forecast.py] (the classes
    [WeatherAPI] and [WeatherForecast]) together with the properties of
    its specification.

    Modelling conventions.
    - A decoded JSON body is a Python object: [None], [bool], [int],
      [float], [str], [list] or [dict] with string keys ([pyval]).
      Integers are unbounded ([Z]), floats are binary64 ([float], Rocq's
      primitive floats), a [dict] is a finite map ([gmap string pyval]).
    - A Python [str] is represented by its UTF-8 bytes ([string]).
    - A raised exception is a value of [exn]; code that may raise returns
      a [result].
    - The network and standard output are threaded explicitly
      ([state], monad [M]); the answer of the network is a parameter.
    - The behaviour of the interpreter's built-ins ([float], [int],
      [dict.get], subscripting, slicing, [datetime.fromtimestamp],
      [strftime], [str] of a number) is written out as CPython 3.11 on
      a system with the GNU C library and a 64-bit [time_t] defines it.
      Where the versions of the interpreter or the systems differ, the
      comment of the definition says which behaviour is taken.
    - The system's time zone is a parameter: the offset of local time
      from UTC at an instant.
    - The text that [print] writes for an object other than a string
      (its [repr]) is a parameter of [main]. *)

From Stdlib Require Import ZArith String Ascii List Bool Lia Floats.
From stdpp Require Import gmap strings.

Set Warnings "-register-all,-inexact-float".
#[local] Open Scope string_scope.
#[local] Open Scope list_scope.
#[local] Open Scope Z_scope.

(** ** Exceptions and results *)

(** The exception classes that the modelled code can raise.  [KeyError]
    and [IndexError] are the two subclasses of [LookupError];
    [ConnectionError] stands for the failures of the transport
    ([requests.exceptions.RequestException]: refused connection, time-out,
    ...) and [JSONDecodeError] for a body that is not JSON. *)
Inductive exn : Type :=
| AttributeError
| TypeError
| ValueError
| OverflowError
| KeyError
| IndexError
| OSError
| ConnectionError
| JSONDecodeError.

Definition is_LookupError (e : exn) : bool :=
  match e with
  | KeyError | IndexError => true
  | _ => false
  end.

Definition is_TransportError (e : exn) : bool :=
  match e with
  | ConnectionError | JSONDecodeError => true
  | _ => false
  end.

Inductive result (A : Type) : Type :=
| Ok (a : A)
| Raise (e : exn).
Arguments Ok {A} a.
Arguments Raise {A} e.

Definition rbind {A B : Type} (r : result A) (k : A -> result B) : result B :=
  match r with
  | Ok a => k a
  | Raise e => Raise e
  end.

Declare Scope res_scope.
Delimit Scope res_scope with res.
Notation "x <- c ;; k" := (rbind c (fun x => k))
  (at level 100, c at next level, right associativity) : res_scope.

Definition succeeds {A : Type} (r : result A) : bool :=
  match r with
  | Ok _ => true
  | Raise _ => false
  end.

(** ** Python objects *)

Inductive pyval : Type :=
| PNone
| PBool (b : bool)
| PInt (z : Z)
| PFloat (f : float)
| PStr (s : string)
| PList (l : list pyval)
| PDict (d : gmap string pyval).

(** [v.get(k)]: only a [dict] has the method; a missing key gives [None]. *)
Definition py_get (v : pyval) (k : string) : result pyval :=
  match v with
  | PDict d => Ok (default PNone (d !! k))
  | _ => Raise AttributeError
  end.

(** [v[k]] for a string key [k]: a [dict] raises [KeyError] on a missing
    key; a [list] or [str] wants an integer index; the other objects are
    not subscriptable. *)
Definition py_getitem (v : pyval) (k : string) : result pyval :=
  match v with
  | PDict d =>
      match d !! k with
      | Some x => Ok x
      | None => Raise KeyError
      end
  | _ => Raise TypeError
  end.

(** ** Numbers read from text *)

(** *** Text of any script brought to ASCII *)

(** Before they read a text, [int] and [float] bring it to ASCII: a
    text of ASCII characters is taken as it is; in any other text the
    characters below 127 are kept, a blank of Unicode becomes a space, a
    decimal digit of any script becomes the ASCII digit of its value,
    and the first character that is none of these becomes a question
    mark, at which the text ends. *)

(** A code that is no character: what the bytes that are the UTF-8 form
    of no text are read as. *)
Definition no_character : Z := 1114112.

Definition is_continuation (b : Z) : bool := ((128 <=? b) && (b <? 192))%bool.

(** The code points of a text, from its UTF-8 bytes (a lone surrogate,
    which a decoded JSON text may hold, in three bytes as the other
    characters of its range). *)
Fixpoint utf8_points (bs : list Z) : list Z :=
  match bs with
  | [] => []
  | b :: r =>
      if b <? 128 then b :: utf8_points r
      else
        match r with
        | [] => [no_character]
        | c1 :: r1 =>
            if ((192 <=? b) && (b <? 224) && is_continuation c1)%bool then
              let ch := (b - 192) * 64 + (c1 - 128) in
              (if 128 <=? ch then ch else no_character) :: utf8_points r1
            else
              match r1 with
              | [] => no_character :: utf8_points r
              | c2 :: r2 =>
                  if ((224 <=? b) && (b <? 240) && is_continuation c1
                      && is_continuation c2)%bool then
                    let ch := (b - 224) * 4096 + (c1 - 128) * 64 + (c2 - 128) in
                    (if 2048 <=? ch then ch else no_character) :: utf8_points r2
                  else
                    match r2 with
                    | [] => no_character :: utf8_points r
                    | c3 :: r3 =>
                        if ((240 <=? b) && (b <? 248) && is_continuation c1
                            && is_continuation c2 && is_continuation c3)%bool then
                          let ch := (b - 240) * 262144 + (c1 - 128) * 4096
                                    + (c2 - 128) * 64 + (c3 - 128) in
                          (if ((65536 <=? ch) && (ch <? 1114112))%bool then ch
                           else no_character) :: utf8_points r3
                        else no_character :: utf8_points r
                    end
              end
        end
  end.

(** The blanks of Unicode from 127 on. *)
Definition unicode_space (ch : Z) : bool :=
  (existsb (Z.eqb ch) [133; 160; 5760; 8232; 8233; 8239; 8287; 12288]
   || ((8192 <=? ch) && (ch <=? 8202)))%bool.

(** The decimal digits of Unicode (version 14, that of the interpreter)
    come in runs of ten, from the digit zero to the digit nine of a
    script; these are the code points of the zeros. *)
Definition decimal_zeros : list Z :=
  [48; 1632; 1776; 1984; 2406; 2534; 2662; 2790; 2918; 3046; 3174; 3302;
   3430; 3558; 3664; 3792; 3872; 4160; 4240; 6112; 6160; 6470; 6608; 6784;
   6800; 6992; 7088; 7232; 7248; 42528; 43216; 43264; 43472; 43504; 43600;
   44016; 65296; 66720; 68912; 69734; 69872; 69942; 70096; 70384; 70736;
   70864; 71248; 71360; 71472; 71904; 72016; 72784; 73040; 73120; 92768;
   92864; 93008; 120782; 120792; 120802; 120812; 120822; 123200; 123632;
   125264; 130032].

(** The value of a decimal digit. *)
Definition unicode_decimal (ch : Z) : option Z :=
  match List.find (fun z => ((z <=? ch) && (ch <? z + 10))%bool) decimal_zeros with
  | Some z => Some (ch - z)
  | None => None
  end.

Definition ascii_of_Z (n : Z) : ascii := ascii_of_nat (Z.to_nat n).

Fixpoint points_to_ascii (chs : list Z) : list ascii :=
  match chs with
  | [] => []
  | ch :: r =>
      if ch <? 127 then ascii_of_Z ch :: points_to_ascii r
      else if unicode_space ch then " "%char :: points_to_ascii r
      else
        match unicode_decimal ch with
        | Some d => ascii_of_Z (48 + d) :: points_to_ascii r
        | None => ["?"%char]
        end
  end.

Definition transform_decimal_and_space_to_ascii (s : string) : list ascii :=
  let cs := list_ascii_of_string s in
  if forallb (fun c => Nat.ltb (nat_of_ascii c) 128) cs then cs
  else points_to_ascii (utf8_points (map (fun c => Z.of_nat (nat_of_ascii c)) cs)).

(** *** Integers and floats *)

Definition is_digit (c : ascii) : bool :=
  let n := nat_of_ascii c in (Nat.leb 48 n && Nat.leb n 57)%bool.

Definition digit_val (c : ascii) : Z := Z.of_nat (nat_of_ascii c) - 48.

(** The blanks that [int] and [float] skip around a number: the space
    and the characters with the codes 9 to 13. *)
Definition is_space (c : ascii) : bool :=
  let n := nat_of_ascii c in
  ((Nat.leb 9 n && Nat.leb n 13) || Nat.eqb n 32)%bool.

Fixpoint lstrip (cs : list ascii) : list ascii :=
  match cs with
  | c :: r => if is_space c then lstrip r else cs
  | [] => []
  end.

Definition strip (cs : list ascii) : list ascii :=
  rev (lstrip (rev (lstrip cs))).

Definition is_underscore (c : ascii) : bool := Ascii.eqb c "_".

(** An underscore stands only between two digits. *)
Fixpoint underscores_ok (prev : ascii) (cs : list ascii) : bool :=
  match cs with
  | [] => negb (is_underscore prev)
  | c :: r =>
      (if is_underscore c then is_digit prev
       else if is_underscore prev then is_digit c else true)
      && underscores_ok c r
  end.

Definition drop_underscores (cs : list ascii) : list ascii :=
  List.filter (fun c => negb (is_underscore c)) cs.

Definition split_sign (cs : list ascii) : bool * list ascii :=
  match cs with
  | "+"%char :: r => (false, r)
  | "-"%char :: r => (true, r)
  | _ => (false, cs)
  end.

Fixpoint span_digits (cs : list ascii) : list ascii * list ascii :=
  match cs with
  | c :: r =>
      if is_digit c then let '(ds, rest) := span_digits r in (c :: ds, rest)
      else ([], cs)
  | [] => ([], [])
  end.

Definition digits_value (ds : list ascii) : Z :=
  fold_left (fun acc c => 10 * acc + digit_val c) ds 0.

(** The most digits that [int] reads in a text (the interpreter's
    default, which the script does not change). *)
Definition max_str_digits : nat := 4300.

(** [int(s)] for a string [s] (base ten), brought to ASCII: blanks
    around, a sign, then digits, single underscores between them
    allowed, and no more than [max_str_digits] digits. *)
Definition int_of_str (s : string) : option Z :=
  let cs := strip (transform_decimal_and_space_to_ascii s) in
  let '(neg, body) := split_sign cs in
  if underscores_ok " "%char body then
    match span_digits (drop_underscores body) with
    | ((_ :: _) as ds, []) =>
        if Nat.ltb max_str_digits (length ds) then None
        else Some (if neg then - digits_value ds else digits_value ds)
    | _ => None
    end
  else None.

Definition lower (c : ascii) : ascii :=
  let n := nat_of_ascii c in
  if (Nat.leb 65 n && Nat.leb n 90)%bool then ascii_of_nat (n + 32) else c.

(** The binary64 number nearest to [m * 10 ^ e] (ties to even), for a
    positive [m]; an infinity beyond the largest finite number. *)
Definition round_decimal (neg : bool) (m : positive) (e : Z) : spec_float :=
  if 0 <=? e then
    match Zpos m * 10 ^ e with
    | Zpos p => binary_round prec emax neg p 0
    | _ => S754_zero neg
    end
  else
    let '(mz, ez, lz) := SFdiv_core_binary prec emax (Zpos m) 0 (10 ^ (- e)) 0 in
    binary_round_aux prec emax neg mz ez lz.

Definition decimal_to_float (neg : bool) (m e : Z) : float :=
  match m with
  | Zpos p => SF2Prim (round_decimal neg p e)
  | _ => if neg then neg_zero else zero
  end.

(** The exponent part of a literal: nothing, or [e], a sign and digits. *)
Definition parse_exponent (cs : list ascii) : option Z :=
  match cs with
  | [] => Some 0
  | c :: r =>
      if Ascii.eqb (lower c) "e" then
        let '(neg, r') := split_sign r in
        match span_digits r' with
        | ((_ :: _) as ds, []) =>
            Some (if neg then - digits_value ds else digits_value ds)
        | _ => None
        end
      else None
  end.

(** A decimal literal: digits, an optional point and digits (one digit
    at least in all), an optional exponent. *)
Definition parse_decimal (neg : bool) (cs : list ascii) : option float :=
  let '(ip, r1) := span_digits cs in
  let '(fp, r2) :=
    match r1 with
    | "."%char :: r => span_digits r
    | _ => ([], r1)
    end in
  match ip ++ fp with
  | [] => None
  | ds =>
      match parse_exponent r2 with
      | Some e => Some (decimal_to_float neg (digits_value ds) (e - Z.of_nat (length fp)))
      | None => None
      end
  end.

(** [float(s)] for a string [s], brought to ASCII: blanks around, a
    sign, then a decimal literal or one of the names [inf], [infinity]
    and [nan] in any case of letters; the value is rounded to the
    nearest float. *)
Definition float_of_str (s : string) : option float :=
  let cs := strip (transform_decimal_and_space_to_ascii s) in
  if underscores_ok " "%char cs then
    let '(neg, body) := split_sign (drop_underscores cs) in
    let name := string_of_list_ascii (map lower body) in
    if (String.eqb name "inf" || String.eqb name "infinity")%bool then
      Some (if neg then neg_infinity else infinity)
    else if String.eqb name "nan" then Some nan
    else parse_decimal neg body
  else None.

(** ** The conversions [float(v)] and [int(v)] *)

(** [float(n)] for an integer: the nearest binary64 number, and
    [OverflowError] when there is none. *)
Definition float_of_Z (z : Z) : result float :=
  match binary_normalize prec emax z 0 false with
  | S754_infinity _ => Raise OverflowError
  | sf => Ok (SF2Prim sf)
  end.

(** [int(x)] for a float: the integral part, towards zero. *)
Definition Z_of_float (f : float) : result Z :=
  match Prim2SF f with
  | S754_nan => Raise ValueError
  | S754_infinity _ => Raise OverflowError
  | S754_zero _ => Ok 0
  | S754_finite s m e =>
      let a := Z.shiftl (Zpos m) e in
      Ok (if s then - a else a)
  end.

Definition py_float (v : pyval) : result float :=
  match v with
  | PNone => Raise TypeError
  | PBool b => Ok (if b then one else zero)
  | PInt z => float_of_Z z
  | PFloat f => Ok f
  | PStr s =>
      match float_of_str s with
      | Some f => Ok f
      | None => Raise ValueError
      end
  | PList _ | PDict _ => Raise TypeError
  end.

Definition py_int (v : pyval) : result Z :=
  match v with
  | PNone => Raise TypeError
  | PBool b => Ok (if b then 1 else 0)
  | PInt z => Ok z
  | PFloat f => Z_of_float f
  | PStr s =>
      match int_of_str s with
      | Some z => Ok z
      | None => Raise ValueError
      end
  | PList _ | PDict _ => Raise TypeError
  end.

(** ** Calendar arithmetic and [datetime.fromtimestamp] *)

(** The proleptic Gregorian calendar as the interpreter's [datetime]
    module counts it: day 1 is 0001-01-01. *)
Definition is_leap (year : Z) : bool :=
  ((year mod 4 =? 0) && (negb (year mod 100 =? 0) || (year mod 400 =? 0)))%bool.

Definition days_in_month_common (month : Z) : Z :=
  match month with
  | 2 => 28
  | 4 | 6 | 9 | 11 => 30
  | _ => 31
  end.

Definition days_in_month (year month : Z) : Z :=
  if ((month =? 2) && is_leap year)%bool then 29 else days_in_month_common month.

Definition days_before_month_common (month : Z) : Z :=
  match month with
  | 1 => 0 | 2 => 31 | 3 => 59 | 4 => 90 | 5 => 120 | 6 => 151
  | 7 => 181 | 8 => 212 | 9 => 243 | 10 => 273 | 11 => 304 | _ => 334
  end.

Definition days_before_year (year : Z) : Z :=
  let y := year - 1 in y * 365 + y / 4 - y / 100 + y / 400.

Definition days_before_month (year month : Z) : Z :=
  days_before_month_common month
  + (if ((2 <? month) && is_leap year)%bool then 1 else 0).

(** The ordinal of a date (year, month, day). *)
Definition ymd2ord (year month day : Z) : Z :=
  days_before_year year + days_before_month year month + day.

Definition valid_date (year month day : Z) : bool :=
  ((1 <=? month) && (month <=? 12) && (1 <=? day)
   && (day <=? days_in_month year month))%bool.

(** The month and the day of the day numbered [n] (from 0) in a year. *)
Definition month_day (leapyear : bool) (n : Z) : Z * Z :=
  let month := Z.shiftr (n + 50) 5 in
  let preceding :=
    days_before_month_common month
    + (if ((2 <? month) && leapyear)%bool then 1 else 0) in
  if n <? preceding then
    let month := month - 1 in
    let preceding :=
      preceding
      - (days_in_month_common month
         + (if ((month =? 2) && leapyear)%bool then 1 else 0)) in
    (month, n - preceding + 1)
  else (month, n - preceding + 1).

(** The date of an ordinal: whole cycles of 400, 100, 4 and 1 years,
    then the month from an estimate that is at most one too large. *)
Definition ord2ymd (n0 : Z) : Z * Z * Z :=
  let n := n0 - 1 in
  let n400 := n / 146097 in
  let n := n mod 146097 in
  let year := n400 * 400 + 1 in
  let n100 := n / 36524 in
  let n := n mod 36524 in
  let n4 := n / 1461 in
  let n := n mod 1461 in
  let n1 := n / 365 in
  let n := n mod 365 in
  let year := year + n100 * 100 + n4 * 4 + n1 in
  if ((n1 =? 4) || (n100 =? 4))%bool then (year - 1, 12, 31)
  else
    let leapyear := ((n1 =? 3) && (negb (n4 =? 24) || (n100 =? 3)))%bool in
    let '(month, day) := month_day leapyear n in
    (year, month, day).

(** The ordinal of 1970-01-01, the day of timestamp 0. *)
Definition epoch_ordinal : Z := 719163.

Definition MINYEAR : Z := 1.
Definition MAXYEAR : Z := 9999.

(** The broken-down local time that the C library's [localtime] gives. *)
Record tm : Type := {
  tm_year : Z;
  tm_mon : Z;
  tm_mday : Z;
  tm_hour : Z;
  tm_min : Z;
  tm_sec : Z
}.

Record datetime : Type := {
  year : Z;
  month : Z;
  day : Z;
  hour : Z;
  minute : Z;
  second : Z;
  microsecond : Z
}.

Definition time_t_min : Z := - 2 ^ 63.
Definition time_t_max : Z := 2 ^ 63 - 1.

(** The nearest integer to a float, ties to even; for a finite float. *)
Definition round_half_even (f : float) : Z :=
  match Prim2SF f with
  | S754_finite s m e =>
      let a :=
        if 0 <=? e then Z.shiftl (Zpos m) e
        else
          let d := 2 ^ (- e) in
          let q := Zpos m / d in
          let r := Zpos m mod d in
          match 2 * r ?= d with
          | Lt => q
          | Gt => q + 1
          | Eq => if Z.even q then q else q + 1
          end in
      if s then - a else a
  | _ => 0
  end.

(** A timestamp as seconds and microseconds: an integer as it is, a
    float cut at its integral part, the fraction scaled to microseconds
    and rounded half to even, with the carry into the seconds. *)
Definition object_to_timeval (v : pyval) : result (Z * Z) :=
  match v with
  | PInt z =>
      if ((time_t_min <=? z) && (z <=? time_t_max))%bool then Ok (z, 0)
      else Raise OverflowError
  | PBool b => Ok (if b then 1 else 0, 0)
  | PFloat d =>
      if is_nan d then Raise ValueError
      else
        match Z_of_float d with
        | Raise _ => Raise OverflowError
        | Ok intpart =>
            let floatpart :=
              match float_of_Z intpart with
              | Ok i => (d - i)%float
              | Raise _ => zero
              end in
            let r := round_half_even (floatpart * 1000000)%float in
            let '(sec, us) :=
              if 1000000 <=? r then (intpart + 1, r - 1000000)
              else if r <? 0 then (intpart - 1, r + 1000000)
              else (intpart, r) in
            if ((time_t_min <=? sec) && (sec <=? time_t_max))%bool
            then Ok (sec, us)
            else Raise OverflowError
        end
  | PNone | PStr _ | PList _ | PDict _ => Raise TypeError
  end.

Section LocalTime.

(** The system's time zone: the offset of local time from UTC, in
    seconds, in force at an instant (given as a timestamp). *)
Variable utcoffset : Z -> Z.

(** [localtime]: fails when the instant is no [time_t] or the year
    does not fit the C type [int]. *)
Definition localtime (t : Z) : result tm :=
  if negb ((time_t_min <=? t) && (t <=? time_t_max)) then Raise OverflowError
  else
    let s := t + utcoffset t in
    let '(y, m, d) := ord2ymd (epoch_ordinal + s / 86400) in
    let r := s mod 86400 in
    if ((- 2 ^ 31 <=? y - 1900) && (y - 1900 <? 2 ^ 31))%bool then
      Ok {| tm_year := y; tm_mon := m; tm_mday := d;
            tm_hour := r / 3600; tm_min := (r mod 3600) / 60; tm_sec := r mod 60 |}
    else Raise OSError.

(** Seconds from 0001-01-01 to a broken-down time read as UTC. *)
Definition utc_to_seconds (x : tm) : result Z :=
  if ((tm_year x <? MINYEAR) || (MAXYEAR <? tm_year x))%bool then Raise ValueError
  else
    Ok (((ymd2ord (tm_year x) (tm_mon x) (tm_mday x) * 24 + tm_hour x) * 60
         + tm_min x) * 60 + tm_sec x).

(** The local time of an instant, in seconds from 0001-01-01. *)
Definition local (t : Z) : result Z :=
  rbind (localtime t) utc_to_seconds.

Definition max_fold_seconds : Z := 24 * 3600.

(** [datetime.fromtimestamp(v)] with no time zone argument: the local
    time of the instant, after the probes that look for a repeated
    interval of local time one day back (they fail when the local time
    there has no representable year). *)
Definition fromtimestamp (v : pyval) : result datetime :=
  rbind (object_to_timeval v) (fun '(timet, us) =>
  rbind (localtime timet) (fun x =>
  rbind (utc_to_seconds x) (fun result_seconds =>
  rbind (local (timet - max_fold_seconds)) (fun probe_seconds =>
  let transition := result_seconds - probe_seconds - max_fold_seconds in
  rbind (if transition <? 0 then local (timet + transition) else Ok 0) (fun _ =>
  Ok {| year := tm_year x; month := tm_mon x; day := tm_mday x;
        hour := tm_hour x; minute := tm_min x; second := Z.min 59 (tm_sec x);
        microsecond := us |}))))).

End LocalTime.

(** ** Text of numbers and dates *)

Definition digit_char (d : Z) : ascii := ascii_of_nat (Z.to_nat (48 + d)).

Fixpoint digits_of_pos_fuel (fuel : nat) (n : Z) (acc : list ascii) : list ascii :=
  match fuel with
  | O => acc
  | S fuel' =>
      let acc' := digit_char (n mod 10) :: acc in
      if n / 10 =? 0 then acc' else digits_of_pos_fuel fuel' (n / 10) acc'
  end.

(** The decimal digits of a natural number. *)
Definition digits_of_Z (n : Z) : list ascii :=
  digits_of_pos_fuel (S (Z.to_nat (Z.log2 n))) n [].

(** [str(n)] for an integer (without the limit that the interpreter
    puts on the number of digits from version 3.11 on). *)
Definition str_of_Z (n : Z) : string :=
  if n <? 0 then String "-" (string_of_list_ascii (digits_of_Z (- n)))
  else string_of_list_ascii (digits_of_Z n).

(** A number in at least [w] digits, zeros first. *)
Definition zero_pad (w : nat) (n : Z) : string :=
  let ds := digits_of_Z n in
  string_of_list_ascii (repeat "0"%char (w - length ds) ++ ds).

(** [d.strftime("%Y-%m-%d")]: the year in decimal, the month and the
    day in two digits.  The interpreter hands the format to the C
    library, and the GNU C library writes the year as it is, without
    zeros before it: a year below 1000 has fewer than four digits.
    (Other C libraries, and later versions of the interpreter, write
    four.) *)
Definition strftime_Ymd (d : datetime) : string :=
  str_of_Z (year d) +:+ "-" +:+ zero_pad 2 (month d) +:+ "-" +:+ zero_pad 2 (day d).

(** *** [str] of a float: the shortest digits that read back *)

(** [p / q < 10 ^ d], for positive [p] and [q]. *)
Definition below_pow10 (p q d : Z) : bool :=
  if 0 <=? d then p <? q * 10 ^ d else p * 10 ^ (- d) <? q.

(** The least [d] from [d0] on with [p / q < 10 ^ d]. *)
Fixpoint find_decpt (fuel : nat) (d0 p q : Z) : Z :=
  match fuel with
  | O => d0
  | S fuel' => if below_pow10 p q d0 then d0 else find_decpt fuel' (d0 + 1) p q
  end.

(** [c * 10 ^ s] is read as the float [x]. *)
Definition reads_back (x : float) (c s : Z) : bool :=
  match c with
  | Zpos cp => PrimFloat.eqb (SF2Prim (round_decimal false cp s)) x
  | _ => false
  end.

(** The candidates with [n] digits around [p / q], the nearer first
    (the even one at a tie); the search stops at the first length at
    which one of them reads back. *)
Fixpoint shortest_digits (fuel : nat) (n : Z) (x : float) (p q decpt : Z) : Z * Z :=
  let s := decpt - n in
  let lo := if 0 <=? s then p / (q * 10 ^ s) else (p * 10 ^ (- s)) / q in
  let hi := lo + 1 in
  match fuel with
  | O => (lo, s)
  | S fuel' =>
      let side :=
        if 0 <=? s then 2 * p ?= (lo + hi) * 10 ^ s * q
        else 2 * p * 10 ^ (- s) ?= (lo + hi) * q in
      let lo_first :=
        match side with
        | Lt => true
        | Gt => false
        | Eq => Z.even lo
        end in
      let '(c1, c2) := if lo_first then (lo, hi) else (hi, lo) in
      if reads_back x c1 s then (c1, s)
      else if reads_back x c2 s then (c2, s)
      else shortest_digits fuel' (n + 1) x p q decpt
  end.

Fixpoint strip_zeros (fuel : nat) (c s : Z) : Z * Z :=
  match fuel with
  | O => (c, s)
  | S fuel' => if c mod 10 =? 0 then strip_zeros fuel' (c / 10) (s + 1) else (c, s)
  end.

(** The digits of a positive finite float [m * 2 ^ e] and the place of
    the decimal point: the value is [0.d1 d2 ... dn * 10 ^ decpt]. *)
Definition float_digits (m : positive) (e : Z) : list ascii * Z :=
  let '(p, q) := if 0 <=? e then (Zpos m * 2 ^ e, 1) else (Zpos m, 2 ^ (- e)) in
  let decpt := find_decpt 700 (- 330) p q in
  let x := SF2Prim (S754_finite false m e) in
  let '(c, s) := shortest_digits 17 1 x p q decpt in
  let '(c, s) := strip_zeros 20 c s in
  let ds := digits_of_Z c in
  (ds, Z.of_nat (length ds) + s).

Definition zeros (n : Z) : list ascii := repeat "0"%char (Z.to_nat n).

(** [repr(x)], which is also [str(x)] and what an f-string puts. *)
Definition float_repr (x : float) : string :=
  match Prim2SF x with
  | S754_nan => "nan"
  | S754_infinity s => if s then "-inf" else "inf"
  | S754_zero s => if s then "-0.0" else "0.0"
  | S754_finite sg m e =>
      let '(ds, decpt) := float_digits m e in
      let n := Z.of_nat (length ds) in
      let body : string :=
        if ((decpt <=? - 4) || (16 <? decpt))%bool then
          let ex := decpt - 1 in
          string_of_list_ascii
            (firstn 1 ds ++ (if 1 <? n then "."%char :: skipn 1 ds else []))
          +:+ "e" +:+ (if ex <? 0 then "-" else "+") +:+ zero_pad 2 (Z.abs ex)
        else if decpt <=? 0 then
          string_of_list_ascii ("0"%char :: "."%char :: zeros (- decpt) ++ ds)
        else if n <=? decpt then
          string_of_list_ascii (ds ++ zeros (decpt - n) ++ ["."%char; "0"%char])
        else
          string_of_list_ascii
            (firstn (Z.to_nat decpt) ds ++ "."%char :: skipn (Z.to_nat decpt) ds) in
      if sg then String "-" body else body
  end.

(** ** The outside world: the network and standard output *)

(** What [requests.get] is given: a URL and the [params] to be encoded
    into its query (none when the URL carries them itself). *)
Record Request : Type := {
  req_url : string;
  req_params : list (string * string)
}.

(** The record that [_get_weather] returns: a [dict] with the three
    keys below, the values as [float], [int] and [float] make them. *)
Module Snapshot.
Record t : Type := {
  temperature : float;
  humidity : Z;
  wind_speed : float
}.
End Snapshot.

(** One record of the list that [get_forecast] returns: a [dict] with
    the four keys below; the date is text, the other values are the
    objects found in the response. *)
Module Entry.
Record t : Type := {
  date : string;
  temp : pyval;
  humidity : pyval;
  wind_speed : pyval
}.
End Entry.

(** An instance of [WeatherAPI] or of its subclass [WeatherForecast]:
    the two attributes that [__init__] sets. *)
Record client : Type := {
  url : string;
  api_key : string
}.

(** [WeatherAPI.__init__]; [API_KEY] is the value of [config.API_KEY]. *)
Definition WeatherAPI_init (API_KEY : string) : client :=
  {| url := "https://api.openweathermap.org/data/2.5/weather";
     api_key := API_KEY |}.

(** [WeatherForecast.__init__]: the parent's, then [url] is replaced. *)
Definition WeatherForecast_init (API_KEY : string) : client :=
  let self := WeatherAPI_init API_KEY in
  {| url := "https://api.openweathermap.org/data/2.5/forecast";
     api_key := api_key self |}.

(** [_processing_response]: three chains of [.get]. *)
Definition _processing_response (data : pyval) : result (pyval * pyval * pyval) :=
  (main <- py_get data "main";;
   temp_c <- py_get main "temp";;
   main' <- py_get data "main";;
   humidity <- py_get main' "humidity";;
   wind <- py_get data "wind";;
   wind_mps <- py_get wind "speed";;
   Ok (temp_c, humidity, wind_mps))%res.

(** The items that [for forecast in v[:5]] visits: the first five
    elements of a list, the first characters of a string (each a string
    of its own).  The other objects have no slices: a [TypeError]
    (for a [dict], up to version 3.11 of the interpreter; later versions
    look the slice up as a key and raise a [KeyError]). *)
Definition first_five (v : pyval) : result (list pyval) :=
  match v with
  | PList l => Ok (firstn 5 l)
  | PStr s =>
      Ok (map (fun c => PStr (String c EmptyString)) (firstn 5 (list_ascii_of_string s)))
  | _ => Raise TypeError
  end.

Section Forecast.

Variable utcoffset : Z -> Z.

(** The body of the loop of [get_forecast] for one element. *)
Definition forecast_entry (forecast : pyval) : result Entry.t :=
  (dt <- py_getitem forecast "dt";;
   date <- fromtimestamp utcoffset dt;;
   main <- py_getitem forecast "main";;
   temp <- py_getitem main "temp";;
   main' <- py_getitem forecast "main";;
   humidity <- py_getitem main' "humidity";;
   wind <- py_getitem forecast "wind";;
   wind_speed <- py_getitem wind "speed";;
   Ok {| Entry.date := strftime_Ymd date;
         Entry.temp := temp;
         Entry.humidity := humidity;
         Entry.wind_speed := wind_speed |})%res.

(** The loop of [get_forecast]: [result] grows by one record for each
    element, and the first failure ends it. *)
Fixpoint forecast_loop (forecasts : list pyval) (result' : list Entry.t)
  : result (list Entry.t) :=
  match forecasts with
  | [] => Ok result'
  | forecast :: rest =>
      (e <- forecast_entry forecast;;
       forecast_loop rest (result' ++ [e]))%res
  end.

End Forecast.

Section Client.

Context {World : Type}.

(** [requests.get(url, params=...).json()]: the decoded body, or the
    exception of the transport or of the decoder; the world moves on. *)
Variable http_get_json : Request -> World -> result pyval * World.

Variable utcoffset : Z -> Z.

Record state : Type := {
  net : World;
  stdout : list string
}.

Definition M (A : Type) : Type := state -> result A * state.

Definition ret {A : Type} (a : A) : M A := fun st => (Ok a, st).

Definition bind {A B : Type} (m : M A) (k : A -> M B) : M B :=
  fun st =>
    match m st with
    | (Ok a, st') => k a st'
    | (Raise e, st') => (Raise e, st')
    end.

Definition lift {A : Type} (r : result A) : M A := fun st => (r, st).

Definition requests_get_json (rq : Request) : M pyval :=
  fun st =>
    let '(r, w) := http_get_json rq (net st) in
    (r, {| net := w; stdout := stdout st |}).

(** [print(line)]: one more line on standard output. *)
Definition print (line : string) : M unit :=
  fun st => (Ok tt, {| net := net st; stdout := stdout st ++ [line] |}).

(** *** class [WeatherAPI] *)

Definition _sending_request (self : client) (city : string) : M pyval :=
  let params := [("appid", api_key self); ("q", city); ("units", "metric")] in
  requests_get_json {| req_url := url self; req_params := params |}.

Definition _get_weather (self : client) (city : string) : M Snapshot.t :=
  bind (_sending_request self city) (fun data =>
  bind (lift (_processing_response data)) (fun '(temp_c, humidity, wind_mps) =>
  bind (lift (py_float temp_c)) (fun t =>
  bind (lift (py_int humidity)) (fun h =>
  bind (lift (py_float wind_mps)) (fun w =>
  ret {| Snapshot.temperature := t;
         Snapshot.humidity := h;
         Snapshot.wind_speed := w |}))))).

Definition show_weather (self : client) (city : string) : M unit :=
  bind (_get_weather self city) (fun weather_data =>
  print ("Температура в " +:+ city +:+ ": "
         +:+ float_repr (Snapshot.temperature weather_data)
         +:+ ">°C, влажность: "
         +:+ str_of_Z (Snapshot.humidity weather_data)
         +:+ ">%, скорость ветра: "
         +:+ float_repr (Snapshot.wind_speed weather_data)
         +:+ "> м/с.")).

(** *** class [WeatherForecast] *)

Definition _send_request (self : client) (city : string) : M pyval :=
  let url := url self +:+ "?q=" +:+ city +:+ "&appid=" +:+ api_key self
             +:+ "&units=metric" in
  requests_get_json {| req_url := url; req_params := [] |}.

Definition get_forecast (self : client) (city : string) : M (list Entry.t) :=
  bind (_send_request self city) (fun data =>
  bind (lift (py_getitem data "list")) (fun lst =>
  bind (lift (first_five lst)) (fun forecasts =>
  lift (forecast_loop utcoffset forecasts [])))).

End Client.

Arguments state World : clear implicits.
Arguments M World A : clear implicits.

(** ** Responses, fields and concrete worlds *)

(** The object at a path of keys inside nested dicts, when there is one. *)
Fixpoint lookup_path (v : pyval) (path : list string) : option pyval :=
  match path with
  | [] => Some v
  | k :: path' =>
      match v with
      | PDict d =>
          match d !! k with
          | Some v' => lookup_path v' path'
          | None => None
          end
      | _ => None
      end
  end.

(** The fields that the current-weather client expects in a response. *)
Definition expected_fields : list (list string) :=
  [["main"]; ["main"; "temp"]; ["main"; "humidity"]; ["wind"]; ["wind"; "speed"]].

Definition lacks_field (data : pyval) (path : list string) : bool :=
  match lookup_path data path with
  | Some _ => false
  | None => true
  end.

Definition lacks_expected_field (data : pyval) : bool :=
  existsb (lacks_field data) expected_fields.

Definition is_float (v : pyval) : bool :=
  match v with
  | PFloat _ => true
  | _ => false
  end.

Definition is_int (v : pyval) : bool :=
  match v with
  | PInt _ => true
  | _ => false
  end.

(** The request of the current-weather client for a city: what
    [_sending_request] hands to [requests.get], for either class. *)
Definition weather_request (self : client) (city : string) : Request :=
  {| req_url := url self;
     req_params := [("appid", api_key self); ("q", city); ("units", "metric")] |}.

(** The request of the forecast client for a city: what
    [_send_request] hands to [requests.get]. *)
Definition forecast_request (self : client) (city : string) : Request :=
  {| req_url := url self +:+ "?q=" +:+ city +:+ "&appid=" +:+ api_key self
                +:+ "&units=metric";
     req_params := [] |}.

(** What [_get_weather] makes of a decoded response. *)
Definition weather_of_response (data : pyval) : result Snapshot.t :=
  (r <- _processing_response data;;
   t <- py_float (fst (fst r));;
   h <- py_int (snd (fst r));;
   w <- py_float (snd r);;
   Ok {| Snapshot.temperature := t;
         Snapshot.humidity := h;
         Snapshot.wind_speed := w |})%res.

(** What [get_forecast] makes of a decoded response. *)
Definition forecast_of_response (utcoffset : Z -> Z) (data : pyval)
  : result (list Entry.t) :=
  (lst <- py_getitem data "list";;
   forecasts <- first_five lst;;
   forecast_loop utcoffset forecasts [])%res.

(** A world in which every request gets the same answer. *)
Definition canned (r : result pyval) (rq : Request) (w : unit)
  : result pyval * unit := (r, w).

(** A world that answers the requests from a script, one after the
    other, and refuses the connection when the script is over. *)
Definition scripted (rq : Request) (w : list (result pyval))
  : result pyval * list (result pyval) :=
  match w with
  | r :: w' => (r, w')
  | [] => (Raise ConnectionError, [])
  end.

(** A world that answers nothing and keeps the requests it was sent. *)
Definition recording (rq : Request) (w : list Request)
  : result pyval * list Request :=
  (Raise ConnectionError, w ++ [rq]).

Definition start {World : Type} (w : World) : state World :=
  {| net := w; stdout := [] |}.

(** The instance of the examples, and the time zone of Odessa in winter. *)
Definition odessa_client : client := WeatherAPI_init "k3y".
Definition odessa_forecast : client := WeatherForecast_init "k3y".
Definition eet (t : Z) : Z := 7200.

(** ** What a request asks the server for *)

(** The two clients hand their parameters to [requests.get] in two ways:
    as [params], which the library encodes, or inside the URL, which the
    library sends as it stands but for the characters that may not be in
    a URL.  Either way a query string goes over the wire, and the server
    reads names and values off it. *)

Definition is_alpha (c : ascii) : bool :=
  let n := nat_of_ascii c in
  ((Nat.leb 65 n && Nat.leb n 90) || (Nat.leb 97 n && Nat.leb n 122))%bool.

Definition one_of (chars : string) (c : ascii) : bool :=
  existsb (Ascii.eqb c) (list_ascii_of_string chars).

(** The characters that are never escaped. *)
Definition is_unreserved (c : ascii) : bool :=
  (is_alpha c || is_digit c || one_of "_.-~" c)%bool.

Definition hex_digit (n : nat) : ascii :=
  if Nat.ltb n 10 then ascii_of_nat (48 + n) else ascii_of_nat (55 + n).

Definition hex_value (c : ascii) : option nat :=
  let n := nat_of_ascii c in
  if (Nat.leb 48 n && Nat.leb n 57)%bool then Some (n - 48)%nat
  else if (Nat.leb 65 n && Nat.leb n 70)%bool then Some (n - 55)%nat
  else if (Nat.leb 97 n && Nat.leb n 102)%bool then Some (n - 87)%nat
  else None.

(** The escape [%XX] of a byte. *)
Definition percent_escape (c : ascii) : list ascii :=
  let n := nat_of_ascii c in
  ["%"%char; hex_digit (n / 16); hex_digit (n mod 16)].

(** [urllib.parse.quote_plus]: what [requests] applies to each name and
    value of [params]. *)
Definition quote_plus_char (c : ascii) : list ascii :=
  if is_unreserved c then [c]
  else if Ascii.eqb c " " then ["+"%char]
  else percent_escape c.

Definition quote_plus (s : string) : list ascii :=
  flat_map quote_plus_char (list_ascii_of_string s).

(** [urllib.parse.urlencode]: [name=value] pairs joined by [&]. *)
Fixpoint urlencode (params : list (string * string)) : list ascii :=
  match params with
  | [] => []
  | [(k, v)] => quote_plus k ++ "="%char :: quote_plus v
  | (k, v) :: rest => quote_plus k ++ "="%char :: quote_plus v ++ "&"%char :: urlencode rest
  end.

(** The text before the first [sep] and, when there is one, the text
    after it. *)
Fixpoint break_at (sep : ascii) (cs : list ascii) : list ascii * option (list ascii) :=
  match cs with
  | [] => ([], None)
  | c :: r =>
      if Ascii.eqb c sep then ([], Some r)
      else let '(a, b) := break_at sep r in (c :: a, b)
  end.

(** The pieces between the occurrences of [sep]. *)
Fixpoint split_on (sep : ascii) (cs : list ascii) : list (list ascii) :=
  match cs with
  | [] => [[]]
  | c :: r =>
      if Ascii.eqb c sep then [] :: split_on sep r
      else
        match split_on sep r with
        | p :: ps => (c :: p) :: ps
        | [] => [[c]]
        end
  end.

(** The query of a URL: what stands between the first [?] and the
    fragment, which the first [#] starts. *)
Definition url_query (u : string) : list ascii :=
  let '(no_fragment, _) := break_at "#" (list_ascii_of_string u) in
  match break_at "?" no_fragment with
  | (_, Some q) => q
  | (_, None) => []
  end.

(** The number of escapes [%XX] in a text, from left to right. *)
Fixpoint count_escapes (fuel : nat) (cs : list ascii) : nat :=
  match fuel with
  | O => O
  | S fuel' =>
      match cs with
      | "%"%char :: a :: b :: r =>
          match hex_value a, hex_value b with
          | Some _, Some _ => S (count_escapes fuel' r)
          | _, _ => count_escapes fuel' (a :: b :: r)
          end
      | _ :: r => count_escapes fuel' r
      | [] => O
      end
  end.

Definition count_percent (cs : list ascii) : nat :=
  length (List.filter (fun c => Ascii.eqb c "%") cs).

(** The characters that may stand in a query unescaped. *)
Definition is_query_char (c : ascii) : bool :=
  (is_unreserved c || one_of "!$&'()*+,;=:@/?" c)%bool.

(** A character of the query of a URL as the library sends it: one that
    may not be in a query is escaped; a [%] sign is kept when every one
    of them starts an escape, and escaped itself otherwise. *)
Definition encode_query_char (is_percent_encoded : bool) (c : ascii) : list ascii :=
  if ((is_percent_encoded && Ascii.eqb c "%")
      || (Nat.ltb (nat_of_ascii c) 128 && is_query_char c))%bool
  then [c] else percent_escape c.

Definition encode_invalid_chars (cs : list ascii) : list ascii :=
  let is_percent_encoded := Nat.eqb (count_escapes (length cs) cs) (count_percent cs) in
  flat_map (encode_query_char is_percent_encoded) cs.

(** The query string that [requests.get] puts on the wire: the query of
    the URL, then the encoded [params]. *)
Definition sent_query (rq : Request) : list ascii :=
  let query := encode_invalid_chars (url_query (req_url rq)) in
  let enc_params := urlencode (req_params rq) in
  match enc_params, query with
  | [], _ => query
  | _, [] => enc_params
  | _, _ => query ++ "&"%char :: enc_params
  end.

(** The server's reading of a name or value: [+] is a space and [%XX]
    the byte with that code; a [%] that starts no escape stands for
    itself. *)
Fixpoint unquote_plus (fuel : nat) (cs : list ascii) : list ascii :=
  match fuel with
  | O => []
  | S fuel' =>
      match cs with
      | [] => []
      | "+"%char :: r => " "%char :: unquote_plus fuel' r
      | "%"%char :: a :: b :: r =>
          match hex_value a, hex_value b with
          | Some x, Some y => ascii_of_nat (16 * x + y) :: unquote_plus fuel' r
          | _, _ => "%"%char :: unquote_plus fuel' (a :: b :: r)
          end
      | c :: r => c :: unquote_plus fuel' r
      end
  end.

Definition decode_text (cs : list ascii) : string :=
  string_of_list_ascii (unquote_plus (length cs) cs).

(** The server's reading of a query string: the pieces between [&],
    each a name and, after its first [=], a value. *)
Definition parse_query (q : list ascii) : list (string * string) :=
  map
    (fun piece =>
       let '(name, value) := break_at "=" piece in
       (decode_text name, decode_text (default [] value)))
    (List.filter (fun piece => negb (Nat.eqb (length piece) 0)) (split_on "&" q)).

(** The parameters that the server receives with a request. *)
Definition received_params (rq : Request) : list (string * string) :=
  parse_query (sent_query rq).

(** The value that the server finds under a name (the first, when the
    name comes more than once). *)
Fixpoint param (name : string) (ps : list (string * string)) : option string :=
  match ps with
  | [] => None
  | (k, v) :: rest => if String.eqb k name then Some v else param name rest
  end.

(** Text without the characters that mean something in a query: [&]
    and [=], which part the parameters, [#], which ends the query, and
    [+] and [%], which the server reads as a space and as an escape. *)
Definition plain_char (c : ascii) : bool := negb (one_of "&=#+%" c).

Definition plain_text (s : string) : bool :=
  forallb plain_char (list_ascii_of_string s).

(** A text without the character [sep]. *)
Definition lacks (sep : ascii) (cs : list ascii) : bool :=
  forallb (fun c => negb (Ascii.eqb c sep)) cs.

(** A URL with neither a query nor a fragment of its own. *)
Definition bare_url (u : string) : bool :=
  (lacks "?" (list_ascii_of_string u) && lacks "#" (list_ascii_of_string u))%bool.



(** ** Sample responses *)

Definition sample_main : gmap string pyval :=
  {[ "temp" := PFloat 21.5; "humidity" := PInt 60 ]}.

Definition sample_wind : gmap string pyval :=
  {[ "speed" := PFloat 3.2 ]}.

(** [{"main": {"temp": 21.5, "humidity": 60}, "wind": {"speed": 3.2}}] *)
Definition sample_weather : gmap string pyval :=
  {[ "main" := PDict sample_main; "wind" := PDict sample_wind ]}.





(** ** Forecast responses: well-formed entries, dates as text *)

(** *** Dates and their text, as the specification speaks of them *)

(** These definitions say what a calendar date, its text and the day of
    an instant are by the calendar itself; they use nothing of the
    model of the interpreter above, against which they are compared. *)

Definition decimal_digit (n : Z) : string :=
  match n with
  | 0 => "0" | 1 => "1" | 2 => "2" | 3 => "3" | 4 => "4"
  | 5 => "5" | 6 => "6" | 7 => "7" | 8 => "8" | 9 => "9"
  | _ => "?"
  end.

Definition two_digits (n : Z) : string :=
  decimal_digit (n / 10) +:+ decimal_digit (n mod 10).

Definition four_digits (n : Z) : string :=
  two_digits (n / 100) +:+ two_digits (n mod 100).

(** The text [YYYY-MM-DD] of a date: four digits of the year, two of
    the month, two of the day, with dashes between. *)
Definition iso_date (y m d : Z) : string :=
  four_digits y +:+ "-" +:+ two_digits m +:+ "-" +:+ two_digits d.

(** A year from 0 to 9999 in decimal, with no zeros before it. *)
Definition year_digits (y : Z) : string :=
  if y <? 10 then decimal_digit y
  else if y <? 100 then two_digits y
  else if y <? 1000 then decimal_digit (y / 100) +:+ two_digits (y mod 100)
  else four_digits y.

(** The text of a date with the year as it is: [YYYY-MM-DD] but for the
    zeros before a year below 1000. *)
Definition plain_date (y m d : Z) : string :=
  year_digits y +:+ "-" +:+ two_digits m +:+ "-" +:+ two_digits d.

(** The Gregorian calendar: every fourth year is a leap year, but of the
    years that end a century only every fourth. *)
Definition leap_year (y : Z) : bool :=
  if y mod 400 =? 0 then true
  else if y mod 100 =? 0 then false
  else y mod 4 =? 0.

Definition length_of_year (y : Z) : Z := if leap_year y then 366 else 365.

Definition length_of_month (y m : Z) : Z :=
  match m with
  | 1 => 31
  | 2 => if leap_year y then 29 else 28
  | 3 => 31 | 4 => 30 | 5 => 31 | 6 => 30
  | 7 => 31 | 8 => 31 | 9 => 30 | 10 => 31 | 11 => 30 | 12 => 31
  | _ => 0
  end.

Definition calendar_date (y m d : Z) : bool :=
  ((1 <=? m) && (m <=? 12) && (1 <=? d) && (d <=? length_of_month y m))%bool.

(** [f a + f (a + 1) + ...], [n] terms. *)
Fixpoint sum_from (f : Z -> Z) (a : Z) (n : nat) : Z :=
  match n with
  | O => 0
  | S n' => f a + sum_from f (a + 1) n'
  end.

(** The days from 1 January 1970, the day on which Unix time starts, to
    a date (negative for an earlier date): whole years, then whole
    months, then days. *)
Definition days_since_1970 (y m d : Z) : Z :=
  (if 1970 <=? y then sum_from length_of_year 1970 (Z.to_nat (y - 1970))
   else - sum_from length_of_year y (Z.to_nat (1970 - y)))
  + sum_from (length_of_month y) 1 (Z.to_nat (m - 1))
  + (d - 1).

(** The local calendar day (year, month, day) contains the instant [t]
    (a Unix timestamp): the day is a date of the calendar, and the local
    time of [t] falls between its midnight and the next. *)
Definition day_contains (utcoffset : Z -> Z) (y m d : Z) (t : Z) : Prop :=
  calendar_date y m d = true
  /\ 86400 * days_since_1970 y m d <= t + utcoffset t
     < 86400 * (days_since_1970 y m d + 1).

(** The fields that the forecast client reads in an element of [list]. *)
Definition forecast_fields : list (list string) :=
  [["dt"]; ["main"]; ["main"; "temp"]; ["main"; "humidity"]; ["wind"]; ["wind"; "speed"]].

Definition lacks_forecast_field (forecast : pyval) : bool :=
  existsb (lacks_field forecast) forecast_fields.

(** An element of [list] is well-formed: it has a [dt] that is a
    timestamp of a representable local time, and [main.temp],
    [main.humidity] and [wind.speed]. *)
Definition well_formed_entry (utcoffset : Z -> Z) (forecast : pyval) : bool :=
  match lookup_path forecast ["dt"], lookup_path forecast ["main"; "temp"],
        lookup_path forecast ["main"; "humidity"],
        lookup_path forecast ["wind"; "speed"] with
  | Some dt, Some _, Some _, Some _ => succeeds (fromtimestamp utcoffset dt)
  | _, _, _, _ => false
  end.

(** What an element holds is of the right kind: [dt], when there, is a
    timestamp of a representable local time; [main] and [wind], when
    there, are dicts. *)
Definition present_parts_typed (utcoffset : Z -> Z) (f : gmap string pyval) : bool :=
  (match f !! "dt" with
   | Some dt => succeeds (fromtimestamp utcoffset dt)
   | None => true
   end
   && match f !! "main" with
      | Some (PDict _) | None => true
      | Some _ => false
      end
   && match f !! "wind" with
      | Some (PDict _) | None => true
      | Some _ => false
      end)%bool.

(** The record [e] is made of the element [forecast]: its date is the
    text of the local date of [dt], its other fields are the objects
    found at [main.temp], [main.humidity] and [wind.speed]. *)
Definition reshaped (utcoffset : Z -> Z) (forecast : pyval) (e : Entry.t) : Prop :=
  exists (dt : pyval) (date : datetime),
    lookup_path forecast ["dt"] = Some dt
    /\ fromtimestamp utcoffset dt = Ok date
    /\ Entry.date e = strftime_Ymd date
    /\ lookup_path forecast ["main"; "temp"] = Some (Entry.temp e)
    /\ lookup_path forecast ["main"; "humidity"] = Some (Entry.humidity e)
    /\ lookup_path forecast ["wind"; "speed"] = Some (Entry.wind_speed e).

(** An element of [list] as the service sends it. *)
Definition sample_entry (dt : Z) (temp : pyval) (humidity : Z) (speed : float) : pyval :=
  PDict {[ "dt" := PInt dt;
           "main" := PDict {[ "temp" := temp; "humidity" := PInt humidity ]};
           "wind" := PDict {[ "speed" := PFloat speed ]} ]}.

(** Eight elements, three hours apart, from 2023-11-14 19:26:40 UTC
    (21:26:40 in Odessa). *)
Definition sample_list8 : list pyval :=
  [sample_entry 1699990000 (PFloat 7.5) 81 4.1;
   sample_entry 1700000800 (PFloat 6.9) 84 3.8;
   sample_entry 1700011600 (PFloat 6.1) 86 3.2;
   sample_entry 1700022400 (PFloat 5.8) 88 2.9;
   sample_entry 1700033200 (PFloat 7.2) 80 3.5;
   sample_entry 1700044000 (PFloat 9.4) 71 4.4;
   sample_entry 1700054800 (PFloat 10.3) 66 5.0;
   sample_entry 1700065600 (PFloat 9.1) 70 4.6].

(** The first five samples and a sixth element that is an empty dict. *)
Definition sample_list6_bad : list pyval :=
  firstn 5 sample_list8 ++ [PDict ∅].

(** Two samples and a third element without [main]. *)
Definition sample_list3_bad : list pyval :=
  firstn 2 sample_list8
  ++ PDict {[ "dt" := PInt 1700011600; "wind" := PDict {[ "speed" := PFloat 3.2 ]} ]}
  :: skipn 3 sample_list8.

Definition sample_forecast (l : list pyval) : gmap string pyval :=
  {[ "list" := PList l ]}.

(** A list of one element with an integer temperature, as JSON [8]. *)
Definition sample_int_temp : gmap string pyval :=
  sample_forecast [sample_entry 1699990000 (PInt 8) 81 4.1].

(** A list of one element with a timestamp of the year 702, 462963 days
    before 1970. *)
Definition sample_year_702 : gmap string pyval :=
  sample_forecast [sample_entry (-40000000000) (PFloat 7.5) 81 4.1].

(** ** Fetches, for statements about several calls *)

(** The line that [show_weather] prints for a city and a record. *)
Definition weather_line (city : string) (weather_data : Snapshot.t) : string :=
  "Температура в " +:+ city +:+ ": "
  +:+ float_repr (Snapshot.temperature weather_data)
  +:+ ">°C, влажность: "
  +:+ str_of_Z (Snapshot.humidity weather_data)
  +:+ ">%, скорость ветра: "
  +:+ float_repr (Snapshot.wind_speed weather_data)
  +:+ "> м/с.".

(** The two fetch operations, as values. *)
Inductive fetch : Type :=
| FetchSnapshot (self : client) (city : string)
| FetchForecast (self : client) (city : string).

Inductive fetch_kind : Type :=
| Current
| Forecast.

Definition kind_of (f : fetch) : fetch_kind :=
  match f with
  | FetchSnapshot _ _ => Current
  | FetchForecast _ _ => Forecast
  end.

Definition request_of (f : fetch) : Request :=
  match f with
  | FetchSnapshot self city => weather_request self city
  | FetchForecast self city => forecast_request self city
  end.

(** What a fetch returns: a record, or a list of records. *)
Definition fetched : Type := Snapshot.t + list Entry.t.

Definition run_fetch {World : Type}
    (http : Request -> World -> result pyval * World) (utcoffset : Z -> Z)
    (f : fetch) : M World fetched :=
  match f with
  | FetchSnapshot self city =>
      bind (_get_weather http self city) (fun x => ret (inl x))
  | FetchForecast self city =>
      bind (get_forecast http utcoffset self city) (fun x => ret (inr x))
  end.

(** The result of a fetch of a kind as a function of the answer that the
    network gave to its request. *)
Definition result_of_answer (utcoffset : Z -> Z) (k : fetch_kind)
    (answer : result pyval) : result fetched :=
  match k with
  | Current => rbind (rbind answer weather_of_response) (fun x => Ok (inl x))
  | Forecast =>
      rbind (rbind answer (forecast_of_response utcoffset)) (fun x => Ok (inr x))
  end.

(** ** Tables checked by computation *)

(** The month and day found for day [k] of a year are a date of that
    year, [k] days after its first. *)
Definition month_day_check (leap : bool) (k : nat) : bool :=
  let n := Z.of_nat k in
  let '(m, d) := month_day leap n in
  ((1 <=? m) && (m <=? 12) && (1 <=? d)
   && (d <=? days_in_month_common m + (if ((m =? 2) && leap)%bool then 1 else 0))
   && (days_before_month_common m + (if ((2 <? m) && leap)%bool then 1 else 0) + d
       =? n + 1))%bool.

(** [str] writes a number below ten thousand in its decimal digits. *)
Definition year_digits_check (k : nat) : bool :=
  let y := Z.of_nat k in String.eqb (str_of_Z y) (year_digits y).

(** A number below a hundred, padded, is written in two digits. *)
Definition pad2_check (k : nat) : bool :=
  let y := Z.of_nat k in String.eqb (zero_pad 2 y) (two_digits y).

(** ** The script's [main] *)

Section Main.

Context {World : Type}.
Variable http_get_json : Request -> World -> result pyval * World.
Variable utcoffset : Z -> Z.

(** The text that [print] writes for an object, its [repr]; it is a
    parameter here. *)
Variable repr : pyval -> string.

(** What [print(day)] writes for a record of the forecast: the [dict]
    with its four keys in the order in which they were put. *)
Definition day_line (day : Entry.t) : string :=
  "{'date': " +:+ repr (PStr (Entry.date day))
  +:+ ", 'temp': " +:+ repr (Entry.temp day)
  +:+ ", 'humidity': " +:+ repr (Entry.humidity day)
  +:+ ", 'wind_speed': " +:+ repr (Entry.wind_speed day) +:+ "}".

(** [for day in days: print(day)]. *)
Fixpoint print_days (days : list Entry.t) : M World unit :=
  match days with
  | [] => ret tt
  | day :: rest => bind (print (day_line day)) (fun _ => print_days rest)
  end.

(** [main]; [API_KEY] is the value of [config.API_KEY], which the two
    constructors read. *)
Definition main (API_KEY : string) : M World unit :=
  let output := WeatherAPI_init API_KEY in
  bind (show_weather http_get_json output "Одесса") (fun _ =>
  let forecast := WeatherForecast_init API_KEY in
  bind (get_forecast http_get_json utcoffset forecast "Одесса") (fun days =>
  print_days days)).

End Main.

(** ** More kinds of responses and elements *)

Definition is_dict (v : pyval) : bool :=
  match v with
  | PDict _ => true
  | _ => false
  end.

Definition is_list (v : pyval) : bool :=
  match v with
  | PList _ => true
  | _ => false
  end.

(** An element of [list] as the service sends it: an integer [dt] from
    1970 to the last day but one of the year 9999, and the three values
    at [main.temp], [main.humidity] and [wind.speed]. *)
Definition unix_entry (forecast : pyval) : bool :=
  match lookup_path forecast ["dt"], lookup_path forecast ["main"; "temp"],
        lookup_path forecast ["main"; "humidity"],
        lookup_path forecast ["wind"; "speed"] with
  | Some (PInt t), Some _, Some _, Some _ => (0 <=? t) && (t <? 253402214400)
  | _, _, _, _ => false
  end.

(** The exceptions that [get_forecast] raises once the answer is there. *)
Definition forecast_error (e : exn) : bool :=
  match e with
  | KeyError | TypeError | ValueError | OverflowError | OSError => true
  | _ => false
  end.

(** The exceptions that [_get_weather] raises once the answer is there. *)
Definition weather_error (e : exn) : bool :=
  match e with
  | AttributeError | TypeError | ValueError | OverflowError => true
  | _ => false
  end.

(** A [repr] for the examples: numbers as [str] writes them, text
    between quotes (as it is written when it holds neither quotes nor
    escapes); lists and dicts, which the examples do not print, are
    abridged. *)
Definition sample_repr (v : pyval) : string :=
  match v with
  | PNone => "None"
  | PBool b => if b then "True" else "False"
  | PInt z => str_of_Z z
  | PFloat f => float_repr f
  | PStr s => "'" +:+ s +:+ "'"
  | PList _ => "[...]"
  | PDict _ => "{...}"
  end.

(** A current-weather response in other guises: an integer temperature,
    a humidity with a fraction, the wind speed as text. *)
Definition sample_guises : gmap string pyval :=
  {[ "main" := PDict {[ "temp" := PInt 21; "humidity" := PFloat 60.7 ]};
     "wind" := PDict {[ "speed" := PStr "3.2" ]} ]}.

(** The sample response with more in it than the client reads. *)
Definition sample_weather_more : gmap string pyval :=
  {[ "cod" := PInt 200;
     "name" := PStr "Odesa";
     "main" := PDict {[ "temp" := PFloat 21.5; "humidity" := PInt 60;
                        "pressure" := PInt 1014 ]};
     "wind" := PDict {[ "speed" := PFloat 3.2; "deg" := PInt 240 ]} ]}.

(** ** Proof automation *)

(** A case for each of the 256 characters. *)
Ltac each_char c := destruct c as [[] [] [] [] [] [] [] []].

(** Closes a goal [r = Raise e -> ...] by the exception that [r] is. *)
Ltac by_raised :=
  let H := fresh in
  intros H; first [ discriminate H | injection H as <-; auto ].

(** * Properties *)

(** ** The current-weather client *)

Section WeatherFacts.

Context {World : Type}.
Variable http : Request -> World -> result pyval * World.

(** A call of [_get_weather] is one request, and its result is made of
    the answer alone; standard output is left as it is. *)
Lemma get_weather_run (self : client) (city : string) (st : state World) :
  _get_weather http self city st
  = (rbind (fst (http (weather_request self city) (net st))) weather_of_response,
     {| net := snd (http (weather_request self city) (net st));
        stdout := stdout st |}).
Proof.
  unfold _get_weather, _sending_request, requests_get_json, bind, lift, ret,
    weather_request, weather_of_response.
  destruct (http _ (net st)) as [[data | e] w]; simpl; [ | reflexivity].
  destruct (_processing_response data) as [[[temp_c humidity] wind_mps] | e];
    simpl; [ | reflexivity].
  destruct (py_float temp_c); simpl; [ | reflexivity].
  destruct (py_int humidity); simpl; [ | reflexivity].
  destruct (py_float wind_mps); reflexivity.
Qed.

End WeatherFacts.

(** *** The extraction and the conversions *)

Lemma py_float_None : py_float PNone = Raise TypeError.
Proof. reflexivity. Qed.

Lemma py_int_None : py_int PNone = Raise TypeError.
Proof. reflexivity. Qed.

(** [float(v)] raises nothing but [TypeError], [ValueError] and
    [OverflowError]. *)
Lemma py_float_raises (v : pyval) (e : exn) :
  py_float v = Raise e -> e = TypeError \/ e = ValueError \/ e = OverflowError.
Proof.
  destruct v as [ | b | z | f | s | l | d]; simpl; try by_raised.
  - unfold float_of_Z.
    destruct (binary_normalize prec emax z 0 false); by_raised.
  - destruct (float_of_str s); by_raised.
Qed.

Lemma py_int_raises (v : pyval) (e : exn) :
  py_int v = Raise e -> e = TypeError \/ e = ValueError \/ e = OverflowError.
Proof.
  destruct v as [ | b | z | f | s | l | d]; simpl; try by_raised.
  - unfold Z_of_float. destruct (Prim2SF f); by_raised.
  - destruct (int_of_str s); by_raised.
Qed.

(** With [main] and [wind] both dicts, the extraction succeeds and puts
    [None] where an inner key is absent. *)
Lemma processing_response_dicts (d m w : gmap string pyval) :
  d !! "main" = Some (PDict m) ->
  d !! "wind" = Some (PDict w) ->
  _processing_response (PDict d)
  = Ok (default PNone (m !! "temp"), default PNone (m !! "humidity"),
        default PNone (w !! "speed")).
Proof.
  intros Hm Hw. unfold _processing_response. simpl. rewrite Hm, Hw. reflexivity.
Qed.

(** The extraction fails in one way only: a [.get] on something that is
    no dict. *)
Lemma processing_response_raises (data : pyval) (e : exn) :
  _processing_response data = Raise e -> e = AttributeError.
Proof.
  unfold _processing_response.
  destruct data as [ | | | | | | d]; simpl; try by_raised.
  destruct (default PNone (d !! "main")) as [ | | | | | | m]; simpl; try by_raised.
  destruct (default PNone (d !! "wind")) as [ | | | | | | w]; simpl; by_raised.
Qed.

Lemma processing_response_no_main (d : gmap string pyval) :
  d !! "main" = None -> _processing_response (PDict d) = Raise AttributeError.
Proof.
  intros H. unfold _processing_response. simpl. rewrite H. reflexivity.
Qed.

Lemma processing_response_no_wind (d : gmap string pyval) :
  d !! "wind" = None -> _processing_response (PDict d) = Raise AttributeError.
Proof.
  intros H. unfold _processing_response. simpl. rewrite H.
  destruct (default PNone (d !! "main")); reflexivity.
Qed.

(** When the extraction succeeds, [main] and [wind] are dicts. *)
Lemma processing_response_ok (d : gmap string pyval) (r : pyval * pyval * pyval) :
  _processing_response (PDict d) = Ok r ->
  exists m w, d !! "main" = Some (PDict m) /\ d !! "wind" = Some (PDict w).
Proof.
  unfold _processing_response. simpl.
  destruct (d !! "main") as [[ | | | | | | m] | ]; simpl; try discriminate.
  destruct (d !! "wind") as [[ | | | | | | w] | ]; simpl; try discriminate.
  intros _. eauto.
Qed.

(** Whatever [_get_weather] raises after the answer has come is an
    [AttributeError], [TypeError], [ValueError] or [OverflowError]. *)
Lemma weather_of_response_raises (data : pyval) (e : exn) :
  weather_of_response data = Raise e ->
  e = AttributeError \/ e = TypeError \/ e = ValueError \/ e = OverflowError.
Proof.
  unfold weather_of_response.
  destruct (_processing_response data) as [[[t h] w] | e'] eqn:E; simpl.
  - destruct (py_float t) eqn:Et; simpl;
      [ | intros [= <-]; right; eapply py_float_raises; eassumption].
    destruct (py_int h) eqn:Eh; simpl;
      [ | intros [= <-]; right; eapply py_int_raises; eassumption].
    destruct (py_float w) eqn:Ew; simpl;
      [ discriminate | intros [= <-]; right; eapply py_float_raises; eassumption].
  - intros [= <-]. left. eapply processing_response_raises; eassumption.
Qed.

(** A record comes out only of a response that has all the expected
    fields. *)
Lemma weather_of_response_ok (d : gmap string pyval) (s : Snapshot.t) :
  weather_of_response (PDict d) = Ok s ->
  lacks_expected_field (PDict d) = false.
Proof.
  unfold weather_of_response.
  destruct (_processing_response (PDict d)) as [r | e'] eqn:E; simpl; [ | discriminate].
  destruct (processing_response_ok d r E) as (m & w & Hm & Hw).
  rewrite (processing_response_dicts d m w Hm Hw) in E. injection E as <-. simpl.
  unfold lacks_expected_field, lacks_field. simpl. rewrite Hm, Hw.
  destruct (m !! "temp"); simpl; [ | discriminate].
  destruct (py_float p); simpl; [ | discriminate].
  destruct (m !! "humidity"); simpl; [ | discriminate].
  destruct (py_int p0); simpl; [ | discriminate].
  destruct (w !! "speed"); simpl; [ | discriminate].
  reflexivity.
Qed.

Lemma lacks_main_or_wind (d : gmap string pyval) :
  lacks_field (PDict d) ["main"] = true \/ lacks_field (PDict d) ["wind"] = true ->
  d !! "main" = None \/ d !! "wind" = None.
Proof.
  unfold lacks_field. simpl.
  destruct (d !! "main"); destruct (d !! "wind"); intuition discriminate.
Qed.

(** *** The result on a well-formed response *)

Section WeatherResults.

Context {World : Type}.
Variable http : Request -> World -> result pyval * World.

(** The values are converted, whatever guise they come in: the record
    holds [float(temp)], [int(humidity)] and [float(speed)]. *)
Lemma get_weather_converts (self : client) (city : string) (st : state World)
    (d m w : gmap string pyval) (vt vh vw : pyval) (t : float) (h : Z) (s : float) :
  fst (http (weather_request self city) (net st)) = Ok (PDict d) ->
  d !! "main" = Some (PDict m) -> d !! "wind" = Some (PDict w) ->
  m !! "temp" = Some vt -> m !! "humidity" = Some vh -> w !! "speed" = Some vw ->
  py_float vt = Ok t -> py_int vh = Ok h -> py_float vw = Ok s ->
  fst (_get_weather http self city st)
  = Ok {| Snapshot.temperature := t; Snapshot.humidity := h; Snapshot.wind_speed := s |}.
Proof.
  intros Hr Hm Hw Ht Hh Hs Ft Fh Fs.
  rewrite get_weather_run. simpl. rewrite Hr. simpl.
  unfold weather_of_response.
  rewrite (processing_response_dicts d m w Hm Hw). simpl.
  rewrite Ht, Hh, Hs. simpl. rewrite Ft. simpl. rewrite Fh. simpl. rewrite Fs.
  reflexivity.
Qed.

End WeatherResults.

(** C3. For a well-formed current-weather response with [main.temp] 21.5,
    [main.humidity] 60 and [wind.speed] 3.2, [_get_weather] returns the
    record with temperature 21.5 and wind speed 3.2 as floats and
    humidity 60 as an integer. *)
Theorem get_weather_well_formed {World : Type}
    (http : Request -> World -> result pyval * World)
    (self : client) (city : string) (st : state World)
    (d m w : gmap string pyval) :
  fst (http (weather_request self city) (net st)) = Ok (PDict d) ->
  d !! "main" = Some (PDict m) ->
  m !! "temp" = Some (PFloat 21.5) ->
  m !! "humidity" = Some (PInt 60) ->
  d !! "wind" = Some (PDict w) ->
  w !! "speed" = Some (PFloat 3.2) ->
  fst (_get_weather http self city st)
  = Ok {| Snapshot.temperature := 21.5;
          Snapshot.humidity := 60;
          Snapshot.wind_speed := 3.2 |}.
Proof.
  intros Hr Hm Ht Hh Hw Hs.
  eapply get_weather_converts; eauto.
Qed.

Lemma get_weather_well_formed_witness :
  fst (_get_weather (canned (Ok (PDict sample_weather))) odessa_client "Odessa"
         (start tt))
  = Ok {| Snapshot.temperature := 21.5;
          Snapshot.humidity := 60;
          Snapshot.wind_speed := 3.2 |}.
Proof.
  apply (get_weather_well_formed (canned (Ok (PDict sample_weather)))
           odessa_client "Odessa" (start tt) sample_weather sample_main sample_wind);
    reflexivity.
Defined.

(** The same record comes out of other guises of the same numbers: an
    integer temperature, a humidity with a fraction, numbers as text. *)
Example get_weather_coerces :
  fst (_get_weather
         (canned (Ok (PDict {[ "main" := PDict {[ "temp" := PInt 21;
                                                  "humidity" := PFloat 60.7 ]};
                               "wind" := PDict {[ "speed" := PStr "3.2" ]} ]})))
         odessa_client "Odessa" (start tt))
  = Ok {| Snapshot.temperature := 21;
          Snapshot.humidity := 60;
          Snapshot.wind_speed := 3.2 |}.
Proof. vm_compute. reflexivity. Qed.

(** *** Responses that lack a field *)

(** C1, as the code has it.  When the response is a dict that lacks an
    expected field ([main], [main.temp], [main.humidity], [wind] or
    [wind.speed]), [_get_weather] returns no record: it raises, and what
    it raises is an [AttributeError], [TypeError], [ValueError] or
    [OverflowError], never an exception of the [LookupError] class; it is
    an [AttributeError] when [main] or [wind] itself is absent. *)
Theorem get_weather_missing_field_fails {World : Type}
    (http : Request -> World -> result pyval * World)
    (self : client) (city : string) (st : state World) (d : gmap string pyval) :
  fst (http (weather_request self city) (net st)) = Ok (PDict d) ->
  lacks_expected_field (PDict d) = true ->
  exists e : exn,
    fst (_get_weather http self city st) = Raise e
    /\ is_LookupError e = false
    /\ (e = AttributeError \/ e = TypeError \/ e = ValueError \/ e = OverflowError)
    /\ (lacks_field (PDict d) ["main"] = true \/ lacks_field (PDict d) ["wind"] = true ->
        e = AttributeError).
Proof.
  intros Hr Hlack.
  rewrite get_weather_run. simpl. rewrite Hr. simpl.
  destruct (weather_of_response (PDict d)) as [s | e] eqn:E.
  - apply weather_of_response_ok in E. congruence.
  - exists e. split; [reflexivity | ].
    pose proof (weather_of_response_raises _ _ E) as Hcls.
    split; [ | split; [exact Hcls | ]].
    + destruct Hcls as [-> | [-> | [-> | ->]]]; reflexivity.
    + intros Habs. apply lacks_main_or_wind in Habs.
      unfold weather_of_response in E.
      destruct Habs as [H | H];
        [ rewrite (processing_response_no_main d H) in E
        | rewrite (processing_response_no_wind d H) in E ];
        simpl in E; congruence.
Qed.

Lemma get_weather_missing_field_fails_witness :
  exists e : exn,
    fst (_get_weather (canned (Ok (PDict {[ "main" := PDict sample_main ]})))
           odessa_client "Odessa" (start tt)) = Raise e
    /\ is_LookupError e = false
    /\ (e = AttributeError \/ e = TypeError \/ e = ValueError \/ e = OverflowError)
    /\ (lacks_field (PDict {[ "main" := PDict sample_main ]}) ["main"] = true
        \/ lacks_field (PDict {[ "main" := PDict sample_main ]}) ["wind"] = true ->
        e = AttributeError).
Proof.
  apply (get_weather_missing_field_fails
           (canned (Ok (PDict {[ "main" := PDict sample_main ]})))
           odessa_client "Odessa" (start tt) {[ "main" := PDict sample_main ]});
    reflexivity.
Defined.

(** C1 as the specification words it fails: a response without [main]
    makes [_get_weather] raise an [AttributeError], which is no
    [LookupError]. *)
Lemma get_weather_missing_main_not_LookupError :
  lacks_expected_field (PDict ∅) = true
  /\ fst (_get_weather (canned (Ok (PDict ∅))) odessa_client "Odessa" (start tt))
     = Raise AttributeError
  /\ is_LookupError AttributeError = false.
Proof. repeat split. Qed.

(** The same with [main.temp] absent: a [TypeError]. *)
Example get_weather_missing_temp_TypeError :
  fst (_get_weather
         (canned (Ok (PDict {[ "main" := PDict {[ "humidity" := PInt 60 ]};
                               "wind" := PDict sample_wind ]})))
         odessa_client "Odessa" (start tt))
  = Raise TypeError.
Proof. reflexivity. Qed.

(** An earlier conversion may fail first and in its own way: with
    [main.humidity] absent and a temperature that is no number, the
    failure is the [ValueError] of [float]. *)
Example get_weather_earlier_conversion_fails_first :
  fst (_get_weather
         (canned (Ok (PDict {[ "main" := PDict {[ "temp" := PStr "n/a" ]};
                               "wind" := PDict sample_wind ]})))
         odessa_client "Odessa" (start tt))
  = Raise ValueError.
Proof. vm_compute. reflexivity. Qed.




(** *** Printing *)

Section ShowWeather.

Context {World : Type}.
Variable http : Request -> World -> result pyval * World.

(** [show_weather] is the fetch and then, when the fetch has returned a
    record, one line on standard output. *)
Lemma show_weather_run (self : client) (city : string) (st : state World) :
  show_weather http self city st
  = match _get_weather http self city st with
    | (Ok weather_data, st') =>
        (Ok tt, {| net := net st'; stdout := stdout st' ++ [weather_line city weather_data] |})
    | (Raise e, st') => (Raise e, st')
    end.
Proof.
  unfold show_weather, bind, print, weather_line.
  destruct (_get_weather http self city st) as [[wd | e] st']; reflexivity.
Qed.

(** The fetch itself writes nothing. *)
Lemma get_weather_silent (self : client) (city : string) (st : state World) :
  stdout (snd (_get_weather http self city st)) = stdout st.
Proof. rewrite get_weather_run. reflexivity. Qed.

(** A line on standard output means that the fetch has succeeded. *)
Lemma show_weather_prints_after_success (self : client) (city : string)
    (st : state World) :
  stdout (snd (show_weather http self city st)) <> stdout st ->
  exists weather_data : Snapshot.t,
    fst (_get_weather http self city st) = Ok weather_data
    /\ stdout (snd (show_weather http self city st))
       = stdout st ++ [weather_line city weather_data].
Proof.
  rewrite show_weather_run.
  pose proof (get_weather_silent self city st) as Hs.
  destruct (_get_weather http self city st) as [[wd | e] st']; simpl in *.
  - intros _. exists wd. rewrite Hs. split; reflexivity.
  - intros H. congruence.
Qed.

End ShowWeather.

(** C8. When the fetch fails, whatever the failure (of the transport or
    of the parsing), [show_weather] writes nothing to standard output and
    fails with the same exception. *)
Theorem show_weather_failure_prints_nothing {World : Type}
    (http : Request -> World -> result pyval * World)
    (self : client) (city : string) (st : state World) (e : exn) :
  fst (_get_weather http self city st) = Raise e ->
  fst (show_weather http self city st) = Raise e
  /\ stdout (snd (show_weather http self city st)) = stdout st.
Proof.
  intros Hf. rewrite show_weather_run.
  pose proof (get_weather_silent http self city st) as Hs.
  destruct (_get_weather http self city st) as [[wd | e'] st']; simpl in *.
  - discriminate.
  - injection Hf as ->. split; [reflexivity | exact Hs].
Qed.

Lemma show_weather_failure_prints_nothing_witness :
  fst (show_weather (canned (Raise ConnectionError)) odessa_client "Odessa" (start tt))
  = Raise ConnectionError
  /\ stdout (snd (show_weather (canned (Raise ConnectionError)) odessa_client
                    "Odessa" (start tt))) = [].
Proof.
  apply (show_weather_failure_prints_nothing (canned (Raise ConnectionError))
           odessa_client "Odessa" (start tt) ConnectionError).
  reflexivity.
Defined.

(** The same on a failure of the parsing. *)
Example show_weather_parse_failure :
  show_weather (canned (Ok (PDict ∅))) odessa_client "Odessa" (start tt)
  = (Raise AttributeError, start tt).
Proof. reflexivity. Qed.

(** On a well-formed response, one line. *)
Example show_weather_sample :
  show_weather (canned (Ok (PDict sample_weather))) odessa_client "Одесса" (start tt)
  = (Ok tt,
     {| net := tt;
        stdout := ["Температура в Одесса: 21.5>°C, влажность: 60>%, скорость ветра: 3.2> м/с."] |}).
Proof. vm_compute. reflexivity. Qed.

(** ** The forecast client *)

Section ForecastFacts.

Variable utcoffset : Z -> Z.

(** *** One element *)

Lemma lookup_path_dict (f : gmap string pyval) (k : string) (path : list string) :
  lookup_path (PDict f) (k :: path)
  = match f !! k with
    | Some v => lookup_path v path
    | None => None
    end.
Proof. reflexivity. Qed.

(** The body of the loop succeeds exactly on the elements that hold what
    it reads, and the record is then made of them. *)
Lemma forecast_entry_ok (forecast : pyval) (e : Entry.t) :
  forecast_entry utcoffset forecast = Ok e <-> reshaped utcoffset forecast e.
Proof.
  unfold forecast_entry, reshaped. split.
  - destruct forecast as [ | | | | | | f]; simpl; try discriminate.
    destruct (f !! "dt") as [dt | ]; simpl; [ | discriminate].
    destruct (fromtimestamp utcoffset dt) as [date | ] eqn:Ed; simpl; [ | discriminate].
    destruct (f !! "main") as [[ | | | | | | m] | ]; simpl; try discriminate.
    destruct (m !! "temp") as [vt | ]; simpl; [ | discriminate].
    destruct (m !! "humidity") as [vh | ]; simpl; [ | discriminate].
    destruct (f !! "wind") as [[ | | | | | | w] | ]; simpl; try discriminate.
    destruct (w !! "speed") as [vs | ]; simpl; [ | discriminate].
    intros [= <-]. exists dt, date. simpl. auto 10.
  - intros (dt & date & Hdt & Hd & He & Ht & Hh & Hs).
    destruct forecast as [ | | | | | | f]; simpl in *; try discriminate.
    destruct (f !! "dt") as [dt' | ]; simpl in *; [ | discriminate].
    injection Hdt as ->. rewrite Hd. simpl.
    destruct (f !! "main") as [[ | | | | | | m] | ]; simpl in *; try discriminate.
    destruct (m !! "temp") as [vt | ]; simpl in *; [ | discriminate].
    destruct (m !! "humidity") as [vh | ]; simpl in *; [ | discriminate].
    destruct (f !! "wind") as [[ | | | | | | w] | ]; simpl in *; try discriminate.
    destruct (w !! "speed") as [vs | ]; simpl in *; [ | discriminate].
    destruct e; simpl in *. congruence.
Qed.

Lemma well_formed_entry_ok (forecast : pyval) :
  well_formed_entry utcoffset forecast = true
  <-> exists e, forecast_entry utcoffset forecast = Ok e.
Proof.
  unfold well_formed_entry. split.
  - destruct (lookup_path forecast ["dt"]) as [dt | ] eqn:Hdt; [ | discriminate].
    destruct (lookup_path forecast ["main"; "temp"]) as [vt | ] eqn:Ht; [ | discriminate].
    destruct (lookup_path forecast ["main"; "humidity"]) as [vh | ] eqn:Hh; [ | discriminate].
    destruct (lookup_path forecast ["wind"; "speed"]) as [vs | ] eqn:Hs; [ | discriminate].
    destruct (fromtimestamp utcoffset dt) as [date | ] eqn:Hd; [ | discriminate].
    intros _.
    exists {| Entry.date := strftime_Ymd date; Entry.temp := vt;
              Entry.humidity := vh; Entry.wind_speed := vs |}.
    apply forecast_entry_ok. exists dt, date. simpl. auto 10.
  - intros [e He]. apply forecast_entry_ok in He.
    destruct He as (dt & date & -> & Hd & _ & -> & -> & ->). rewrite Hd. reflexivity.
Qed.

(** The body of the loop raises a [KeyError] on a dict that lacks a key
    and is sound in what it holds. *)
Lemma forecast_entry_missing_key (f : gmap string pyval) :
  lacks_forecast_field (PDict f) = true ->
  present_parts_typed utcoffset f = true ->
  forecast_entry utcoffset (PDict f) = Raise KeyError.
Proof.
  unfold lacks_forecast_field, present_parts_typed, lacks_field, forecast_entry.
  simpl.
  destruct (f !! "dt") as [dt | ]; simpl; [ | reflexivity].
  destruct (fromtimestamp utcoffset dt) as [date | ]; simpl; [ | discriminate].
  destruct (f !! "main") as [[ | | | | | | m] | ]; simpl; try discriminate;
    [ | reflexivity].
  destruct (m !! "temp") as [vt | ]; simpl; [ | reflexivity].
  destruct (m !! "humidity") as [vh | ]; simpl; [ | reflexivity].
  destruct (f !! "wind") as [[ | | | | | | w] | ]; simpl; try discriminate;
    [ | reflexivity].
  destruct (w !! "speed") as [vs | ]; simpl; [ discriminate | reflexivity].
Qed.

(** *** The loop *)

Lemma forecast_loop_acc (forecasts : list pyval) (acc : list Entry.t) :
  forecast_loop utcoffset forecasts acc
  = rbind (forecast_loop utcoffset forecasts []) (fun es => Ok (acc ++ es)).
Proof.
  revert acc. induction forecasts as [ | f rest IH]; intros acc; simpl.
  - rewrite app_nil_r. reflexivity.
  - destruct (forecast_entry utcoffset f) as [e | x]; simpl; [ | reflexivity].
    rewrite (IH (acc ++ [e])), (IH [e]).
    destruct (forecast_loop utcoffset rest []) as [es | x]; simpl; [ | reflexivity].
    rewrite <- app_assoc. reflexivity.
Qed.

(** The loop returns the records of the elements, one for one and in
    their order. *)
Lemma forecast_loop_ok (forecasts : list pyval) (es : list Entry.t) :
  forecast_loop utcoffset forecasts [] = Ok es
  <-> Forall2 (fun f e => forecast_entry utcoffset f = Ok e) forecasts es.
Proof.
  revert es. induction forecasts as [ | f rest IH]; intros es; simpl.
  - split.
    + intros [= <-]. constructor.
    + intros H. inversion H. reflexivity.
  - split.
    + destruct (forecast_entry utcoffset f) as [e | x] eqn:Ef; simpl; [ | discriminate].
      rewrite forecast_loop_acc.
      destruct (forecast_loop utcoffset rest []) as [es' | x] eqn:El; simpl;
        [ | discriminate].
      intros [= <-]. constructor; [exact Ef | apply IH; reflexivity].
    + intros H. inversion H as [ | f' e l' es' Hf Hrest]; subst.
      rewrite Hf. simpl. apply IH in Hrest.
      rewrite forecast_loop_acc, Hrest. reflexivity.
Qed.

(** The loop stops at the first element on which its body fails, with
    the exception of the body. *)
Lemma forecast_loop_raises (pre post : list pyval) (f : pyval) (x : exn) :
  forallb (well_formed_entry utcoffset) pre = true ->
  forecast_entry utcoffset f = Raise x ->
  forecast_loop utcoffset (pre ++ f :: post) [] = Raise x.
Proof.
  induction pre as [ | g pre IH]; simpl; intros Hpre Hf.
  - rewrite Hf. reflexivity.
  - apply andb_prop in Hpre. destruct Hpre as [Hg Hpre].
    apply well_formed_entry_ok in Hg. destruct Hg as [e He].
    rewrite He. simpl. rewrite forecast_loop_acc, (IH Hpre Hf). reflexivity.
Qed.

Lemma forecast_loop_well_formed (forecasts : list pyval) :
  forallb (well_formed_entry utcoffset) forecasts = true ->
  exists es, forecast_loop utcoffset forecasts [] = Ok es.
Proof.
  induction forecasts as [ | f rest IH]; simpl; intros H.
  - eauto.
  - apply andb_prop in H. destruct H as [Hf Hrest].
    apply well_formed_entry_ok in Hf. destruct Hf as [e He].
    destruct (IH Hrest) as [es Hes].
    rewrite He. simpl. rewrite forecast_loop_acc, Hes. simpl. eauto.
Qed.

End ForecastFacts.

Section ForecastRuns.

Context {World : Type}.
Variable http : Request -> World -> result pyval * World.
Variable utcoffset : Z -> Z.

(** A call of [get_forecast] is one request, and its result is made of
    the answer alone; standard output is left as it is. *)
Lemma get_forecast_run (self : client) (city : string) (st : state World) :
  get_forecast http utcoffset self city st
  = (rbind (fst (http (forecast_request self city) (net st)))
       (forecast_of_response utcoffset),
     {| net := snd (http (forecast_request self city) (net st));
        stdout := stdout st |}).
Proof.
  unfold get_forecast, _send_request, requests_get_json, bind, lift,
    forecast_request, forecast_of_response.
  destruct (http _ (net st)) as [[data | e] w]; simpl; [ | reflexivity].
  destruct (py_getitem data "list") as [lst | e]; simpl; [ | reflexivity].
  destruct (first_five lst); reflexivity.
Qed.

(** On a response with a [list] whose first five elements are
    well-formed, the records of these elements are returned. *)
Lemma get_forecast_well_formed (self : client) (city : string) (st : state World)
    (d : gmap string pyval) (l : list pyval) :
  fst (http (forecast_request self city) (net st)) = Ok (PDict d) ->
  d !! "list" = Some (PList l) ->
  forallb (well_formed_entry utcoffset) (firstn 5 l) = true ->
  exists es : list Entry.t,
    fst (get_forecast http utcoffset self city st) = Ok es
    /\ Forall2 (reshaped utcoffset) (firstn 5 l) es.
Proof.
  intros Hr Hl Hwf.
  destruct (forecast_loop_well_formed utcoffset _ Hwf) as [es Hes].
  exists es. split.
  - rewrite get_forecast_run. simpl. rewrite Hr. simpl.
    unfold forecast_of_response. simpl. rewrite Hl. simpl. exact Hes.
  - apply forecast_loop_ok in Hes.
    eapply Forall2_impl; [exact Hes | ].
    intros f e H. apply forecast_entry_ok. exact H.
Qed.

(** Whatever [get_forecast] returns is made of the first elements of
    the [list] of the response. *)
Lemma get_forecast_returns (self : client) (city : string) (st : state World)
    (es : list Entry.t) :
  fst (get_forecast http utcoffset self city st) = Ok es ->
  es = []
  \/ exists (d : gmap string pyval) (l : list pyval),
       fst (http (forecast_request self city) (net st)) = Ok (PDict d)
       /\ d !! "list" = Some (PList l)
       /\ Forall2 (reshaped utcoffset) (firstn 5 l) es.
Proof.
  rewrite get_forecast_run. simpl.
  destruct (fst (http (forecast_request self city) (net st))) as [data | x];
    simpl; [ | discriminate].
  unfold forecast_of_response.
  destruct data as [ | | | | | | d]; simpl; try discriminate.
  destruct (d !! "list") as [lst | ] eqn:Hl; simpl; [ | discriminate].
  destruct lst as [ | | | | s | l | ]; simpl; try discriminate.
  - destruct s as [ | c s]; simpl.
    + intros [= <-]. left. reflexivity.
    + discriminate.
  - intros Hes. right. exists d, l. repeat split.
    + exact Hl.
    + apply forecast_loop_ok in Hes.
      eapply Forall2_impl; [exact Hes | ].
      intros f e H. apply forecast_entry_ok. exact H.
Qed.

End ForecastRuns.

(** ** Dates *)

Lemma month_day_table (leap : bool) :
  forallb (month_day_check leap) (seq 0 (if leap then 366 else 365)) = true.
Proof. destruct leap; vm_compute; reflexivity. Qed.

Lemma month_day_ok (leap : bool) (n : Z) :
  0 <= n < 365 + (if leap then 1 else 0) ->
  month_day_check leap (Z.to_nat n) = true.
Proof.
  intros Hn.
  pose proof (month_day_table leap) as Ht.
  rewrite forallb_forall in Ht. apply Ht.
  apply in_seq. destruct leap; lia.
Qed.

(** The days before a year, by its place in the cycles of 400, 100 and
    4 years. *)
Lemma days_before_year_cycles (a b c e : Z) :
  0 <= b <= 3 -> 0 <= c <= 24 -> 0 <= e <= 3 ->
  days_before_year (400 * a + 100 * b + 4 * c + e + 1)
  = 146097 * a + 36524 * b + 1461 * c + 365 * e.
Proof.
  intros Hb Hc He. unfold days_before_year.
  replace (400 * a + 100 * b + 4 * c + e + 1 - 1)
    with (400 * a + 100 * b + 4 * c + e) by lia.
  assert (H4 : (400 * a + 100 * b + 4 * c + e) / 4 = 100 * a + 25 * b + c)
    by (symmetry; apply Z.div_unique with e; lia).
  assert (H100 : (400 * a + 100 * b + 4 * c + e) / 100 = 4 * a + b)
    by (symmetry; apply Z.div_unique with (4 * c + e); lia).
  assert (H400 : (400 * a + 100 * b + 4 * c + e) / 400 = a)
    by (symmetry; apply Z.div_unique with (100 * b + 4 * c + e); lia).
  rewrite H4, H100, H400. lia.
Qed.

Lemma is_leap_cycles (a b c e : Z) :
  0 <= b <= 3 -> 0 <= c <= 24 -> 0 <= e <= 3 ->
  is_leap (400 * a + 100 * b + 4 * c + e + 1)
  = ((e =? 3) && (negb (c =? 24) || (b =? 3)))%bool.
Proof.
  intros Hb Hc He. unfold is_leap.
  set (y := 400 * a + 100 * b + 4 * c + e + 1).
  assert (H4 : y mod 4 = (e + 1) mod 4).
  { unfold y.
    replace (400 * a + 100 * b + 4 * c + e + 1)
      with ((e + 1) + (100 * a + 25 * b + c) * 4) by lia.
    apply Z.mod_add. lia. }
  assert (H100 : y mod 100 = (4 * c + e + 1) mod 100).
  { unfold y.
    replace (400 * a + 100 * b + 4 * c + e + 1)
      with ((4 * c + e + 1) + (4 * a + b) * 100) by lia.
    apply Z.mod_add. lia. }
  assert (H400 : y mod 400 = (100 * b + 4 * c + e + 1) mod 400).
  { unfold y.
    replace (400 * a + 100 * b + 4 * c + e + 1)
      with ((100 * b + 4 * c + e + 1) + a * 400) by lia.
    apply Z.mod_add. lia. }
  rewrite H4, H100, H400.
  assert (e = 0 \/ e = 1 \/ e = 2 \/ e = 3) as He' by lia.
  assert (b = 0 \/ b = 1 \/ b = 2 \/ b = 3) as Hb' by lia.
  destruct (Z.eqb_spec c 24) as [-> | Hc24].
  - destruct He' as [-> | [-> | [-> | ->]]];
      destruct Hb' as [-> | [-> | [-> | ->]]]; reflexivity.
  - destruct (Z.eqb_spec e 3) as [-> | He3].
    + replace ((3 + 1) mod 4) with 0 by reflexivity. simpl.
      assert (Hm : (4 * c + 3 + 1) mod 100 = 4 * c + 3 + 1)
        by (apply Z.mod_small; lia).
      rewrite Hm.
      destruct (Z.eqb_spec (4 * c + 3 + 1) 0); [lia | reflexivity].
    + assert (Hm : (e + 1) mod 4 = e + 1) by (apply Z.mod_small; lia).
      rewrite Hm. destruct (Z.eqb_spec (e + 1) 0); [lia | reflexivity].
Qed.

(** The date of an ordinal is a date of the calendar, and its ordinal
    is the one it came from. *)
Lemma ord2ymd_spec (n : Z) :
  let '(y, m, d) := ord2ymd n in
  valid_date y m d = true /\ ymd2ord y m d = n.
Proof.
  unfold ord2ymd.
  set (n0 := n - 1).
  pose proof (Z.div_mod n0 146097 ltac:(lia)) as E400.
  pose proof (Z.mod_pos_bound n0 146097 ltac:(lia)) as B400.
  set (a := n0 / 146097) in *. set (r400 := n0 mod 146097) in *.
  pose proof (Z.div_mod r400 36524 ltac:(lia)) as E100.
  pose proof (Z.mod_pos_bound r400 36524 ltac:(lia)) as B100.
  set (b := r400 / 36524) in *. set (r100 := r400 mod 36524) in *.
  pose proof (Z.div_mod r100 1461 ltac:(lia)) as E4.
  pose proof (Z.mod_pos_bound r100 1461 ltac:(lia)) as B4.
  set (c := r100 / 1461) in *. set (r4 := r100 mod 1461) in *.
  pose proof (Z.div_mod r4 365 ltac:(lia)) as E1.
  pose proof (Z.mod_pos_bound r4 365 ltac:(lia)) as B1.
  set (e := r4 / 365) in *. set (r1 := r4 mod 365) in *.
  assert (Hb : 0 <= b <= 4) by lia.
  assert (Hc : 0 <= c <= 24) by lia.
  assert (He : 0 <= e <= 4) by lia.
  destruct (Z.eqb_spec e 4) as [He4 | He4]; simpl orb.
  - (* the last day of a leap year *)
    assert (r1 = 0) by lia.
    replace (a * 400 + 1 + b * 100 + c * 4 + e - 1)
      with (400 * a + 100 * b + 4 * c + 3 + 1) by lia.
    assert (Hb3 : 0 <= b <= 3) by lia.
    assert (Hc23 : c <> 24 \/ b = 3) by lia.
    unfold valid_date, ymd2ord, days_in_month, days_before_month.
    rewrite days_before_year_cycles by lia.
    rewrite is_leap_cycles by lia.
    simpl. split; [reflexivity | ].
    destruct (Z.eqb_spec c 24); destruct (Z.eqb_spec b 3); simpl; lia.
  - destruct (Z.eqb_spec b 4) as [Hb4 | Hb4].
    + (* the last day of a cycle of 400 years *)
      assert (r100 = 0 /\ c = 0 /\ e = 0 /\ r1 = 0) as (? & ? & ? & ?) by lia.
      replace (a * 400 + 1 + b * 100 + c * 4 + e - 1)
        with (400 * a + 100 * 3 + 4 * 24 + 3 + 1) by lia.
      unfold valid_date, ymd2ord, days_in_month, days_before_month.
      rewrite days_before_year_cycles by lia.
      rewrite is_leap_cycles by lia.
      simpl. split; [reflexivity | lia].
    + set (leap := ((e =? 3) && (negb (c =? 24) || (b =? 3)))%bool).
      assert (Hr1 : 0 <= r1 < 365 + (if leap then 1 else 0))
        by (destruct leap; lia).
      pose proof (month_day_ok leap r1 Hr1) as Hmd.
      unfold month_day_check in Hmd. rewrite Z2Nat.id in Hmd by lia.
      destruct (month_day leap r1) as [m d].
      replace (a * 400 + 1 + b * 100 + c * 4 + e)
        with (400 * a + 100 * b + 4 * c + e + 1) by lia.
      unfold valid_date, ymd2ord, days_in_month, days_before_month.
      rewrite days_before_year_cycles by lia.
      rewrite is_leap_cycles by lia. fold leap.
      repeat (apply andb_prop in Hmd; destruct Hmd as [Hmd ?]).
      split.
      * rewrite !andb_true_iff. repeat split; try assumption.
        destruct ((m =? 2) && leap)%bool eqn:E.
        -- apply andb_prop in E. destruct E as [E _].
           apply Z.eqb_eq in E. subst m. simpl in *. lia.
        -- lia.
      * lia.
Qed.

Lemma valid_date_bounds (y m d : Z) :
  valid_date y m d = true -> 1 <= m <= 12 /\ 1 <= d <= 31.
Proof.
  unfold valid_date, days_in_month. rewrite !andb_true_iff.
  intros [[[Hm1 Hm2] Hd1] Hd2].
  assert (Hm : 1 <= m <= 12) by lia. split; [exact Hm | ].
  destruct ((m =? 2) && is_leap y)%bool; [lia | ].
  assert (days_in_month_common m <= 31); [ | lia].
  unfold days_in_month_common.
  destruct m as [ | p | p]; try lia.
  do 4 (destruct p; try lia).
Qed.

(** The ordinals from 0001-01-01 to 9999-12-31 have a year of four
    digits at most. *)
Lemma ord2ymd_year_range (n : Z) :
  1 <= n <= 3652059 ->
  MINYEAR <= fst (fst (ord2ymd n)) <= MAXYEAR.
Proof.
  intros Hn. unfold ord2ymd, MINYEAR, MAXYEAR.
  set (n0 := n - 1).
  pose proof (Z.div_mod n0 146097 ltac:(lia)) as E400.
  pose proof (Z.mod_pos_bound n0 146097 ltac:(lia)) as B400.
  set (a := n0 / 146097) in *. set (r400 := n0 mod 146097) in *.
  pose proof (Z.div_mod r400 36524 ltac:(lia)) as E100.
  pose proof (Z.mod_pos_bound r400 36524 ltac:(lia)) as B100.
  set (b := r400 / 36524) in *. set (r100 := r400 mod 36524) in *.
  pose proof (Z.div_mod r100 1461 ltac:(lia)) as E4.
  pose proof (Z.mod_pos_bound r100 1461 ltac:(lia)) as B4.
  set (c := r100 / 1461) in *. set (r4 := r100 mod 1461) in *.
  pose proof (Z.div_mod r4 365 ltac:(lia)) as E1.
  pose proof (Z.mod_pos_bound r4 365 ltac:(lia)) as B1.
  set (e := r4 / 365) in *. set (r1 := r4 mod 365) in *.
  assert (Hn0 : 0 <= n0 <= 3652058) by (unfold n0; lia).
  destruct ((e =? 4) || (b =? 4))%bool eqn:Esp.
  - simpl. apply orb_prop in Esp. destruct Esp as [E | E]; apply Z.eqb_eq in E; lia.
  - apply orb_false_elim in Esp. destruct Esp as [E1' E2'].
    apply Z.eqb_neq in E1', E2'.
    destruct (month_day _ r1) as [m d]. simpl. lia.
Qed.

(** *** One day, one date *)

(** A year by its place in the cycles. *)
Lemma year_cycles (y : Z) :
  exists a b c e : Z,
    0 <= b <= 3 /\ 0 <= c <= 24 /\ 0 <= e <= 3
    /\ y = 400 * a + 100 * b + 4 * c + e + 1.
Proof.
  exists ((y - 1) / 400), ((y - 1) mod 400 / 100),
    ((y - 1) mod 400 mod 100 / 4), ((y - 1) mod 400 mod 100 mod 4).
  pose proof (Z.div_mod (y - 1) 400 ltac:(lia)).
  pose proof (Z.mod_pos_bound (y - 1) 400 ltac:(lia)).
  set (r := (y - 1) mod 400) in *.
  pose proof (Z.div_mod r 100 ltac:(lia)).
  pose proof (Z.mod_pos_bound r 100 ltac:(lia)).
  set (r' := r mod 100) in *.
  pose proof (Z.div_mod r' 4 ltac:(lia)).
  pose proof (Z.mod_pos_bound r' 4 ltac:(lia)).
  lia.
Qed.

(** A year has 365 days, and one more when it is a leap year. *)
Lemma days_before_next_year (y : Z) :
  days_before_year (y + 1) = days_before_year y + 365 + (if is_leap y then 1 else 0).
Proof.
  destruct (year_cycles y) as (a & b & c & e & Hb & Hc & He & ->).
  rewrite is_leap_cycles, days_before_year_cycles by lia.
  destruct (Z.eqb_spec e 3) as [-> | He3].
  - destruct (Z.eqb_spec c 24) as [-> | Hc24].
    + destruct (Z.eqb_spec b 3) as [-> | Hb3]; simpl.
      * replace (400 * a + 100 * 3 + 4 * 24 + 3 + 1 + 1)
          with (400 * (a + 1) + 100 * 0 + 4 * 0 + 0 + 1) by lia.
        rewrite days_before_year_cycles by lia. lia.
      * replace (400 * a + 100 * b + 4 * 24 + 3 + 1 + 1)
          with (400 * a + 100 * (b + 1) + 4 * 0 + 0 + 1) by lia.
        rewrite days_before_year_cycles by lia. lia.
    + simpl.
      replace (400 * a + 100 * b + 4 * c + 3 + 1 + 1)
        with (400 * a + 100 * b + 4 * (c + 1) + 0 + 1) by lia.
      rewrite days_before_year_cycles by lia. lia.
  - simpl.
    replace (400 * a + 100 * b + 4 * c + e + 1 + 1)
      with (400 * a + 100 * b + 4 * c + (e + 1) + 1) by lia.
    rewrite days_before_year_cycles by lia. lia.
Qed.

Lemma days_before_year_mono (y y' : Z) :
  y <= y' -> days_before_year y <= days_before_year y'.
Proof.
  intros H. replace y' with (y + (y' - y)) by lia.
  assert (Hk : 0 <= y' - y) by lia. revert Hk.
  generalize (y' - y) as k. clear.
  apply (natlike_ind (fun k => days_before_year y <= days_before_year (y + k))).
  - rewrite Z.add_0_r. lia.
  - intros k Hk IH. replace (y + Z.succ k) with (y + k + 1) by lia.
    rewrite days_before_next_year. destruct (is_leap (y + k)); lia.
Qed.

(** The day of a date within its year. *)
Lemma day_of_year_bounds (y m d : Z) :
  valid_date y m d = true ->
  1 <= days_before_month y m + d <= 365 + (if is_leap y then 1 else 0).
Proof.
  unfold valid_date, days_before_month, days_in_month.
  rewrite !andb_true_iff, !Z.leb_le. intros [[[Hm1 Hm2] Hd1] Hd2].
  assert (Hm : m = 1 \/ m = 2 \/ m = 3 \/ m = 4 \/ m = 5 \/ m = 6 \/ m = 7
               \/ m = 8 \/ m = 9 \/ m = 10 \/ m = 11 \/ m = 12) by lia.
  destruct (is_leap y);
    repeat (destruct Hm as [-> | Hm]; [simpl in *; lia | ]); subst; simpl in *; lia.
Qed.

Lemma day_of_year_inj (y m d m' d' : Z) :
  valid_date y m d = true -> valid_date y m' d' = true ->
  days_before_month y m + d = days_before_month y m' + d' ->
  m = m' /\ d = d'.
Proof.
  unfold valid_date, days_before_month, days_in_month.
  rewrite !andb_true_iff, !Z.leb_le.
  intros [[[Hm1 Hm2] Hd1] Hd2] [[[Hm1' Hm2'] Hd1'] Hd2'].
  assert (Hm : m = 1 \/ m = 2 \/ m = 3 \/ m = 4 \/ m = 5 \/ m = 6 \/ m = 7
               \/ m = 8 \/ m = 9 \/ m = 10 \/ m = 11 \/ m = 12) by lia.
  assert (Hm' : m' = 1 \/ m' = 2 \/ m' = 3 \/ m' = 4 \/ m' = 5 \/ m' = 6 \/ m' = 7
               \/ m' = 8 \/ m' = 9 \/ m' = 10 \/ m' = 11 \/ m' = 12) by lia.
  destruct (is_leap y);
    repeat (destruct Hm as [-> | Hm]);
    repeat (destruct Hm' as [-> | Hm']); subst; simpl in *; lia.
Qed.

(** Later years have later days. *)
Lemma ymd2ord_year_lt (y m d y' m' d' : Z) :
  valid_date y m d = true -> valid_date y' m' d' = true ->
  y < y' -> ymd2ord y m d < ymd2ord y' m' d'.
Proof.
  intros Hv Hv' Hy. unfold ymd2ord.
  pose proof (day_of_year_bounds y m d Hv).
  pose proof (day_of_year_bounds y' m' d' Hv').
  pose proof (days_before_year_mono (y + 1) y' ltac:(lia)) as Hmono.
  rewrite days_before_next_year in Hmono. lia.
Qed.

(** A day is the day of one date. *)
Lemma ymd2ord_inj (y m d y' m' d' : Z) :
  valid_date y m d = true -> valid_date y' m' d' = true ->
  ymd2ord y m d = ymd2ord y' m' d' ->
  y = y' /\ m = m' /\ d = d'.
Proof.
  intros Hv Hv' Ho.
  destruct (Z.lt_trichotomy y y') as [Hlt | [-> | Hgt]].
  - pose proof (ymd2ord_year_lt _ _ _ _ _ _ Hv Hv' Hlt). lia.
  - split; [reflexivity | ].
    apply (day_of_year_inj y'); try assumption. unfold ymd2ord in Ho. lia.
  - pose proof (ymd2ord_year_lt _ _ _ _ _ _ Hv' Hv Hgt). lia.
Qed.

(** *** The text of a date *)

Lemma year_digits_table :
  forallb year_digits_check (seq 0 (Z.to_nat 10000)) = true.
Proof. vm_compute. reflexivity. Qed.

Lemma pad2_table : forallb pad2_check (seq 0 100) = true.
Proof. vm_compute. reflexivity. Qed.

Lemma str_of_Z_year (y : Z) :
  0 <= y <= 9999 -> str_of_Z y = year_digits y.
Proof.
  intros Hy. pose proof year_digits_table as Ht. rewrite forallb_forall in Ht.
  specialize (Ht (Z.to_nat y)). unfold year_digits_check in Ht.
  rewrite Z2Nat.id in Ht by lia. apply String.eqb_eq. apply Ht.
  apply in_seq. lia.
Qed.

Lemma zero_pad_2 (y : Z) :
  0 <= y <= 99 -> zero_pad 2 y = two_digits y.
Proof.
  intros Hy. pose proof pad2_table as Ht. rewrite forallb_forall in Ht.
  specialize (Ht (Z.to_nat y)). unfold pad2_check in Ht.
  rewrite Z2Nat.id in Ht by lia. apply String.eqb_eq. apply Ht.
  apply in_seq. lia.
Qed.

(** [strftime("%Y-%m-%d")] writes the year as it is, and the month and
    the day in two digits. *)
Lemma strftime_plain (dt : datetime) :
  0 <= year dt <= 9999 -> 1 <= month dt <= 12 -> 1 <= day dt <= 31 ->
  strftime_Ymd dt = plain_date (year dt) (month dt) (day dt).
Proof.
  intros Hy Hm Hd. unfold strftime_Ymd, plain_date.
  rewrite str_of_Z_year by lia. rewrite !zero_pad_2 by lia. reflexivity.
Qed.

(** From the year 1000 on that is [YYYY-MM-DD]; before, it is shorter. *)
Lemma plain_date_iso (y m d : Z) :
  1000 <= y -> plain_date y m d = iso_date y m d.
Proof.
  intros Hy. unfold plain_date, iso_date, year_digits.
  destruct (Z.ltb_spec y 10); [lia | ].
  destruct (Z.ltb_spec y 100); [lia | ].
  destruct (Z.ltb_spec y 1000); [lia | ].
  reflexivity.
Qed.

Lemma length_append (a b : string) :
  String.length (a +:+ b) = (String.length a + String.length b)%nat.
Proof. induction a as [ | c a IH]; simpl; [reflexivity | rewrite IH; reflexivity]. Qed.

Lemma length_decimal_digit (n : Z) : String.length (decimal_digit n) = 1%nat.
Proof. destruct n as [ | p | p]; try reflexivity.
  do 4 (destruct p as [p | p | ]; try reflexivity). Qed.

Lemma length_two_digits (n : Z) : String.length (two_digits n) = 2%nat.
Proof. unfold two_digits. rewrite length_append, !length_decimal_digit. reflexivity. Qed.

Lemma plain_date_short (y m d : Z) :
  y < 1000 -> (String.length (plain_date y m d) < 10)%nat.
Proof.
  intros Hy. unfold plain_date, year_digits.
  destruct (Z.ltb_spec y 10);
    [ | destruct (Z.ltb_spec y 100); [ | destruct (Z.ltb_spec y 1000); [ | lia]]];
    rewrite !length_append, ?length_two_digits, ?length_decimal_digit; simpl; lia.
Qed.

(** *** The calendar of the interpreter is the Gregorian calendar *)

Lemma leap_year_is_leap (y : Z) : leap_year y = is_leap y.
Proof.
  unfold leap_year, is_leap.
  destruct (Z.eqb_spec (y mod 400) 0) as [H400 | H400];
    destruct (Z.eqb_spec (y mod 100) 0) as [H100 | H100];
    destruct (Z.eqb_spec (y mod 4) 0) as [H4 | H4];
    simpl; try reflexivity; exfalso;
    pose proof (Z.div_mod y 400 ltac:(lia));
    pose proof (Z.div_mod y 100 ltac:(lia));
    pose proof (Z.div_mod y 4 ltac:(lia));
    pose proof (Z.mod_pos_bound y 400 ltac:(lia));
    pose proof (Z.mod_pos_bound y 100 ltac:(lia));
    pose proof (Z.mod_pos_bound y 4 ltac:(lia));
    lia.
Qed.

Lemma month_cases (m : Z) :
  1 <= m <= 12 ->
  m = 1 \/ m = 2 \/ m = 3 \/ m = 4 \/ m = 5 \/ m = 6
  \/ m = 7 \/ m = 8 \/ m = 9 \/ m = 10 \/ m = 11 \/ m = 12.
Proof. lia. Qed.

Lemma length_of_month_days_in_month (y m : Z) :
  1 <= m <= 12 -> length_of_month y m = days_in_month y m.
Proof.
  intros Hm. unfold days_in_month. rewrite <- leap_year_is_leap.
  destruct (month_cases m Hm) as [-> | [-> | [-> | [-> | [-> | [-> | [-> | [-> | [-> | [-> | [-> | ->]]]]]]]]]]];
    simpl; destruct (leap_year y); reflexivity.
Qed.

Lemma calendar_date_valid (y m d : Z) :
  calendar_date y m d = valid_date y m d.
Proof.
  unfold calendar_date, valid_date.
  destruct (Z.leb_spec 1 m); simpl; [ | reflexivity].
  destruct (Z.leb_spec m 12); simpl; [ | reflexivity].
  rewrite length_of_month_days_in_month by lia. reflexivity.
Qed.

Lemma months_before (y m : Z) :
  1 <= m <= 12 ->
  sum_from (length_of_month y) 1 (Z.to_nat (m - 1)) = days_before_month y m.
Proof.
  intros Hm. unfold days_before_month. rewrite <- leap_year_is_leap.
  destruct (month_cases m Hm) as [-> | [-> | [-> | [-> | [-> | [-> | [-> | [-> | [-> | [-> | [-> | ->]]]]]]]]]]];
    simpl; destruct (leap_year y); reflexivity.
Qed.

Lemma years_between (a : Z) (n : nat) :
  sum_from length_of_year a n
  = days_before_year (a + Z.of_nat n) - days_before_year a.
Proof.
  revert a. induction n as [ | n IH]; intros a.
  - simpl. rewrite Z.add_0_r. lia.
  - cbn [sum_from]. rewrite IH.
    replace (a + Z.of_nat (S n)) with (a + 1 + Z.of_nat n) by lia.
    rewrite (days_before_next_year a). unfold length_of_year.
    rewrite leap_year_is_leap. destruct (is_leap a); lia.
Qed.

(** The days counted from 1 January 1970 are the ordinals of the
    interpreter counted from that of that day. *)
Lemma days_since_1970_ordinal (y m d : Z) :
  1 <= m <= 12 ->
  days_since_1970 y m d = ymd2ord y m d - epoch_ordinal.
Proof.
  intros Hm. unfold days_since_1970, ymd2ord.
  rewrite months_before by exact Hm.
  assert (H1970 : days_before_year 1970 = epoch_ordinal - 1) by reflexivity.
  destruct (Z.leb_spec 1970 y).
  - rewrite years_between. rewrite Z2Nat.id by lia.
    replace (1970 + (y - 1970)) with y by lia. lia.
  - rewrite years_between. rewrite Z2Nat.id by lia.
    replace (y + (1970 - y)) with 1970 by lia. lia.
Qed.

(** *** The date of a timestamp *)

Section TimestampFacts.

Variable utcoffset : Z -> Z.

(** The date that [fromtimestamp] returns is the date of the day of the
    local time, and its year has four digits at most. *)
Lemma fromtimestamp_date (v : pyval) (dt : datetime) :
  fromtimestamp utcoffset v = Ok dt ->
  exists t us : Z,
    object_to_timeval v = Ok (t, us)
    /\ ord2ymd (epoch_ordinal + (t + utcoffset t) / 86400)
       = (year dt, month dt, day dt)
    /\ MINYEAR <= year dt <= MAXYEAR.
Proof.
  unfold fromtimestamp.
  destruct (object_to_timeval v) as [[t us] | x]; simpl; [ | discriminate].
  unfold localtime at 1.
  destruct (negb _); simpl; [discriminate | ].
  destruct (ord2ymd (epoch_ordinal + (t + utcoffset t) / 86400)) as [[y m] d] eqn:Eo.
  destruct ((- 2 ^ 31 <=? y - 1900) && (y - 1900 <? 2 ^ 31))%bool; simpl;
    [ | discriminate].
  unfold utc_to_seconds at 1. simpl tm_year.
  destruct ((y <? MINYEAR) || (MAXYEAR <? y))%bool eqn:Ey; simpl; [discriminate | ].
  destruct (local utcoffset (t - max_fold_seconds)) as [probe | x]; simpl;
    [ | discriminate].
  match goal with
  | |- rbind ?c _ = _ -> _ => destruct c as [u | x]; simpl; [ | discriminate]
  end.
  intros [= <-]. simpl. exists t, us.
  apply orb_false_elim in Ey. destruct Ey as [Ey1 Ey2].
  apply Z.ltb_ge in Ey1, Ey2. split; [reflexivity | split; [exact Eo | ]].
  split; assumption.
Qed.

Lemma object_to_timeval_int (t t' us : Z) :
  object_to_timeval (PInt t) = Ok (t', us) -> t' = t /\ us = 0.
Proof.
  simpl. destruct ((time_t_min <=? t) && (t <=? time_t_max))%bool; [ | discriminate].
  intros [= <- <-]. split; reflexivity.
Qed.

(** The text of the date is that of a date of the calendar, in the
    years 1 to 9999, with the year as it is. *)
Lemma fromtimestamp_text (v : pyval) (dt : datetime) :
  fromtimestamp utcoffset v = Ok dt ->
  strftime_Ymd dt = plain_date (year dt) (month dt) (day dt)
  /\ calendar_date (year dt) (month dt) (day dt) = true
  /\ 1 <= year dt <= 9999.
Proof.
  intros H. destruct (fromtimestamp_date v dt H) as (t & us & _ & Hd & Hy).
  pose proof (ord2ymd_spec (epoch_ordinal + (t + utcoffset t) / 86400)) as Hs.
  rewrite Hd in Hs. destruct Hs as [Hv _].
  destruct (valid_date_bounds _ _ _ Hv) as [Hm Hday].
  unfold MINYEAR, MAXYEAR in Hy.
  split; [apply strftime_plain; lia | split; [ | exact Hy]].
  rewrite calendar_date_valid. exact Hv.
Qed.

(** For an integer timestamp, the date is the local calendar day that
    contains the instant. *)
Lemma fromtimestamp_int_day (t : Z) (dt : datetime) :
  fromtimestamp utcoffset (PInt t) = Ok dt ->
  day_contains utcoffset (year dt) (month dt) (day dt) t.
Proof.
  intros H. destruct (fromtimestamp_date _ dt H) as (t' & us & Ho & Hd & Hy).
  apply object_to_timeval_int in Ho. destruct Ho as [-> _].
  pose proof (ord2ymd_spec (epoch_ordinal + (t + utcoffset t) / 86400)) as Hs.
  rewrite Hd in Hs. destruct Hs as [Hv Ho].
  destruct (valid_date_bounds _ _ _ Hv) as [Hm _].
  split; [rewrite calendar_date_valid; exact Hv | ].
  rewrite days_since_1970_ordinal by exact Hm. rewrite Ho.
  pose proof (Z.div_mod (t + utcoffset t) 86400 ltac:(lia)).
  pose proof (Z.mod_pos_bound (t + utcoffset t) 86400 ltac:(lia)).
  lia.
Qed.

(** The local calendar day that contains an instant is one day. *)
Lemma day_contains_unique (y m d y' m' d' t : Z) :
  day_contains utcoffset y m d t -> day_contains utcoffset y' m' d' t ->
  y = y' /\ m = m' /\ d = d'.
Proof.
  intros [Hv Hb] [Hv' Hb'].
  rewrite calendar_date_valid in Hv, Hv'.
  destruct (valid_date_bounds _ _ _ Hv) as [Hm _].
  destruct (valid_date_bounds _ _ _ Hv') as [Hm' _].
  rewrite days_since_1970_ordinal in Hb, Hb' by assumption.
  apply ymd2ord_inj; try assumption. lia.
Qed.

End TimestampFacts.

Section UnixTimestamps.

Variable utcoffset : Z -> Z.

(** Time zones are less than a day from UTC. *)
Hypothesis offset_bound : forall u, - 86400 < utcoffset u < 86400.

(** The local time of an instant, in seconds from the day before
    0001-01-01, for the instants from the end of 1969 to the year 9999. *)
Lemma local_ok (u : Z) :
  - 3 * 86400 <= u < 253402214400 ->
  local utcoffset u = Ok (86400 * epoch_ordinal + (u + utcoffset u)).
Proof.
  intros Hu. unfold local, localtime.
  assert (Hr : ((time_t_min <=? u) && (u <=? time_t_max))%bool = true).
  { unfold time_t_min, time_t_max. apply andb_true_intro. split; lia. }
  rewrite Hr. simpl negb. cbv iota.
  pose proof (offset_bound u) as Ho.
  set (s := u + utcoffset u) in *.
  pose proof (Z.div_mod s 86400 ltac:(lia)) as Es.
  pose proof (Z.mod_pos_bound s 86400 ltac:(lia)) as Bs.
  assert (Hord : 1 <= epoch_ordinal + s / 86400 <= 3652059) by (unfold epoch_ordinal; lia).
  pose proof (ord2ymd_spec (epoch_ordinal + s / 86400)) as Hs.
  pose proof (ord2ymd_year_range _ Hord) as Hy.
  destruct (ord2ymd (epoch_ordinal + s / 86400)) as [[y m] d].
  simpl in Hy. destruct Hs as [Hv Hymd].
  unfold MINYEAR, MAXYEAR in Hy.
  assert (Hint : ((- 2 ^ 31 <=? y - 1900) && (y - 1900 <? 2 ^ 31))%bool = true).
  { apply andb_true_intro. split; lia. }
  rewrite Hint. simpl rbind. unfold utc_to_seconds. simpl.
  assert (Hyr : ((y <? MINYEAR) || (MAXYEAR <? y))%bool = false).
  { unfold MINYEAR, MAXYEAR. apply orb_false_intro; lia. }
  rewrite Hyr. rewrite Hymd. f_equal.
  set (r := s mod 86400) in *.
  pose proof (Z.div_mod r 3600 ltac:(lia)).
  pose proof (Z.mod_pos_bound r 3600 ltac:(lia)).
  pose proof (Z.div_mod (r mod 3600) 60 ltac:(lia)).
  pose proof (Z.mod_pos_bound (r mod 3600) 60 ltac:(lia)).
  pose proof (Z.div_mod r 60 ltac:(lia)).
  pose proof (Z.mod_pos_bound r 60 ltac:(lia)).
  lia.
Qed.

(** The timestamps from 1970 to the last day but one of the year 9999
    are all accepted, whatever the time zone. *)
Lemma fromtimestamp_unix_ok (t : Z) :
  0 <= t < 253402214400 ->
  succeeds (fromtimestamp utcoffset (PInt t)) = true.
Proof.
  intros Ht. unfold fromtimestamp. simpl object_to_timeval.
  assert (Hr : ((time_t_min <=? t) && (t <=? time_t_max))%bool = true).
  { unfold time_t_min, time_t_max. apply andb_true_intro. split; lia. }
  rewrite Hr. simpl rbind.
  pose proof (local_ok t ltac:(lia)) as Hl. unfold local in Hl.
  destruct (localtime utcoffset t) as [x | ]; simpl in Hl; [ | discriminate].
  simpl rbind. rewrite Hl. simpl rbind.
  unfold max_fold_seconds.
  rewrite (local_ok (t - 24 * 3600)) by lia. simpl rbind.
  pose proof (offset_bound t). pose proof (offset_bound (t - 24 * 3600)).
  match goal with
  | |- context [if ?c then _ else _] => destruct c eqn:Etr
  end.
  - rewrite local_ok; [reflexivity | ]. apply Z.ltb_lt in Etr. lia.
  - reflexivity.
Qed.

(** An element with such a timestamp and the three values is
    well-formed. *)
Lemma well_formed_unix_entry (f m w : gmap string pyval) (t : Z) :
  0 <= t < 253402214400 ->
  f !! "dt" = Some (PInt t) ->
  f !! "main" = Some (PDict m) ->
  f !! "wind" = Some (PDict w) ->
  is_Some (m !! "temp") -> is_Some (m !! "humidity") -> is_Some (w !! "speed") ->
  well_formed_entry utcoffset (PDict f) = true.
Proof.
  intros Ht Hdt Hm Hw [vt Hvt] [vh Hvh] [vs Hvs].
  unfold well_formed_entry. simpl.
  rewrite Hdt, Hm, Hw, Hvt, Hvh, Hvs.
  apply fromtimestamp_unix_ok. exact Ht.
Qed.

End UnixTimestamps.

(** ** The claims on the forecast *)

(** C2. On a response whose [list] has [n] elements, the first five of
    them well-formed, [get_forecast] returns [min n 5] records, made of
    the first [min n 5] elements one for one and in their order; a short
    list is neither padded nor an error. *)
Theorem get_forecast_first_five {World : Type}
    (http : Request -> World -> result pyval * World) (utcoffset : Z -> Z)
    (self : client) (city : string) (st : state World)
    (d : gmap string pyval) (l : list pyval) :
  fst (http (forecast_request self city) (net st)) = Ok (PDict d) ->
  d !! "list" = Some (PList l) ->
  forallb (well_formed_entry utcoffset) (firstn 5 l) = true ->
  exists es : list Entry.t,
    fst (get_forecast http utcoffset self city st) = Ok es
    /\ length es = Nat.min (length l) 5
    /\ Forall2 (reshaped utcoffset) (firstn (Nat.min (length l) 5) l) es.
Proof.
  intros Hr Hl Hwf.
  destruct (get_forecast_well_formed http utcoffset self city st d l Hr Hl Hwf)
    as (es & Hes & Hall).
  exists es. split; [exact Hes | ].
  pose proof (Forall2_length _ _ _ Hall) as Hlen.
  rewrite length_take in Hlen.
  split; [lia | ].
  replace (firstn (Nat.min (length l) 5) l) with (firstn 5 l); [exact Hall | ].
  destruct (Nat.le_gt_cases 5 (length l)) as [Hge | Hlt].
  - rewrite Nat.min_r by exact Hge. reflexivity.
  - rewrite Nat.min_l by lia. rewrite !firstn_all2 by lia. reflexivity.
Qed.

Lemma get_forecast_first_five_witness :
  exists es : list Entry.t,
    fst (get_forecast (canned (Ok (PDict (sample_forecast sample_list8)))) eet
           odessa_forecast "Odessa" (start tt)) = Ok es
    /\ length es = Nat.min (length sample_list8) 5
    /\ Forall2 (reshaped eet) (firstn (Nat.min (length sample_list8) 5) sample_list8) es.
Proof.
  apply (get_forecast_first_five (canned (Ok (PDict (sample_forecast sample_list8))))
           eet odessa_forecast "Odessa" (start tt)
           (sample_forecast sample_list8) sample_list8);
    vm_compute; reflexivity.
Defined.

(** Eight elements give the records of the first five, in their order. *)
Example get_forecast_eight :
  fst (get_forecast (canned (Ok (PDict (sample_forecast sample_list8)))) eet
         odessa_forecast "Odessa" (start tt))
  = Ok [ {| Entry.date := "2023-11-14"; Entry.temp := PFloat 7.5;
            Entry.humidity := PInt 81; Entry.wind_speed := PFloat 4.1 |};
         {| Entry.date := "2023-11-15"; Entry.temp := PFloat 6.9;
            Entry.humidity := PInt 84; Entry.wind_speed := PFloat 3.8 |};
         {| Entry.date := "2023-11-15"; Entry.temp := PFloat 6.1;
            Entry.humidity := PInt 86; Entry.wind_speed := PFloat 3.2 |};
         {| Entry.date := "2023-11-15"; Entry.temp := PFloat 5.8;
            Entry.humidity := PInt 88; Entry.wind_speed := PFloat 2.9 |};
         {| Entry.date := "2023-11-15"; Entry.temp := PFloat 7.2;
            Entry.humidity := PInt 80; Entry.wind_speed := PFloat 3.5 |} ].
Proof. vm_compute. reflexivity. Qed.

(** Three elements give three records. *)
Example get_forecast_three :
  fst (get_forecast (canned (Ok (PDict (sample_forecast (firstn 3 sample_list8)))))
         eet odessa_forecast "Odessa" (start tt))
  = Ok [ {| Entry.date := "2023-11-14"; Entry.temp := PFloat 7.5;
            Entry.humidity := PInt 81; Entry.wind_speed := PFloat 4.1 |};
         {| Entry.date := "2023-11-15"; Entry.temp := PFloat 6.9;
            Entry.humidity := PInt 84; Entry.wind_speed := PFloat 3.8 |};
         {| Entry.date := "2023-11-15"; Entry.temp := PFloat 6.1;
            Entry.humidity := PInt 86; Entry.wind_speed := PFloat 3.2 |} ].
Proof. vm_compute. reflexivity. Qed.

(** C4, as the code has it.  [get_forecast] raises a [KeyError], which is
    a [LookupError], on a response dict without [list], and on one in
    which one of the first five elements of [list] is a dict that lacks
    [dt], [main], [main.temp], [main.humidity], [wind] or [wind.speed],
    when the elements before it are well-formed and what it holds is of
    the right kind. *)
Theorem get_forecast_missing_key_KeyError {World : Type}
    (http : Request -> World -> result pyval * World) (utcoffset : Z -> Z)
    (self : client) (city : string) (st : state World) (d : gmap string pyval) :
  fst (http (forecast_request self city) (net st)) = Ok (PDict d) ->
  (d !! "list" = None ->
   fst (get_forecast http utcoffset self city st) = Raise KeyError)
  /\ (forall (pre post : list pyval) (f : gmap string pyval),
        d !! "list" = Some (PList (pre ++ PDict f :: post)) ->
        (length pre < 5)%nat ->
        forallb (well_formed_entry utcoffset) pre = true ->
        lacks_forecast_field (PDict f) = true ->
        present_parts_typed utcoffset f = true ->
        fst (get_forecast http utcoffset self city st) = Raise KeyError)
  /\ is_LookupError KeyError = true.
Proof.
  intros Hr. split; [ | split; [ | reflexivity]].
  - intros Hl. rewrite get_forecast_run. simpl. rewrite Hr. simpl.
    unfold forecast_of_response. simpl. rewrite Hl. reflexivity.
  - intros pre post f Hl Hlen Hpre Hlack Htyped.
    rewrite get_forecast_run. simpl. rewrite Hr. simpl.
    unfold forecast_of_response. simpl. rewrite Hl. simpl.
    rewrite take_app, (firstn_all2 pre) by lia.
    destruct (5 - length pre)%nat as [ | k] eqn:Ek; [lia | ].
    rewrite firstn_cons.
    apply forecast_loop_raises; [exact Hpre | ].
    apply forecast_entry_missing_key; assumption.
Qed.

Lemma get_forecast_missing_key_KeyError_witness :
  fst (get_forecast (canned (Ok (PDict ∅))) eet odessa_forecast "Odessa" (start tt))
  = Raise KeyError
  /\ fst (get_forecast (canned (Ok (PDict (sample_forecast sample_list3_bad)))) eet
            odessa_forecast "Odessa" (start tt))
     = Raise KeyError.
Proof.
  split.
  - apply (proj1 (get_forecast_missing_key_KeyError (canned (Ok (PDict ∅))) eet
                    odessa_forecast "Odessa" (start tt) ∅ eq_refl)).
    reflexivity.
  - apply (proj1 (proj2 (get_forecast_missing_key_KeyError
                           (canned (Ok (PDict (sample_forecast sample_list3_bad))))
                           eet odessa_forecast "Odessa" (start tt)
                           (sample_forecast sample_list3_bad) eq_refl))
             (firstn 2 sample_list8) (skipn 3 sample_list8)
             {[ "dt" := PInt 1700011600;
                "wind" := PDict {[ "speed" := PFloat 3.2 ]} ]});
      vm_compute; first [ reflexivity | lia ].
Defined.

(** C4 as the specification words it fails: an element after the fifth
    may lack every key, and [get_forecast] returns all the same; and the
    failures are not those of the parent, which raises an
    [AttributeError] on a response without [main] (here, an empty dict)
    where the forecast client raises a [KeyError]. *)
Lemma get_forecast_failure_conditions_differ :
  (sample_list6_bad !! 5%nat = Some (PDict ∅)
   /\ lacks_forecast_field (PDict ∅) = true
   /\ succeeds (fst (get_forecast
                       (canned (Ok (PDict (sample_forecast sample_list6_bad)))) eet
                       odessa_forecast "Odessa" (start tt))) = true)
  /\ (fst (_get_weather (canned (Ok (PDict ∅))) odessa_client "Odessa" (start tt))
      = Raise AttributeError
      /\ fst (get_forecast (canned (Ok (PDict ∅))) eet odessa_forecast "Odessa"
                (start tt))
         = Raise KeyError).
Proof. vm_compute. repeat split. Qed.

(** An element that is no dict, or holds something of the wrong kind,
    makes a [TypeError]. *)
Example get_forecast_wrong_kind :
  fst (get_forecast
         (canned (Ok (PDict (sample_forecast [PDict {[ "dt" := PStr "now" ]}]))))
         eet odessa_forecast "Odessa" (start tt))
  = Raise TypeError.
Proof. vm_compute. reflexivity. Qed.

(** C6, as the code has it.  In every record that [get_forecast] returns,
    the date is the text of a date of the calendar in the years 1 to
    9999, with the year as it is and the month and the day in two
    digits: the text [YYYY-MM-DD] when the year is 1000 or later, and a
    shorter text when it is earlier.  [temp], [humidity] and
    [wind_speed] are the very objects that the element of the response
    holds at [main.temp], [main.humidity] and [wind.speed]: nothing is
    converted, so they are float, integer and float when the response
    has them so. *)
Theorem get_forecast_entry_fields {World : Type}
    (http : Request -> World -> result pyval * World) (utcoffset : Z -> Z)
    (self : client) (city : string) (st : state World)
    (es : list Entry.t) (i : nat) (e : Entry.t) :
  fst (get_forecast http utcoffset self city st) = Ok es ->
  es !! i = Some e ->
  (exists y m d : Z,
      calendar_date y m d = true /\ 1 <= y <= 9999
      /\ Entry.date e = plain_date y m d
      /\ (1000 <= y -> Entry.date e = iso_date y m d)
      /\ (y < 1000 -> (String.length (Entry.date e) < 10)%nat))
  /\ (exists (data : gmap string pyval) (l : list pyval) (f : pyval),
        fst (http (forecast_request self city) (net st)) = Ok (PDict data)
        /\ data !! "list" = Some (PList l)
        /\ (i < 5)%nat
        /\ l !! i = Some f
        /\ lookup_path f ["main"; "temp"] = Some (Entry.temp e)
        /\ lookup_path f ["main"; "humidity"] = Some (Entry.humidity e)
        /\ lookup_path f ["wind"; "speed"] = Some (Entry.wind_speed e)).
Proof.
  intros Hes Hi.
  destruct (get_forecast_returns http utcoffset self city st es Hes)
    as [-> | (data & l & Hr & Hl & Hall)]; [discriminate | ].
  destruct (Forall2_lookup_r _ _ _ _ _ Hall Hi) as (f & Hf & Hre).
  apply lookup_take_Some in Hf. destruct Hf as [Hf Hlt].
  destruct Hre as (dt & date & Hdt & Hd & Hdate & Ht & Hh & Hs).
  destruct (fromtimestamp_text utcoffset dt date Hd) as (Htext & Hv & Hy).
  split.
  - exists (year date), (month date), (day date). rewrite Hdate, Htext.
    split; [exact Hv | split; [exact Hy | split; [reflexivity | split]]].
    + apply plain_date_iso.
    + apply plain_date_short.
  - exists data, l, f. auto 10.
Qed.

Lemma get_forecast_entry_fields_witness :
  (exists y m d : Z,
      calendar_date y m d = true /\ 1 <= y <= 9999
      /\ "2023-11-14" = plain_date y m d
      /\ (1000 <= y -> "2023-11-14" = iso_date y m d)
      /\ (y < 1000 -> (String.length "2023-11-14" < 10)%nat))
  /\ (exists (data : gmap string pyval) (l : list pyval) (f : pyval),
        Ok (PDict sample_int_temp) = Ok (PDict data)
        /\ data !! "list" = Some (PList l)
        /\ (0 < 5)%nat
        /\ l !! 0%nat = Some f
        /\ lookup_path f ["main"; "temp"] = Some (PInt 8)
        /\ lookup_path f ["main"; "humidity"] = Some (PInt 81)
        /\ lookup_path f ["wind"; "speed"] = Some (PFloat 4.1)).
Proof.
  apply (get_forecast_entry_fields (canned (Ok (PDict sample_int_temp))) eet
           odessa_forecast "Odessa" (start tt)
           [ {| Entry.date := "2023-11-14"; Entry.temp := PInt 8;
                Entry.humidity := PInt 81; Entry.wind_speed := PFloat 4.1 |} ]
           0%nat
           {| Entry.date := "2023-11-14"; Entry.temp := PInt 8;
              Entry.humidity := PInt 81; Entry.wind_speed := PFloat 4.1 |});
    vm_compute; reflexivity.
Defined.

(** C6 as the specification words it fails: a temperature that the
    response gives as an integer stays an integer in the record. *)
Lemma get_forecast_keeps_int_temp :
  fst (get_forecast (canned (Ok (PDict sample_int_temp))) eet odessa_forecast
         "Odessa" (start tt))
  = Ok [ {| Entry.date := "2023-11-14"; Entry.temp := PInt 8;
            Entry.humidity := PInt 81; Entry.wind_speed := PFloat 4.1 |} ]
  /\ is_float (PInt 8) = false.
Proof. vm_compute. split; reflexivity. Qed.

(** C7, as the code has it.  In a response that [get_forecast]
    accepts, for an element among the first five with an integer [dt],
    the date of its record is the text of the one calendar day that
    contains that instant in the local time zone, a day of the years 1
    to 9999: the year as it is, the month and the day in two digits.
    That is the text [YYYY-MM-DD] when the year is 1000 or later. *)
Theorem get_forecast_date_of_timestamp {World : Type}
    (http : Request -> World -> result pyval * World) (utcoffset : Z -> Z)
    (self : client) (city : string) (st : state World)
    (data : gmap string pyval) (l : list pyval) (i : nat)
    (f : gmap string pyval) (t : Z) :
  fst (http (forecast_request self city) (net st)) = Ok (PDict data) ->
  data !! "list" = Some (PList l) ->
  forallb (well_formed_entry utcoffset) (firstn 5 l) = true ->
  (i < 5)%nat ->
  l !! i = Some (PDict f) ->
  f !! "dt" = Some (PInt t) ->
  exists (es : list Entry.t) (e : Entry.t) (y m d : Z),
    fst (get_forecast http utcoffset self city st) = Ok es
    /\ es !! i = Some e
    /\ day_contains utcoffset y m d t
    /\ (forall y' m' d' : Z,
          day_contains utcoffset y' m' d' t -> y' = y /\ m' = m /\ d' = d)
    /\ 1 <= y <= 9999
    /\ Entry.date e = plain_date y m d
    /\ (1000 <= y -> Entry.date e = iso_date y m d).
Proof.
  intros Hr Hl Hwf Hi Hf Hdt.
  destruct (get_forecast_well_formed http utcoffset self city st data l Hr Hl Hwf)
    as (es & Hes & Hall).
  assert (Hfi : firstn 5 l !! i = Some (PDict f))
    by (rewrite lookup_take_lt by exact Hi; exact Hf).
  destruct (Forall2_lookup_l _ _ _ _ _ Hall Hfi) as (e & He & Hre).
  destruct Hre as (dt & date & Hdt' & Hd & Hdate & _).
  simpl in Hdt'. rewrite Hdt in Hdt'. injection Hdt' as <-.
  destruct (fromtimestamp_text utcoffset _ date Hd) as (Htext & _ & Hy).
  exists es, e, (year date), (month date), (day date).
  pose proof (fromtimestamp_int_day utcoffset t date Hd) as Hday.
  split; [exact Hes | split; [exact He | split; [exact Hday | split]]].
  - intros y' m' d' Hday'.
    exact (day_contains_unique utcoffset _ _ _ _ _ _ t Hday' Hday).
  - rewrite Hdate, Htext.
    split; [exact Hy | split; [reflexivity | apply plain_date_iso]].
Qed.

Lemma get_forecast_date_of_timestamp_witness :
  exists (es : list Entry.t) (e : Entry.t),
    fst (get_forecast (canned (Ok (PDict (sample_forecast sample_list8)))) eet
           odessa_forecast "Odessa" (start tt)) = Ok es
    /\ es !! 1%nat = Some e
    /\ day_contains eet 2023 11 15 1700000800
    /\ Entry.date e = "2023-11-15".
Proof.
  destruct (get_forecast_date_of_timestamp
              (canned (Ok (PDict (sample_forecast sample_list8)))) eet
              odessa_forecast "Odessa" (start tt)
              (sample_forecast sample_list8) sample_list8 1%nat
              {[ "dt" := PInt 1700000800;
                 "main" := PDict {[ "temp" := PFloat 6.9; "humidity" := PInt 84 ]};
                 "wind" := PDict {[ "speed" := PFloat 3.8 ]} ]}
              1700000800)
    as (es & e & y & m & d & Hes & He & Hday & Huniq & Hy & Hplain & Hiso);
    try (vm_compute; first [ reflexivity | lia ]).
  assert (Hc : day_contains eet 2023 11 15 1700000800).
  { split; [reflexivity | ].
    replace (days_since_1970 2023 11 15) with 19676 by (vm_compute; reflexivity).
    unfold eet. lia. }
  destruct (Huniq 2023 11 15 Hc) as (Ey & Em & Ed). subst y m d.
  exists es, e. split; [exact Hes | split; [exact He | split; [exact Hc | ]]].
  rewrite Hiso by lia. reflexivity.
Defined.

(** C7 as the specification words it fails: a timestamp of the year 702
    is accepted, its day in Odessa is 15 June 702, and the date of its
    record is written with three digits of the year, which is not the
    text [YYYY-MM-DD] of that day. *)
Lemma get_forecast_date_before_year_1000 :
  fst (get_forecast (canned (Ok (PDict sample_year_702))) eet odessa_forecast
         "Odessa" (start tt))
  = Ok [ {| Entry.date := "702-06-15"; Entry.temp := PFloat 7.5;
            Entry.humidity := PInt 81; Entry.wind_speed := PFloat 4.1 |} ]
  /\ day_contains eet 702 6 15 (-40000000000)
  /\ iso_date 702 6 15 = "0702-06-15"
  /\ "702-06-15" <> iso_date 702 6 15.
Proof.
  split; [vm_compute; reflexivity | split; [ | split; [reflexivity | discriminate]]].
  split; [reflexivity | ].
  replace (days_since_1970 702 6 15) with (-462963) by (vm_compute; reflexivity).
  unfold eet. lia.
Qed.

(** The second sample, 22:26:40 UTC on 14 November 2023, falls on the
    15th in Odessa and on the 14th in Greenwich. *)
Example date_depends_on_time_zone :
  rbind (fromtimestamp eet (PInt 1700000800)) (fun d => Ok (strftime_Ymd d))
  = Ok "2023-11-15"
  /\ rbind (fromtimestamp (fun _ => 0) (PInt 1700000800)) (fun d => Ok (strftime_Ymd d))
     = Ok "2023-11-14".
Proof. vm_compute. split; reflexivity. Qed.

(** ** Calls one after the other *)

Section Independence.

Context {World : Type}.
Variable http : Request -> World -> result pyval * World.
Variable utcoffset : Z -> Z.

(** A fetch is one request; its result is a function of the answer to
    that request, and the only thing it changes is the network. *)
Lemma run_fetch_run (f : fetch) (st : state World) :
  run_fetch http utcoffset f st
  = (result_of_answer utcoffset (kind_of f) (fst (http (request_of f) (net st))),
     {| net := snd (http (request_of f) (net st)); stdout := stdout st |}).
Proof.
  destruct f as [self city | self city]; unfold run_fetch, bind, ret; simpl.
  - rewrite get_weather_run.
    destruct (fst (http (weather_request self city) (net st))) as [data | x];
      simpl; [ | reflexivity].
    destruct (weather_of_response data); reflexivity.
  - rewrite get_forecast_run.
    destruct (fst (http (forecast_request self city) (net st))) as [data | x];
      simpl; [ | reflexivity].
    destruct (forecast_of_response utcoffset data); reflexivity.
Qed.

End Independence.

(** C9. Of two fetches made one after the other, for the same city or
    for different ones, each returns what its kind makes of the answer
    to its own request: the result of the second is no function of the
    first call, nor the first of the second, and nothing is kept from a
    call but the state of the network itself. *)
Theorem consecutive_fetches_independent {World : Type}
    (http : Request -> World -> result pyval * World) (utcoffset : Z -> Z)
    (f1 f2 : fetch) (st : state World) :
  let answer1 := http (request_of f1) (net st) in
  let answer2 := http (request_of f2) (snd answer1) in
  let run1 := run_fetch http utcoffset f1 st in
  let run2 := run_fetch http utcoffset f2 (snd run1) in
  fst run1 = result_of_answer utcoffset (kind_of f1) (fst answer1)
  /\ fst run2 = result_of_answer utcoffset (kind_of f2) (fst answer2)
  /\ snd run2 = {| net := snd answer2; stdout := stdout st |}.
Proof.
  cbv zeta. rewrite !run_fetch_run. simpl. auto.
Qed.

(** The same as a statement on two runs: in two worlds, after any first
    fetches, second fetches of one kind whose requests get the same
    answer return the same. *)
Corollary second_fetch_ignores_first {World World' : Type}
    (http : Request -> World -> result pyval * World)
    (http' : Request -> World' -> result pyval * World')
    (utcoffset : Z -> Z) (f1 f1' f2 f2' : fetch)
    (st : state World) (st' : state World') :
  kind_of f2 = kind_of f2' ->
  fst (http (request_of f2) (net (snd (run_fetch http utcoffset f1 st))))
  = fst (http' (request_of f2') (net (snd (run_fetch http' utcoffset f1' st')))) ->
  fst (run_fetch http utcoffset f2 (snd (run_fetch http utcoffset f1 st)))
  = fst (run_fetch http' utcoffset f2' (snd (run_fetch http' utcoffset f1' st'))).
Proof.
  intros Hk Ha. rewrite (run_fetch_run http utcoffset f2), (run_fetch_run http' utcoffset f2').
  simpl. rewrite Hk, Ha. reflexivity.
Qed.

(** Two cities, two answers: each call returns the record of its own. *)
Example two_cities :
  let w := [Ok (PDict sample_weather);
            Ok (PDict {[ "main" := PDict {[ "temp" := PFloat 11.0; "humidity" := PInt 93 ]};
                         "wind" := PDict {[ "speed" := PFloat 7.5 ]} ]})] in
  let run1 := _get_weather scripted odessa_client "Odessa" (start w) in
  let run2 := _get_weather scripted odessa_client "Lviv" (snd run1) in
  fst run1 = Ok {| Snapshot.temperature := 21.5; Snapshot.humidity := 60;
                   Snapshot.wind_speed := 3.2 |}
  /\ fst run2 = Ok {| Snapshot.temperature := 11.0; Snapshot.humidity := 93;
                      Snapshot.wind_speed := 7.5 |}.
Proof. vm_compute. split; reflexivity. Qed.

(** ** The two ways of building a request *)

Section Requests.

Context {World : Type}.
Variable http : Request -> World -> result pyval * World.

Lemma sending_request_run (self : client) (city : string) (st : state World) :
  _sending_request http self city st
  = requests_get_json http (weather_request self city) st.
Proof. reflexivity. Qed.

Lemma send_request_run (self : client) (city : string) (st : state World) :
  _send_request http self city st
  = requests_get_json http (forecast_request self city) st.
Proof. reflexivity. Qed.

End Requests.

(** *** Texts and their pieces *)

Lemma list_ascii_of_string_app (a b : string) :
  list_ascii_of_string (a +:+ b) = list_ascii_of_string a ++ list_ascii_of_string b.
Proof. induction a as [ | c a IH]; simpl; [reflexivity | rewrite IH; reflexivity]. Qed.

Lemma lacks_app (sep : ascii) (a b : list ascii) :
  lacks sep (a ++ b) = (lacks sep a && lacks sep b)%bool.
Proof. unfold lacks. apply forallb_app. Qed.

Lemma lacks_flat_map (sep : ascii) (P : ascii -> bool) (g : ascii -> list ascii)
    (cs : list ascii) :
  (forall c, P c = true -> lacks sep (g c) = true) ->
  forallb P cs = true ->
  lacks sep (flat_map g cs) = true.
Proof.
  intros Hg. induction cs as [ | c cs IH]; simpl; [reflexivity | ].
  intros H. apply andb_prop in H. destruct H as [Hc Hcs].
  rewrite lacks_app, (Hg c Hc), (IH Hcs). reflexivity.
Qed.

Lemma break_at_none (sep : ascii) (a : list ascii) :
  lacks sep a = true -> break_at sep a = (a, None).
Proof.
  induction a as [ | c a IH]; simpl; [reflexivity | ].
  intros H. apply andb_prop in H. destruct H as [Hc Ha].
  apply negb_true_iff in Hc. rewrite Hc, (IH Ha). reflexivity.
Qed.

Lemma break_at_first (sep : ascii) (a b : list ascii) :
  lacks sep a = true -> break_at sep (a ++ sep :: b) = (a, Some b).
Proof.
  induction a as [ | c a IH]; simpl.
  - intros _. rewrite Ascii.eqb_refl. reflexivity.
  - intros H. apply andb_prop in H. destruct H as [Hc Ha].
    apply negb_true_iff in Hc. rewrite Hc, (IH Ha). reflexivity.
Qed.

Lemma split_on_last (sep : ascii) (a : list ascii) :
  lacks sep a = true -> split_on sep a = [a].
Proof.
  induction a as [ | c a IH]; simpl; [reflexivity | ].
  intros H. apply andb_prop in H. destruct H as [Hc Ha].
  apply negb_true_iff in Hc. rewrite Hc, (IH Ha). reflexivity.
Qed.

Lemma split_on_first (sep : ascii) (a b : list ascii) :
  lacks sep a = true -> split_on sep (a ++ sep :: b) = a :: split_on sep b.
Proof.
  induction a as [ | c a IH]; simpl.
  - intros _. rewrite Ascii.eqb_refl. reflexivity.
  - intros H. apply andb_prop in H. destruct H as [Hc Ha].
    apply negb_true_iff in Hc. rewrite Hc, (IH Ha). reflexivity.
Qed.

(** *** Escapes read back *)

Lemma unquote_plus_nil (f : nat) : unquote_plus f [] = [].
Proof. destruct f; reflexivity. Qed.

(** A way [g] of writing the characters that satisfy [P], each read back
    as itself, writes texts that are read back as themselves. *)
Lemma unquote_flat_map (P : ascii -> bool) (g : ascii -> list ascii) :
  (forall c r f, P c = true -> unquote_plus (S f) (g c ++ r) = c :: unquote_plus f r) ->
  forall (cs : list ascii) (f : nat),
    forallb P cs = true -> (length cs <= f)%nat ->
    unquote_plus f (flat_map g cs) = cs.
Proof.
  intros Hg. induction cs as [ | c cs IH]; intros f HP Hf; simpl.
  - apply unquote_plus_nil.
  - simpl in HP. apply andb_prop in HP. destruct HP as [Hc Hcs].
    destruct f as [ | f]; [simpl in Hf; lia | ].
    rewrite (Hg c _ f Hc), (IH f Hcs); [reflexivity | simpl in Hf; lia].
Qed.

Lemma length_flat_map_ge (g : ascii -> list ascii) (cs : list ascii) :
  (forall c, (1 <= length (g c))%nat) ->
  (length cs <= length (flat_map g cs))%nat.
Proof.
  intros Hg. induction cs as [ | c cs IH]; simpl; [lia | ].
  rewrite length_app. specialize (Hg c). lia.
Qed.

Lemma decode_flat_map (P : ascii -> bool) (g : ascii -> list ascii) (s : string) :
  (forall c r f, P c = true -> unquote_plus (S f) (g c ++ r) = c :: unquote_plus f r) ->
  (forall c, (1 <= length (g c))%nat) ->
  forallb P (list_ascii_of_string s) = true ->
  decode_text (flat_map g (list_ascii_of_string s)) = s.
Proof.
  intros Hg Hlen HP. unfold decode_text.
  rewrite (unquote_flat_map P g Hg); [apply string_of_list_ascii_of_string | exact HP | ].
  apply length_flat_map_ge. exact Hlen.
Qed.

(** What [quote_plus] writes is read back as it was, whatever it was. *)
Lemma unquote_quote_plus_char (c : ascii) (r : list ascii) (f : nat) :
  unquote_plus (S f) (quote_plus_char c ++ r) = c :: unquote_plus f r.
Proof. each_char c; reflexivity. Qed.

Lemma quote_plus_char_length (c : ascii) : (1 <= length (quote_plus_char c))%nat.
Proof.
  unfold quote_plus_char.
  destruct (is_unreserved c); [simpl; lia | ].
  destruct (Ascii.eqb c " "); simpl; lia.
Qed.

Lemma quote_plus_char_lacks (c : ascii) :
  lacks "&" (quote_plus_char c) = true /\ lacks "=" (quote_plus_char c) = true.
Proof. each_char c; split; reflexivity. Qed.

Lemma decode_quote_plus (s : string) : decode_text (quote_plus s) = s.
Proof.
  unfold quote_plus.
  apply (decode_flat_map (fun _ => true)).
  - intros c r f _. apply unquote_quote_plus_char.
  - apply quote_plus_char_length.
  - apply forallb_forall. reflexivity.
Qed.

Lemma quote_plus_lacks (s : string) :
  lacks "&" (quote_plus s) = true /\ lacks "=" (quote_plus s) = true.
Proof.
  unfold quote_plus. split;
    apply (lacks_flat_map _ (fun _ => true));
    try (intros c _; apply quote_plus_char_lacks);
    apply forallb_forall; reflexivity.
Qed.

(** What the library makes of a plain character in a URL is read back
    as the character. *)
Lemma unquote_encode_query_char (c : ascii) (r : list ascii) (f : nat) :
  plain_char c = true ->
  unquote_plus (S f) (encode_query_char true c ++ r) = c :: unquote_plus f r.
Proof.
  each_char c; intros H;
    first [ reflexivity | vm_compute in H; discriminate H ].
Qed.

Lemma encode_query_char_length (b : bool) (c : ascii) :
  (1 <= length (encode_query_char b c))%nat.
Proof. unfold encode_query_char. destruct (_ || _)%bool; simpl; lia. Qed.

Lemma encode_query_char_lacks (c : ascii) :
  plain_char c = true ->
  lacks "&" (encode_query_char true c) = true
  /\ lacks "=" (encode_query_char true c) = true.
Proof.
  each_char c; intros H;
    first [ split; reflexivity | vm_compute in H; discriminate H ].
Qed.

(** *** Three parameters *)

Lemma app_cons_assoc {A : Type} (a b c : list A) (x : A) :
  (a ++ x :: b) ++ c = a ++ x :: b ++ c.
Proof. rewrite <- List.app_assoc. reflexivity. Qed.

Lemma piece_kept (n v : list ascii) (rest : list (list ascii)) :
  List.filter (fun piece => negb (Nat.eqb (length piece) 0)) ((n ++ "="%char :: v) :: rest)
  = (n ++ "="%char :: v)
    :: List.filter (fun piece => negb (Nat.eqb (length piece) 0)) rest.
Proof.
  simpl. rewrite length_app. simpl.
  replace (length n + S (length v))%nat with (S (length n + length v)) by lia.
  reflexivity.
Qed.

(** A query of three parameters whose names and values hold neither
    [&] nor (the names) [=] is read as these three. *)
Lemma parse_query_three (n1 v1 n2 v2 n3 v3 : list ascii) :
  lacks "&" n1 = true -> lacks "=" n1 = true -> lacks "&" v1 = true ->
  lacks "&" n2 = true -> lacks "=" n2 = true -> lacks "&" v2 = true ->
  lacks "&" n3 = true -> lacks "=" n3 = true -> lacks "&" v3 = true ->
  parse_query (n1 ++ "="%char :: v1 ++ "&"%char :: n2 ++ "="%char :: v2
               ++ "&"%char :: n3 ++ "="%char :: v3)
  = [(decode_text n1, decode_text v1); (decode_text n2, decode_text v2);
     (decode_text n3, decode_text v3)].
Proof.
  intros A1 E1 B1 A2 E2 B2 A3 E3 B3. unfold parse_query.
  assert (Hp : forall n v, lacks "&" n = true -> lacks "&" v = true ->
                           lacks "&" (n ++ "="%char :: v) = true).
  { intros n v Hn Hv. rewrite lacks_app, Hn. simpl. exact Hv. }
  replace (n1 ++ "="%char :: v1 ++ "&"%char :: n2 ++ "="%char :: v2
           ++ "&"%char :: n3 ++ "="%char :: v3)
    with ((n1 ++ "="%char :: v1) ++ "&"%char
          :: ((n2 ++ "="%char :: v2) ++ "&"%char :: (n3 ++ "="%char :: v3)))
    by (rewrite !app_cons_assoc; reflexivity).
  rewrite split_on_first by (apply Hp; assumption).
  rewrite split_on_first by (apply Hp; assumption).
  rewrite split_on_last by (apply Hp; assumption).
  rewrite !piece_kept. simpl.
  rewrite !break_at_first by assumption. reflexivity.
Qed.

(** *** The request with [params] *)

Lemma url_query_bare (u : string) : bare_url u = true -> url_query u = [].
Proof.
  unfold bare_url, url_query. intros H. apply andb_prop in H. destruct H as [Hq Hf].
  rewrite (break_at_none _ _ Hf), (break_at_none _ _ Hq). reflexivity.
Qed.

(** The server receives the [params] as they were given, whatever the
    text of the key and of the city. *)
Lemma received_params_of_params (self : client) (city : string) :
  bare_url (url self) = true ->
  received_params (weather_request self city)
  = [("appid", api_key self); ("q", city); ("units", "metric")].
Proof.
  intros Hu. unfold received_params, sent_query, weather_request. simpl.
  rewrite (url_query_bare _ Hu).
  destruct (quote_plus_lacks (api_key self)) as [Ka Ke].
  destruct (quote_plus_lacks city) as [Ca Ce].
  change (parse_query
            (quote_plus "appid" ++ "="%char :: quote_plus (api_key self) ++ "&"%char
             :: quote_plus "q" ++ "="%char :: quote_plus city ++ "&"%char
             :: quote_plus "units" ++ "="%char :: quote_plus "metric")
          = [("appid", api_key self); ("q", city); ("units", "metric")]).
  rewrite parse_query_three by (assumption || reflexivity).
  rewrite !decode_quote_plus. reflexivity.
Qed.

(** *** The request with the parameters in the URL *)

Lemma count_escapes_step (c : ascii) (r : list ascii) (f : nat) :
  Ascii.eqb c "%" = false ->
  count_escapes (S f) (c :: r) = count_escapes f r.
Proof.
  each_char c; intros H; first [ reflexivity | vm_compute in H; discriminate H ].
Qed.

Lemma count_escapes_none (cs : list ascii) (f : nat) :
  lacks "%" cs = true -> count_escapes f cs = 0%nat.
Proof.
  revert f. induction cs as [ | c cs IH]; intros f H.
  - destruct f; reflexivity.
  - simpl in H. apply andb_prop in H. destruct H as [Hc Hcs].
    apply negb_true_iff in Hc.
    destruct f as [ | f]; [reflexivity | ].
    rewrite count_escapes_step by exact Hc. apply IH. exact Hcs.
Qed.

Lemma count_percent_none (cs : list ascii) :
  lacks "%" cs = true -> count_percent cs = 0%nat.
Proof.
  unfold count_percent. induction cs as [ | c cs IH]; simpl; [reflexivity | ].
  intros H. apply andb_prop in H. destruct H as [Hc Hcs].
  apply negb_true_iff in Hc. rewrite Hc. apply IH. exact Hcs.
Qed.

Lemma encode_invalid_chars_no_percent (cs : list ascii) :
  lacks "%" cs = true ->
  encode_invalid_chars cs = flat_map (encode_query_char true) cs.
Proof.
  intros H. unfold encode_invalid_chars.
  rewrite count_escapes_none, count_percent_none by exact H. reflexivity.
Qed.

Lemma plain_text_lacks (s : string) (sep : ascii) :
  plain_text s = true -> one_of "&=#+%" sep = true ->
  lacks sep (list_ascii_of_string s) = true.
Proof.
  unfold plain_text, lacks. intros Hs Hsep.
  apply forallb_forall. intros c Hc.
  rewrite forallb_forall in Hs. specialize (Hs c Hc).
  unfold plain_char in Hs. apply negb_true_iff in Hs. apply negb_true_iff.
  destruct (Ascii.eqb_spec c sep) as [-> | ]; [congruence | reflexivity].
Qed.

(** With a key and a city of plain text, the server receives from the
    URL of the forecast client the three parameters as well. *)
Lemma received_params_of_url (self : client) (city : string) :
  bare_url (url self) = true ->
  plain_text (api_key self) = true ->
  plain_text city = true ->
  received_params (forecast_request self city)
  = [("q", city); ("appid", api_key self); ("units", "metric")].
Proof.
  intros Hu Hk Hc. unfold received_params, sent_query, forecast_request.
  simpl req_url. simpl req_params. simpl urlencode. cbv iota.
  set (U := list_ascii_of_string (url self)).
  set (C := list_ascii_of_string city).
  set (K := list_ascii_of_string (api_key self)).
  unfold bare_url in Hu. apply andb_prop in Hu. destruct Hu as [Uq Uf]. fold U in Uq, Uf.
  assert (Hq : url_query (url self +:+ "?q=" +:+ city +:+ "&appid=" +:+ api_key self
                          +:+ "&units=metric")
               = list_ascii_of_string "q=" ++ C ++ list_ascii_of_string "&appid="
                 ++ K ++ list_ascii_of_string "&units=metric").
  { unfold url_query. rewrite !list_ascii_of_string_app. fold U C K.
    rewrite break_at_none.
    - simpl. rewrite (break_at_first "?" U) by exact Uq. reflexivity.
    - rewrite !lacks_app. unfold C, K.
      rewrite Uf, (plain_text_lacks city "#" Hc), (plain_text_lacks _ "#" Hk)
        by reflexivity.
      reflexivity. }
  rewrite Hq. clear Hq.
  rewrite encode_invalid_chars_no_percent.
  2:{ rewrite !lacks_app. unfold C, K.
      rewrite (plain_text_lacks city "%" Hc), (plain_text_lacks _ "%" Hk) by reflexivity.
      reflexivity. }
  rewrite !flat_map_app.
  set (EC := flat_map (encode_query_char true) C).
  set (EK := flat_map (encode_query_char true) K).
  assert (HEC : lacks "&" EC = true /\ lacks "=" EC = true).
  { split; apply (lacks_flat_map _ plain_char); try exact Hc;
      intros c Hp; apply encode_query_char_lacks; exact Hp. }
  assert (HEK : lacks "&" EK = true /\ lacks "=" EK = true).
  { split; apply (lacks_flat_map _ plain_char); try exact Hk;
      intros c Hp; apply encode_query_char_lacks; exact Hp. }
  destruct HEC as [ECa ECe]. destruct HEK as [EKa EKe].
  simpl.
  change (parse_query
            (list_ascii_of_string "q" ++ "="%char :: EC ++ "&"%char
             :: list_ascii_of_string "appid" ++ "="%char :: EK ++ "&"%char
             :: list_ascii_of_string "units" ++ "="%char :: list_ascii_of_string "metric")
          = [("q", city); ("appid", api_key self); ("units", "metric")]).
  rewrite parse_query_three by (assumption || reflexivity).
  unfold EC, EK, C, K.
  rewrite !(decode_flat_map plain_char (encode_query_char true));
    try assumption;
    try (intros; apply unquote_encode_query_char; assumption);
    try (intros; apply encode_query_char_length).
  reflexivity.
Qed.

(** For a key and a city of plain text the two requests ask the server
    for the same: the same parameters, in another order. *)
Theorem requests_agree_on_plain_text (self : client) (city : string) :
  bare_url (url self) = true ->
  plain_text (api_key self) = true ->
  plain_text city = true ->
  Permutation (received_params (forecast_request self city))
              (received_params (weather_request self city)).
Proof.
  intros Hu Hk Hc.
  rewrite (received_params_of_url self city Hu Hk Hc),
    (received_params_of_params self city Hu).
  apply perm_swap.
Qed.


(** C5 fails on the code.  For the city [Trinidad & Tobago] the parent's
    way of building the request asks the server for that city, and
    [_send_request], which pastes the city into the URL, asks it for the
    city [Trinidad ] and sends a second parameter named [ Tobago]. *)
Theorem send_request_splits_city :
  let self := WeatherForecast_init "k3y" in
  let city := "Trinidad & Tobago" in
  let by_params := weather_request self city in
  let by_url := forecast_request self city in
  net (snd (_sending_request recording self city (start []))) = [by_params]
  /\ net (snd (_send_request recording self city (start []))) = [by_url]
  /\ received_params by_params
     = [("appid", "k3y"); ("q", "Trinidad & Tobago"); ("units", "metric")]
  /\ received_params by_url
     = [("q", "Trinidad "); (" Tobago", ""); ("appid", "k3y"); ("units", "metric")]
  /\ param "q" (received_params by_params) = Some city
  /\ param "q" (received_params by_url) <> Some city.
Proof. vm_compute. repeat split. discriminate. Qed.

(** For the city of the program's own example the two requests ask for
    the same. *)
Example requests_agree_on_Odessa :
  received_params (weather_request odessa_forecast "Одесса")
  = [("appid", "k3y"); ("q", "Одесса"); ("units", "metric")]
  /\ received_params (forecast_request odessa_forecast "Одесса")
     = [("q", "Одесса"); ("appid", "k3y"); ("units", "metric")].
Proof. vm_compute. split; reflexivity. Qed.

(** * Further properties of the code *)

(** ** The current-weather client, on any response *)

(** What the three chains of [.get] find in a response, and when. *)
Lemma processing_response_ok_iff (data vt vh vw : pyval) :
  _processing_response data = Ok (vt, vh, vw)
  <-> exists d m w : gmap string pyval,
        data = PDict d
        /\ d !! "main" = Some (PDict m) /\ d !! "wind" = Some (PDict w)
        /\ vt = default PNone (m !! "temp")
        /\ vh = default PNone (m !! "humidity")
        /\ vw = default PNone (w !! "speed").
Proof.
  split.
  - destruct data as [| | | | | |d]; try discriminate.
    unfold _processing_response; simpl.
    destruct (d !! "main") as [[| | | | | |m]|] eqn:Em; simpl; try discriminate.
    destruct (d !! "wind") as [[| | | | | |w]|] eqn:Ew; simpl; try discriminate.
    intros [= <- <- <-]. exists d, m, w. auto 10.
  - intros (d & m & w & -> & Em & Ew & -> & -> & ->).
    unfold _processing_response; simpl. rewrite Em; simpl. rewrite Ew; simpl.
    reflexivity.
Qed.

(** X1. [_get_weather] returns a record exactly when the answer is a
    dict whose ["main"] and ["wind"] are dicts that hold ["temp"],
    ["humidity"] and ["speed"], and [float], [int] and [float] accept
    the three values; the record holds the three converted values. *)
Theorem get_weather_succeeds_iff {World : Type}
    (http : Request -> World -> result pyval * World)
    (self : client) (city : string) (st : state World) (s : Snapshot.t) :
  fst (_get_weather http self city st) = Ok s
  <-> exists (d m w : gmap string pyval) (vt vh vw : pyval),
        fst (http (weather_request self city) (net st)) = Ok (PDict d)
        /\ d !! "main" = Some (PDict m) /\ d !! "wind" = Some (PDict w)
        /\ m !! "temp" = Some vt /\ m !! "humidity" = Some vh
        /\ w !! "speed" = Some vw
        /\ py_float vt = Ok (Snapshot.temperature s)
        /\ py_int vh = Ok (Snapshot.humidity s)
        /\ py_float vw = Ok (Snapshot.wind_speed s).
Proof.
  rewrite get_weather_run; simpl. split.
  - destruct (fst (http _ _)) as [data|e]; simpl; [|discriminate].
    unfold weather_of_response.
    destruct (_processing_response data) as [[[vt vh] vw]|e] eqn:Ep; simpl;
      [|discriminate].
    apply processing_response_ok_iff in Ep.
    destruct Ep as (d & m & w & -> & Em & Ew & -> & -> & ->).
    destruct (m !! "temp") as [vt|] eqn:Et; simpl;
      [|discriminate].
    destruct (py_float vt) as [t|] eqn:Eft; simpl; [|discriminate].
    destruct (m !! "humidity") as [vh|] eqn:Eh; simpl;
      [|discriminate].
    destruct (py_int vh) as [h|] eqn:Eih; simpl; [|discriminate].
    destruct (w !! "speed") as [vw|] eqn:Es; simpl;
      [|discriminate].
    destruct (py_float vw) as [sp|] eqn:Efs; simpl; [|discriminate].
    intros [= <-]. exists d, m, w, vt, vh, vw. simpl. auto 12.
  - intros (d & m & w & vt & vh & vw & -> & Em & Ew & Et & Eh & Es & Ft & Fh & Fs).
    simpl. unfold weather_of_response.
    assert (Ep : _processing_response (PDict d) = Ok (vt, vh, vw)).
    { apply processing_response_ok_iff. exists d, m, w.
      rewrite Et, Eh, Es. auto 10. }
    rewrite Ep; simpl. rewrite Ft; simpl. rewrite Fh; simpl. rewrite Fs; simpl.
    destruct s; reflexivity.
Qed.

(** X2. Whatever the decoded response is, a failure of [_get_weather]
    after the answer has come is an [AttributeError], a [TypeError], a
    [ValueError] or an [OverflowError]: never a [KeyError] or another
    [LookupError], and never an exception of the transport. *)
Theorem get_weather_error_classes {World : Type}
    (http : Request -> World -> result pyval * World)
    (self : client) (city : string) (st : state World) (data : pyval) (e : exn) :
  fst (http (weather_request self city) (net st)) = Ok data ->
  fst (_get_weather http self city st) = Raise e ->
  weather_error e = true /\ is_LookupError e = false /\ is_TransportError e = false.
Proof.
  intros Ha. rewrite get_weather_run; simpl. rewrite Ha; simpl. intros Hr.
  apply weather_of_response_raises in Hr.
  destruct Hr as [->|[->|[->| ->]]]; repeat split.
Qed.

Lemma get_weather_error_classes_witness :
  fst (_get_weather (canned (Ok (PList []))) odessa_client "Odessa" (start tt))
  = Raise AttributeError
  /\ weather_error AttributeError = true.
Proof.
  split; [reflexivity|].
  apply (get_weather_error_classes (canned (Ok (PList []))) odessa_client "Odessa"
           (start tt) (PList []) AttributeError); reflexivity.
Defined.

(** X3. A response that is no dict (a list, a number, [null], text)
    makes [_get_weather] raise [AttributeError] and [get_forecast] raise
    [TypeError]: the one reads with [.get], the other with a subscript. *)
Theorem response_not_a_dict {World : Type}
    (http : Request -> World -> result pyval * World) (utcoffset : Z -> Z)
    (self : client) (city : string) (st : state World) (data : pyval) :
  is_dict data = false ->
  (fst (http (weather_request self city) (net st)) = Ok data ->
   fst (_get_weather http self city st) = Raise AttributeError)
  /\ (fst (http (forecast_request self city) (net st)) = Ok data ->
      fst (get_forecast http utcoffset self city st) = Raise TypeError).
Proof.
  intros Hd. rewrite get_weather_run, get_forecast_run; simpl.
  split; intros ->; destruct data; try discriminate Hd; reflexivity.
Qed.

Lemma response_not_a_dict_witness :
  fst (_get_weather (canned (Ok (PList []))) odessa_client "Odessa" (start tt))
  = Raise AttributeError
  /\ fst (get_forecast (canned (Ok (PList []))) eet odessa_forecast "Odessa" (start tt))
     = Raise TypeError.
Proof.
  split;
    apply (response_not_a_dict (canned (Ok (PList []))) eet _ "Odessa"
             (start tt) (PList [])); reflexivity.
Defined.

(** X4. Of a response [_get_weather] reads three entries only: two
    responses whose ["main"] hold the same ["temp"] and ["humidity"] and
    whose ["wind"] hold the same ["speed"] give the same result, be it a
    record or an exception, whatever else they hold. *)
Theorem get_weather_reads_three_fields {World : Type}
    (http1 http2 : Request -> World -> result pyval * World)
    (self : client) (city : string) (st1 st2 : state World)
    (d1 d2 m1 m2 w1 w2 : gmap string pyval) :
  fst (http1 (weather_request self city) (net st1)) = Ok (PDict d1) ->
  fst (http2 (weather_request self city) (net st2)) = Ok (PDict d2) ->
  d1 !! "main" = Some (PDict m1) -> d2 !! "main" = Some (PDict m2) ->
  d1 !! "wind" = Some (PDict w1) -> d2 !! "wind" = Some (PDict w2) ->
  m1 !! "temp" = m2 !! "temp" ->
  m1 !! "humidity" = m2 !! "humidity" ->
  w1 !! "speed" = w2 !! "speed" ->
  fst (_get_weather http1 self city st1) = fst (_get_weather http2 self city st2).
Proof.
  intros A1 A2 M1 M2 W1 W2 Et Eh Es.
  rewrite !get_weather_run; simpl. rewrite A1, A2; simpl.
  unfold weather_of_response, _processing_response; simpl.
  rewrite M1, M2; simpl. rewrite W1, W2; simpl. rewrite Et, Eh, Es.
  reflexivity.
Qed.

Lemma get_weather_reads_three_fields_witness :
  fst (_get_weather (canned (Ok (PDict sample_weather))) odessa_client "Odessa"
         (start tt))
  = fst (_get_weather (canned (Ok (PDict sample_weather_more))) odessa_client
           "Odessa" (start tt)).
Proof.
  apply (get_weather_reads_three_fields
           (canned (Ok (PDict sample_weather)))
           (canned (Ok (PDict sample_weather_more)))
           odessa_client "Odessa" (start tt) (start tt)
           sample_weather sample_weather_more
           sample_main
           {[ "temp" := PFloat 21.5; "humidity" := PInt 60; "pressure" := PInt 1014 ]}
           sample_wind
           {[ "speed" := PFloat 3.2; "deg" := PInt 240 ]});
    reflexivity.
Defined.

(** X5. When the answer is a well-formed response, [show_weather]
    returns [None] after it has printed one line, and no other: the
    city as it was given, the temperature and the wind speed as [float]
    writes them, the humidity as an integer, in the words of the
    script. *)
Theorem show_weather_prints_one_line {World : Type}
    (http : Request -> World -> result pyval * World)
    (self : client) (city : string) (st : state World)
    (d m w : gmap string pyval) (vt vh vw : pyval) (t : float) (h : Z) (s : float) :
  fst (http (weather_request self city) (net st)) = Ok (PDict d) ->
  d !! "main" = Some (PDict m) -> d !! "wind" = Some (PDict w) ->
  m !! "temp" = Some vt -> m !! "humidity" = Some vh -> w !! "speed" = Some vw ->
  py_float vt = Ok t -> py_int vh = Ok h -> py_float vw = Ok s ->
  fst (show_weather http self city st) = Ok tt
  /\ stdout (snd (show_weather http self city st))
     = stdout st
       ++ ["Температура в " +:+ city +:+ ": " +:+ float_repr t
           +:+ ">°C, влажность: " +:+ str_of_Z h
           +:+ ">%, скорость ветра: " +:+ float_repr s +:+ "> м/с."].
Proof.
  intros Ha Em Ew Et Eh Es Ft Fh Fs.
  pose proof (get_weather_converts http self city st d m w vt vh vw t h s
                Ha Em Ew Et Eh Es Ft Fh Fs) as Hg.
  pose proof (get_weather_silent http self city st) as Hs.
  rewrite show_weather_run.
  destruct (_get_weather http self city st) as [[wd|e] st']; simpl in *;
    [|discriminate].
  injection Hg as ->. rewrite Hs. split; reflexivity.
Qed.

Lemma show_weather_prints_one_line_witness :
  stdout (snd (show_weather (canned (Ok (PDict sample_guises))) odessa_client
                 "Odessa" (start tt)))
  = ["Температура в Odessa: 21.0>°C, влажность: 60>%, скорость ветра: 3.2> м/с."].
Proof.
  apply (show_weather_prints_one_line (canned (Ok (PDict sample_guises)))
           odessa_client "Odessa" (start tt) sample_guises
           {[ "temp" := PInt 21; "humidity" := PFloat 60.7 ]}
           {[ "speed" := PStr "3.2" ]}
           (PInt 21) (PFloat 60.7) (PStr "3.2") 21 60 3.2);
    vm_compute; reflexivity.
Defined.

(** ** The forecast client, on any response *)

(** What [datetime.fromtimestamp] raises. *)
Lemma fromtimestamp_raises (utcoffset : Z -> Z) (v : pyval) (e : exn) :
  fromtimestamp utcoffset v = Raise e ->
  e = TypeError \/ e = ValueError \/ e = OverflowError \/ e = OSError.
Proof.
  assert (Hl : forall t x, localtime utcoffset t = Raise x ->
                           x = OverflowError \/ x = OSError).
  { intros t x. unfold localtime.
    destruct (negb _); [intros [= <-]; auto|].
    destruct (ord2ymd _) as [[y m] d].
    destruct (_ && _)%bool; [discriminate|intros [= <-]; auto]. }
  assert (Hu : forall tmv x, utc_to_seconds tmv = Raise x -> x = ValueError).
  { intros tmv x. unfold utc_to_seconds.
    destruct (_ || _)%bool; [intros [= <-]; auto|discriminate]. }
  assert (Hloc : forall t x, local utcoffset t = Raise x ->
                             x = ValueError \/ x = OverflowError \/ x = OSError).
  { intros t x. unfold local.
    destruct (localtime utcoffset t) as [tmv|x'] eqn:El; simpl.
    - intros H. apply Hu in H. auto.
    - intros [= <-]. apply Hl in El. tauto. }
  unfold fromtimestamp.
  destruct (object_to_timeval v) as [[timet us]|x] eqn:Eo; simpl.
  - destruct (localtime utcoffset timet) as [tmv|x] eqn:El; simpl;
      [|intros [= <-]; apply Hl in El; tauto].
    destruct (utc_to_seconds tmv) as [rs|x] eqn:Eu; simpl;
      [|intros [= <-]; apply Hu in Eu; tauto].
    destruct (local utcoffset (timet - max_fold_seconds)) as [ps|x] eqn:Ep; simpl;
      [|intros [= <-]; apply Hloc in Ep; tauto].
    destruct (rs - ps - max_fold_seconds <? 0).
    + destruct (local utcoffset (timet + _)) as [q|x] eqn:Eq; simpl;
        [discriminate|intros [= <-]; apply Hloc in Eq; tauto].
    + simpl. discriminate.
  - intros [= <-]. revert Eo. unfold object_to_timeval.
    destruct v as [|b|z|d|s|l|g]; try (intros [= <-]; auto); try discriminate.
    + destruct (_ && _)%bool; [discriminate|intros [= <-]; auto].
    + destruct (is_nan d); [intros [= <-]; auto|].
      destruct (Z_of_float d) as [ip|x']; [|intros [= <-]; auto].
      destruct (float_of_Z ip); simpl;
        repeat match goal with
               | |- context [if ?c then _ else _] => destruct c
               end; try discriminate; intros [= <-]; auto.
Qed.

(** What the body of the loop raises. *)
Lemma forecast_entry_raises (utcoffset : Z -> Z) (f : pyval) (e : exn) :
  forecast_entry utcoffset f = Raise e -> forecast_error e = true.
Proof.
  assert (Hg : forall v k x, py_getitem v k = Raise x -> forecast_error x = true).
  { intros v k x. destruct v as [| | | | | |g]; simpl; try (intros [= <-]; reflexivity).
    destruct (g !! k); [discriminate|intros [= <-]; reflexivity]. }
  unfold forecast_entry.
  destruct (py_getitem f "dt") as [dt|x] eqn:E1; simpl;
    [|intros [= <-]; eapply Hg; exact E1].
  destruct (fromtimestamp utcoffset dt) as [date|x] eqn:E2; simpl.
  2:{ intros [= <-]. apply fromtimestamp_raises in E2.
      destruct E2 as [->|[->|[->| ->]]]; reflexivity. }
  destruct (py_getitem f "main") as [mn|x] eqn:E3; simpl;
    [|intros [= <-]; eapply Hg; exact E3].
  destruct (py_getitem mn "temp") as [t|x] eqn:E4; simpl;
    [|intros [= <-]; eapply Hg; exact E4].
  destruct (py_getitem mn "humidity") as [h|x] eqn:E5; simpl;
    [|intros [= <-]; eapply Hg; exact E5].
  destruct (py_getitem f "wind") as [w|x] eqn:E6; simpl;
    [|intros [= <-]; eapply Hg; exact E6].
  destruct (py_getitem w "speed") as [s|x] eqn:E7; simpl;
    [discriminate|intros [= <-]; eapply Hg; exact E7].
Qed.

Lemma forecast_loop_error (utcoffset : Z -> Z) (forecasts : list pyval)
    (acc : list Entry.t) (e : exn) :
  forecast_loop utcoffset forecasts acc = Raise e -> forecast_error e = true.
Proof.
  revert acc. induction forecasts as [|f rest IH]; intros acc; simpl;
    [discriminate|].
  destruct (forecast_entry utcoffset f) as [en|x] eqn:Ef; simpl.
  - apply IH.
  - intros [= <-]. eapply forecast_entry_raises. exact Ef.
Qed.

Lemma forecast_loop_length (utcoffset : Z -> Z) (forecasts : list pyval)
    (es : list Entry.t) :
  forecast_loop utcoffset forecasts [] = Ok es -> length es = length forecasts.
Proof.
  intros H. apply forecast_loop_ok in H. symmetry. eapply Forall2_length. exact H.
Qed.

(** The loop gives a list exactly when every element is well-formed. *)
Lemma forecast_loop_ok_iff (utcoffset : Z -> Z) (forecasts : list pyval) :
  (exists es, forecast_loop utcoffset forecasts [] = Ok es)
  <-> forallb (well_formed_entry utcoffset) forecasts = true.
Proof.
  split; [|apply forecast_loop_well_formed].
  intros [es H]. apply forecast_loop_ok in H.
  induction H as [|f e fs es' Hf _ IH]; simpl; [reflexivity|].
  rewrite IH, andb_true_r. apply well_formed_entry_ok. exists e. exact Hf.
Qed.

(** X6. Whatever the response is, [get_forecast] returns no more than
    five records. *)
Theorem get_forecast_at_most_five {World : Type}
    (http : Request -> World -> result pyval * World) (utcoffset : Z -> Z)
    (self : client) (city : string) (st : state World) (es : list Entry.t) :
  fst (get_forecast http utcoffset self city st) = Ok es ->
  (length es <= 5)%nat.
Proof.
  intros H. apply get_forecast_returns in H.
  destruct H as [->|(d & l & _ & _ & H)]; [simpl; lia|].
  apply Forall2_length in H. rewrite <- H, length_take. lia.
Qed.

Lemma get_forecast_at_most_five_witness :
  exists es : list Entry.t,
    fst (get_forecast (canned (Ok (PDict (sample_forecast sample_list8)))) eet
           odessa_forecast "Odessa" (start tt)) = Ok es
    /\ (length es <= 5)%nat.
Proof.
  eexists. split; [vm_compute; reflexivity|].
  apply (get_forecast_at_most_five
           (canned (Ok (PDict (sample_forecast sample_list8)))) eet
           odessa_forecast "Odessa" (start tt)).
  vm_compute; reflexivity.
Defined.

(** X7. [get_forecast] looks at the first five elements of ["list"] and
    at nothing else: two responses whose lists begin with the same five
    elements give the same result, be it the records or an exception,
    whatever comes after the fifth element and whatever else the
    responses hold. *)
Theorem get_forecast_ignores_the_rest {World : Type}
    (http1 http2 : Request -> World -> result pyval * World) (utcoffset : Z -> Z)
    (self : client) (city : string) (st1 st2 : state World)
    (d1 d2 : gmap string pyval) (l1 l2 : list pyval) :
  fst (http1 (forecast_request self city) (net st1)) = Ok (PDict d1) ->
  fst (http2 (forecast_request self city) (net st2)) = Ok (PDict d2) ->
  d1 !! "list" = Some (PList l1) ->
  d2 !! "list" = Some (PList l2) ->
  firstn 5 l1 = firstn 5 l2 ->
  fst (get_forecast http1 utcoffset self city st1)
  = fst (get_forecast http2 utcoffset self city st2).
Proof.
  intros A1 A2 L1 L2 E. rewrite !get_forecast_run; simpl. rewrite A1, A2; simpl.
  unfold forecast_of_response; simpl. rewrite L1, L2; simpl. rewrite E.
  reflexivity.
Qed.

Lemma get_forecast_ignores_the_rest_witness :
  fst (get_forecast (canned (Ok (PDict (sample_forecast sample_list8)))) eet
         odessa_forecast "Odessa" (start tt))
  = fst (get_forecast (canned (Ok (PDict (sample_forecast sample_list6_bad)))) eet
           odessa_forecast "Odessa" (start tt)).
Proof.
  apply (get_forecast_ignores_the_rest
           (canned (Ok (PDict (sample_forecast sample_list8))))
           (canned (Ok (PDict (sample_forecast sample_list6_bad)))) eet
           odessa_forecast "Odessa" (start tt) (start tt)
           (sample_forecast sample_list8) (sample_forecast sample_list6_bad)
           sample_list8 sample_list6_bad);
    reflexivity.
Defined.

(** X8. On a response with a list under ["list"], [get_forecast]
    returns records exactly when each of the first five elements is
    well-formed; one element among them that is not makes the whole call
    fail, and no record of the others is returned. *)
Theorem get_forecast_succeeds_iff {World : Type}
    (http : Request -> World -> result pyval * World) (utcoffset : Z -> Z)
    (self : client) (city : string) (st : state World)
    (d : gmap string pyval) (l : list pyval) :
  fst (http (forecast_request self city) (net st)) = Ok (PDict d) ->
  d !! "list" = Some (PList l) ->
  (exists es : list Entry.t, fst (get_forecast http utcoffset self city st) = Ok es)
  <-> forallb (well_formed_entry utcoffset) (firstn 5 l) = true.
Proof.
  intros A L. rewrite get_forecast_run; simpl. rewrite A; simpl.
  unfold forecast_of_response; simpl. rewrite L; simpl.
  apply forecast_loop_ok_iff.
Qed.

Lemma get_forecast_succeeds_iff_witness :
  (exists es : list Entry.t,
      fst (get_forecast (canned (Ok (PDict (sample_forecast sample_list3_bad)))) eet
             odessa_forecast "Odessa" (start tt)) = Ok es)
  <-> forallb (well_formed_entry eet) (firstn 5 sample_list3_bad) = true.
Proof.
  apply (get_forecast_succeeds_iff
           (canned (Ok (PDict (sample_forecast sample_list3_bad)))) eet
           odessa_forecast "Odessa" (start tt)
           (sample_forecast sample_list3_bad) sample_list3_bad);
    reflexivity.
Defined.

(** X9. The elements are taken in their order, and the first that is
    not well-formed decides: after well-formed elements, an element
    among the first five that is no dict or has a ["dt"] that is no
    number makes a [TypeError], one without ["dt"] a [KeyError], and one
    whose ["dt"] is not-a-number a [ValueError], whatever its other
    entries are and whatever the elements after it are. *)
Theorem get_forecast_first_defect {World : Type}
    (http : Request -> World -> result pyval * World) (utcoffset : Z -> Z)
    (self : client) (city : string) (st : state World)
    (d : gmap string pyval) (pre post : list pyval) (f : pyval) :
  fst (http (forecast_request self city) (net st)) = Ok (PDict d) ->
  d !! "list" = Some (PList (pre ++ f :: post)) ->
  (length pre < 5)%nat ->
  forallb (well_formed_entry utcoffset) pre = true ->
  (is_dict f = false ->
   fst (get_forecast http utcoffset self city st) = Raise TypeError)
  /\ (forall g : gmap string pyval, f = PDict g -> g !! "dt" = None ->
      fst (get_forecast http utcoffset self city st) = Raise KeyError)
  /\ (forall (g : gmap string pyval) (dt : pyval), f = PDict g ->
      g !! "dt" = Some dt ->
      match dt with
      | PNone | PStr _ | PList _ | PDict _ => True
      | _ => False
      end ->
      fst (get_forecast http utcoffset self city st) = Raise TypeError)
  /\ (forall (g : gmap string pyval) (x : float), f = PDict g ->
      g !! "dt" = Some (PFloat x) -> is_nan x = true ->
      fst (get_forecast http utcoffset self city st) = Raise ValueError).
Proof.
  intros A L Hlen Hpre.
  assert (Hx : forall x, forecast_entry utcoffset f = Raise x ->
                         fst (get_forecast http utcoffset self city st) = Raise x).
  { intros x Hf. rewrite get_forecast_run; simpl. rewrite A; simpl.
    unfold forecast_of_response; simpl. rewrite L; simpl.
    rewrite take_app.
    rewrite (firstn_all2 pre) by lia.
    destruct (5 - length pre)%nat as [|k] eqn:Ek; [lia|].
    rewrite firstn_cons. apply forecast_loop_raises; assumption. }
  repeat split.
  - intros Hd. apply Hx. destruct f; try discriminate Hd; reflexivity.
  - intros g -> Hg. apply Hx. unfold forecast_entry; simpl. rewrite Hg. reflexivity.
  - intros g dt -> Hg Hk. apply Hx. unfold forecast_entry; simpl. rewrite Hg; simpl.
    destruct dt; try contradiction; reflexivity.
  - intros g x -> Hg Hn. apply Hx. unfold forecast_entry; simpl. rewrite Hg; simpl.
    unfold fromtimestamp; simpl. rewrite Hn. reflexivity.
Qed.

Lemma get_forecast_first_defect_witness :
  fst (get_forecast
         (canned (Ok (PDict (sample_forecast
                               [sample_entry 1699990000 (PFloat 7.5) 81 4.1;
                                PDict {[ "dt" := PFloat nan ]};
                                PInt 0]))))
         eet odessa_forecast "Odessa" (start tt))
  = Raise ValueError.
Proof.
  refine (proj2 (proj2 (proj2
    (get_forecast_first_defect
       (canned (Ok (PDict (sample_forecast
                             [sample_entry 1699990000 (PFloat 7.5) 81 4.1;
                              PDict {[ "dt" := PFloat nan ]};
                              PInt 0]))))
       eet odessa_forecast "Odessa" (start tt)
       (sample_forecast [sample_entry 1699990000 (PFloat 7.5) 81 4.1;
                         PDict {[ "dt" := PFloat nan ]};
                         PInt 0])
       [sample_entry 1699990000 (PFloat 7.5) 81 4.1] [PInt 0]
       (PDict {[ "dt" := PFloat nan ]}) _ _ _ _)))
    {[ "dt" := PFloat nan ]} nan _ _ _);
    try reflexivity.
  simpl. lia.
Defined.

(** X10. Whatever the decoded response is, a failure of [get_forecast]
    after the answer has come is a [KeyError], a [TypeError], a
    [ValueError], an [OverflowError] or an [OSError]; it is never the
    [AttributeError] that the current-weather client raises on a
    response without ["main"]. *)
Theorem get_forecast_error_classes {World : Type}
    (http : Request -> World -> result pyval * World) (utcoffset : Z -> Z)
    (self : client) (city : string) (st : state World) (data : pyval) (e : exn) :
  fst (http (forecast_request self city) (net st)) = Ok data ->
  fst (get_forecast http utcoffset self city st) = Raise e ->
  forecast_error e = true /\ e <> AttributeError /\ is_TransportError e = false.
Proof.
  intros A. rewrite get_forecast_run; simpl. rewrite A; simpl.
  unfold forecast_of_response. intros H.
  assert (He : forecast_error e = true).
  { destruct data as [| | | | | |d]; simpl in H; try (injection H as <-; reflexivity).
    destruct (d !! "list") as [lst|]; simpl in H;
      [|injection H as <-; reflexivity].
    destruct (first_five lst) as [fs|x] eqn:Ef; simpl in H.
    - eapply forecast_loop_error. exact H.
    - injection H as <-. destruct lst; simpl in Ef; try discriminate Ef;
        injection Ef as <-; reflexivity. }
  split; [exact He|]. destruct e; try discriminate He; split; first [discriminate|reflexivity].
Qed.

Lemma get_forecast_error_classes_witness :
  fst (get_forecast (canned (Ok (PDict ∅))) eet odessa_forecast "Odessa" (start tt))
  = Raise KeyError
  /\ forecast_error KeyError = true.
Proof.
  split; [reflexivity|].
  apply (get_forecast_error_classes (canned (Ok (PDict ∅))) eet odessa_forecast
           "Odessa" (start tt) (PDict ∅) KeyError); reflexivity.
Defined.

(** X11. When ["list"] holds something that is no list, the slice
    decides: an empty text has no characters and [get_forecast] returns
    the empty list; a text with characters gives a [TypeError] at its
    first character, subscripted with ["dt"]; any other object has no
    slice and gives a [TypeError]. *)
Theorem get_forecast_list_not_a_list {World : Type}
    (http : Request -> World -> result pyval * World) (utcoffset : Z -> Z)
    (self : client) (city : string) (st : state World)
    (d : gmap string pyval) (v : pyval) :
  fst (http (forecast_request self city) (net st)) = Ok (PDict d) ->
  d !! "list" = Some v ->
  is_list v = false ->
  fst (get_forecast http utcoffset self city st)
  = match v with
    | PStr EmptyString => Ok []
    | _ => Raise TypeError
    end.
Proof.
  intros A L Hv. rewrite get_forecast_run; simpl. rewrite A; simpl.
  unfold forecast_of_response; simpl. rewrite L; simpl.
  destruct v as [| | | |s| |]; try discriminate Hv; try reflexivity.
  destruct s; reflexivity.
Qed.

Lemma get_forecast_list_not_a_list_witness :
  fst (get_forecast (canned (Ok (PDict {[ "list" := PStr "" ]}))) eet
         odessa_forecast "Odessa" (start tt))
  = Ok [].
Proof.
  apply (get_forecast_list_not_a_list
           (canned (Ok (PDict {[ "list" := PStr "" ]}))) eet
           odessa_forecast "Odessa" (start tt)
           {[ "list" := PStr "" ]} (PStr ""));
    reflexivity.
Defined.

(** An element as the service sends it is well-formed in every time
    zone. *)
Lemma unix_entry_well_formed (utcoffset : Z -> Z) (f : pyval) :
  (forall u, - 86400 < utcoffset u < 86400) ->
  unix_entry f = true -> well_formed_entry utcoffset f = true.
Proof.
  intros Hb. unfold unix_entry, well_formed_entry.
  destruct (lookup_path f ["dt"]) as [[| |t| | | |]|]; try discriminate.
  destruct (lookup_path f ["main"; "temp"]); try discriminate.
  destruct (lookup_path f ["main"; "humidity"]); try discriminate.
  destruct (lookup_path f ["wind"; "speed"]); try discriminate.
  intros H. apply andb_true_iff in H. destruct H as [H1 H2].
  apply fromtimestamp_unix_ok; [exact Hb|lia].
Qed.

(** X12. In any time zone (an offset from UTC of less than a day),
    a response whose first five elements hold an integer ["dt"] from
    1970 to the year 9999 and the three values is accepted: as many
    records as elements, up to five, and record [i] holds the values of
    element [i] as they are. *)
Theorem get_forecast_accepts_unix_entries {World : Type}
    (http : Request -> World -> result pyval * World) (utcoffset : Z -> Z)
    (self : client) (city : string) (st : state World)
    (d : gmap string pyval) (l : list pyval) :
  (forall u, - 86400 < utcoffset u < 86400) ->
  fst (http (forecast_request self city) (net st)) = Ok (PDict d) ->
  d !! "list" = Some (PList l) ->
  forallb unix_entry (firstn 5 l) = true ->
  exists es : list Entry.t,
    fst (get_forecast http utcoffset self city st) = Ok es
    /\ length es = Nat.min 5 (length l)
    /\ forall (i : nat) (e : Entry.t), es !! i = Some e ->
         exists f : pyval,
           l !! i = Some f
           /\ lookup_path f ["main"; "temp"] = Some (Entry.temp e)
           /\ lookup_path f ["main"; "humidity"] = Some (Entry.humidity e)
           /\ lookup_path f ["wind"; "speed"] = Some (Entry.wind_speed e).
Proof.
  intros Hb A L Hu.
  assert (Hwf : forallb (well_formed_entry utcoffset) (firstn 5 l) = true).
  { apply forallb_forall. intros f Hin.
    apply unix_entry_well_formed; [exact Hb|].
    rewrite forallb_forall in Hu. apply Hu. exact Hin. }
  destruct (get_forecast_well_formed http utcoffset self city st d l A L Hwf)
    as (es & Hes & Hall).
  exists es. split; [exact Hes|]. split.
  - apply Forall2_length in Hall. rewrite <- Hall. apply length_take.
  - intros i e Hi.
    destruct (Forall2_lookup_r _ _ _ _ _ Hall Hi) as (f & Hf & Hre).
    apply lookup_take_Some in Hf. destruct Hf as [Hf _].
    destruct Hre as (dt & date & _ & _ & _ & Ht & Hh & Hs).
    exists f. auto.
Qed.

Lemma get_forecast_accepts_unix_entries_witness :
  exists es : list Entry.t,
    fst (get_forecast (canned (Ok (PDict (sample_forecast sample_list8)))) eet
           odessa_forecast "Odessa" (start tt)) = Ok es
    /\ length es = Nat.min 5 (length sample_list8)
    /\ forall (i : nat) (e : Entry.t), es !! i = Some e ->
         exists f : pyval,
           sample_list8 !! i = Some f
           /\ lookup_path f ["main"; "temp"] = Some (Entry.temp e)
           /\ lookup_path f ["main"; "humidity"] = Some (Entry.humidity e)
           /\ lookup_path f ["wind"; "speed"] = Some (Entry.wind_speed e).
Proof.
  apply (get_forecast_accepts_unix_entries
           (canned (Ok (PDict (sample_forecast sample_list8)))) eet
           odessa_forecast "Odessa" (start tt)
           (sample_forecast sample_list8) sample_list8).
  - intros u. unfold eet. lia.
  - reflexivity.
  - reflexivity.
  - vm_compute. reflexivity.
Defined.

(** ** What the two clients ask the server for, for any key and city *)

(** The query that goes over the wire for a URL made of a bare address,
    a [?] and a text without [#] and [%], and no [params]. *)
Lemma sent_query_of_url (u : string) (q : list ascii) :
  bare_url u = true ->
  lacks "#" q = true -> lacks "%" q = true ->
  sent_query {| req_url := string_of_list_ascii (list_ascii_of_string u ++ "?"%char :: q);
                req_params := [] |}
  = flat_map (encode_query_char true) q.
Proof.
  intros Hu Hh Hp. unfold bare_url in Hu. apply andb_prop in Hu.
  destruct Hu as [Uq Uf].
  unfold sent_query; simpl. unfold url_query.
  rewrite list_ascii_of_string_of_list_ascii.
  rewrite break_at_none by (rewrite lacks_app, Uf; simpl; exact Hh).
  rewrite break_at_first by exact Uq.
  apply encode_invalid_chars_no_percent. exact Hp.
Qed.

(** The same when a fragment follows: what comes after the first [#]
    stays with the sender. *)
Lemma sent_query_of_url_fragment (u : string) (q r : list ascii) :
  bare_url u = true ->
  lacks "#" q = true -> lacks "%" q = true ->
  sent_query {| req_url := string_of_list_ascii
                             (list_ascii_of_string u ++ "?"%char :: q ++ "#"%char :: r);
                req_params := [] |}
  = flat_map (encode_query_char true) q.
Proof.
  intros Hu Hh Hp. unfold bare_url in Hu. apply andb_prop in Hu.
  destruct Hu as [Uq Uf].
  unfold sent_query; simpl. unfold url_query.
  rewrite list_ascii_of_string_of_list_ascii.
  replace (list_ascii_of_string u ++ "?"%char :: q ++ "#"%char :: r)
    with ((list_ascii_of_string u ++ "?"%char :: q) ++ "#"%char :: r)
    by (rewrite app_cons_assoc; reflexivity).
  rewrite break_at_first by (rewrite lacks_app, Uf; simpl; exact Hh).
  rewrite break_at_first by exact Uq.
  apply encode_invalid_chars_no_percent. exact Hp.
Qed.

(** Plain text, written as the library writes a URL, holds none of the
    separators and is read back as it was. *)
Lemma plain_text_encoded (s : string) :
  plain_text s = true ->
  lacks "&" (flat_map (encode_query_char true) (list_ascii_of_string s)) = true
  /\ lacks "=" (flat_map (encode_query_char true) (list_ascii_of_string s)) = true
  /\ decode_text (flat_map (encode_query_char true) (list_ascii_of_string s)) = s.
Proof.
  intros Hs. repeat split.
  - apply (lacks_flat_map _ plain_char); [|exact Hs].
    intros c Hp. apply encode_query_char_lacks. exact Hp.
  - apply (lacks_flat_map _ plain_char); [|exact Hs].
    intros c Hp. apply encode_query_char_lacks. exact Hp.
  - apply (decode_flat_map plain_char).
    + intros. apply unquote_encode_query_char. assumption.
    + intros. apply encode_query_char_length.
    + exact Hs.
Qed.

Lemma piece_kept_nonempty (c : ascii) (p : list ascii) (rest : list (list ascii)) :
  List.filter (fun piece => negb (Nat.eqb (length piece) 0)) ((c :: p) :: rest)
  = (c :: p) :: List.filter (fun piece => negb (Nat.eqb (length piece) 0)) rest.
Proof. reflexivity. Qed.

(** X13. With [params] the server receives the key and the city as
    they were given, whatever their text (spaces, [&], [#], letters of
    any alphabet): a fresh [WeatherAPI] sends one request, to the address
    of the current weather, and the server reads off it [appid], [q] and
    [units=metric]. *)
Theorem sending_request_delivers_any_city (API_KEY city : string) :
  exists rq : Request,
    net (snd (_sending_request recording (WeatherAPI_init API_KEY) city (start [])))
    = [rq]
    /\ req_url rq = "https://api.openweathermap.org/data/2.5/weather"
    /\ received_params rq
       = [("appid", API_KEY); ("q", city); ("units", "metric")]
    /\ param "q" (received_params rq) = Some city.
Proof.
  exists (weather_request (WeatherAPI_init API_KEY) city).
  split; [reflexivity|]. split; [reflexivity|].
  rewrite received_params_of_params by reflexivity.
  split; reflexivity.
Qed.

(** X14. A fresh [WeatherForecast] sends one request, to the address of
    the forecast with the parameters in the URL; when the key and the
    city are plain text (no [&], [=], [#], [+], [%]) the server reads
    off it the same three parameters that the parent's way of asking
    delivers, in another order. *)
Theorem send_request_delivers_plain_city (API_KEY city : string) :
  plain_text API_KEY = true ->
  plain_text city = true ->
  exists rq : Request,
    net (snd (_send_request recording (WeatherForecast_init API_KEY) city (start [])))
    = [rq]
    /\ req_url rq
       = "https://api.openweathermap.org/data/2.5/forecast?q=" +:+ city
         +:+ "&appid=" +:+ API_KEY +:+ "&units=metric"
    /\ received_params rq
       = [("q", city); ("appid", API_KEY); ("units", "metric")]
    /\ Permutation (received_params rq)
         (received_params (weather_request (WeatherForecast_init API_KEY) city)).
Proof.
  intros Hk Hc.
  exists (forecast_request (WeatherForecast_init API_KEY) city).
  split; [reflexivity|]. split; [reflexivity|].
  rewrite (received_params_of_url (WeatherForecast_init API_KEY) city)
    by (reflexivity || assumption).
  split; [reflexivity|].
  rewrite received_params_of_params by reflexivity.
  apply perm_swap.
Qed.

Lemma send_request_delivers_plain_city_witness :
  exists rq : Request,
    net (snd (_send_request recording (WeatherForecast_init "k3y") "Одесса" (start [])))
    = [rq]
    /\ req_url rq
       = "https://api.openweathermap.org/data/2.5/forecast?q=" +:+ "Одесса"
         +:+ "&appid=" +:+ "k3y" +:+ "&units=metric"
    /\ received_params rq
       = [("q", "Одесса"); ("appid", "k3y"); ("units", "metric")]
    /\ Permutation (received_params rq)
         (received_params (weather_request (WeatherForecast_init "k3y") "Одесса")).
Proof.
  apply (send_request_delivers_plain_city "k3y" "Одесса"); reflexivity.
Defined.

(** X15. A city with an [&] in it is cut in two by the URL of the
    forecast client: for a city [a&b] of plain texts [a] and [b] the
    server is asked for the city [a] and receives one parameter more,
    named [b]; the parent's way of asking delivers [a&b]. *)
Theorem send_request_cuts_at_ampersand (API_KEY a b : string) :
  plain_text API_KEY = true ->
  plain_text a = true ->
  plain_text b = true ->
  b <> "" ->
  let self := WeatherForecast_init API_KEY in
  let city := a +:+ "&" +:+ b in
  received_params (forecast_request self city)
  = [("q", a); (b, ""); ("appid", API_KEY); ("units", "metric")]
  /\ param "q" (received_params (forecast_request self city)) = Some a
  /\ param "q" (received_params (weather_request self city)) = Some city.
Proof.
  intros Hk Ha Hb Hne self city.
  assert (Hw : received_params (weather_request self city)
               = [("appid", API_KEY); ("q", city); ("units", "metric")])
    by (apply received_params_of_params; reflexivity).
  rewrite Hw.
  set (A := list_ascii_of_string a).
  set (B := list_ascii_of_string b).
  set (K := list_ascii_of_string API_KEY).
  set (enc := flat_map (encode_query_char true)).
  assert (Hr : received_params (forecast_request self city)
               = [("q", a); (b, ""); ("appid", API_KEY); ("units", "metric")]).
  { unfold received_params.
    replace (forecast_request self city)
      with {| req_url := string_of_list_ascii
                (list_ascii_of_string (url self) ++ "?"%char
                 :: (list_ascii_of_string "q=" ++ A ++ "&"%char :: B
                     ++ list_ascii_of_string "&appid=" ++ K
                     ++ list_ascii_of_string "&units=metric"));
              req_params := [] |}.
    2:{ unfold forecast_request, city, A, B, K. f_equal.
        rewrite <- (string_of_list_ascii_of_string
                      (url self +:+ "?q=" +:+ (a +:+ "&" +:+ b) +:+ "&appid="
                       +:+ api_key self +:+ "&units=metric")).
        f_equal. rewrite !list_ascii_of_string_app. simpl.
        rewrite <- !app_assoc. reflexivity. }
    rewrite sent_query_of_url.
    2:{ reflexivity. }
    2:{ repeat (rewrite !lacks_app; simpl). unfold A, B, K.
        rewrite (plain_text_lacks a "#" Ha), (plain_text_lacks b "#" Hb),
          (plain_text_lacks _ "#" Hk) by reflexivity.
        reflexivity. }
    2:{ repeat (rewrite !lacks_app; simpl). unfold A, B, K.
        rewrite (plain_text_lacks a "%" Ha), (plain_text_lacks b "%" Hb),
          (plain_text_lacks _ "%" Hk) by reflexivity.
        reflexivity. }
    destruct (plain_text_encoded a Ha) as (Aa & Ae & Ad).
    destruct (plain_text_encoded b Hb) as (Ba & Be & Bd).
    destruct (plain_text_encoded API_KEY Hk) as (Ka & Ke & Kd).
    fold A in Aa, Ae, Ad. fold B in Ba, Be, Bd. fold K in Ka, Ke, Kd.
    fold enc in Aa, Ae, Ad, Ba, Be, Bd, Ka, Ke, Kd.
    assert (HB : exists c p, enc B = c :: p).
    { unfold B. destruct b as [|c b]; [congruence|]. simpl.
      pose proof (encode_query_char_length true c) as Hl.
      destruct (encode_query_char true c) as [|c' p']; [simpl in Hl; lia|].
      simpl. eauto. }
    destruct HB as (cb & pb & HB).
    unfold enc. repeat (rewrite !flat_map_app; simpl). fold enc.
    change (parse_query
              ((list_ascii_of_string "q" ++ "="%char :: enc A) ++ "&"%char
               :: enc B ++ "&"%char
               :: (list_ascii_of_string "appid" ++ "="%char :: enc K) ++ "&"%char
               :: (list_ascii_of_string "units" ++ "="%char
                   :: list_ascii_of_string "metric"))
            = [("q", a); (b, ""); ("appid", API_KEY); ("units", "metric")]).
    assert (Hp : forall n v, lacks "&" n = true -> lacks "&" v = true ->
                             lacks "&" (n ++ "="%char :: v) = true).
    { intros n v Hn Hv. rewrite lacks_app, Hn. simpl. exact Hv. }
    unfold parse_query.
    rewrite split_on_first by (apply Hp; [reflexivity|exact Aa]).
    rewrite split_on_first by exact Ba.
    rewrite split_on_first by (apply Hp; [reflexivity|exact Ka]).
    rewrite split_on_last by reflexivity.
    rewrite piece_kept. rewrite HB, piece_kept_nonempty, <- HB.
    rewrite !piece_kept. simpl List.filter. simpl map.
    rewrite (break_at_none "=" (enc B)) by exact Be.
    simpl default. rewrite Ad, Bd, Kd. reflexivity. }
  rewrite Hr. repeat split.
Qed.

Lemma send_request_cuts_at_ampersand_witness :
  received_params (forecast_request (WeatherForecast_init "k3y") "Trinidad&Tobago")
  = [("q", "Trinidad"); ("Tobago", ""); ("appid", "k3y"); ("units", "metric")].
Proof.
  refine (proj1 (send_request_cuts_at_ampersand "k3y" "Trinidad" "Tobago" _ _ _ _));
    first [reflexivity | discriminate].
Defined.

(** X16. A city with a [#] in it ends the query of the forecast client:
    for a city [a#b] with [a] of plain text the server receives the
    city [a] and nothing else, neither the key nor the units, whatever
    [b] and the key are. *)
Theorem send_request_cuts_at_hash (API_KEY a b : string) :
  plain_text a = true ->
  let self := WeatherForecast_init API_KEY in
  let city := a +:+ "#" +:+ b in
  received_params (forecast_request self city) = [("q", a)]
  /\ param "appid" (received_params (forecast_request self city)) = None
  /\ param "appid" (received_params (weather_request self city)) = Some API_KEY.
Proof.
  intros Ha self city.
  assert (Hw : received_params (weather_request self city)
               = [("appid", API_KEY); ("q", city); ("units", "metric")])
    by (apply received_params_of_params; reflexivity).
  rewrite Hw.
  set (A := list_ascii_of_string a).
  set (enc := flat_map (encode_query_char true)).
  assert (Hr : received_params (forecast_request self city) = [("q", a)]).
  { unfold received_params.
    replace (forecast_request self city)
      with {| req_url := string_of_list_ascii
                (list_ascii_of_string (url self) ++ "?"%char
                 :: (list_ascii_of_string "q=" ++ A) ++ "#"%char
                 :: (list_ascii_of_string b ++ list_ascii_of_string "&appid="
                     ++ list_ascii_of_string API_KEY
                     ++ list_ascii_of_string "&units=metric"));
              req_params := [] |}.
    2:{ unfold forecast_request, city, A. f_equal.
        rewrite <- (string_of_list_ascii_of_string
                      (url self +:+ "?q=" +:+ (a +:+ "#" +:+ b) +:+ "&appid="
                       +:+ api_key self +:+ "&units=metric")).
        f_equal. rewrite !list_ascii_of_string_app. simpl.
        rewrite <- !app_assoc. reflexivity. }
    rewrite sent_query_of_url_fragment.
    2:{ reflexivity. }
    2:{ rewrite lacks_app; simpl. apply (plain_text_lacks a "#" Ha). reflexivity. }
    2:{ rewrite lacks_app; simpl. apply (plain_text_lacks a "%" Ha). reflexivity. }
    destruct (plain_text_encoded a Ha) as (Aa & Ae & Ad).
    fold A in Aa, Ae, Ad. fold enc in Aa, Ae, Ad.
    rewrite flat_map_app. fold enc. simpl.
    change (parse_query (list_ascii_of_string "q" ++ "="%char :: enc A)
            = [("q", a)]).
    unfold parse_query.
    rewrite split_on_last by (rewrite lacks_app; simpl; exact Aa).
    rewrite piece_kept. simpl List.filter. simpl map.
    rewrite Ad. reflexivity. }
  rewrite Hr. repeat split.
Qed.

Lemma send_request_cuts_at_hash_witness :
  received_params (forecast_request (WeatherForecast_init "k3y") "Odessa#1")
  = [("q", "Odessa")].
Proof.
  refine (proj1 (send_request_cuts_at_hash "k3y" "Odessa" "1" _)); reflexivity.
Defined.

(** ** The script *)

Section MainFacts.

Context {World : Type}.
Variable http : Request -> World -> result pyval * World.
Variable utcoffset : Z -> Z.
Variable repr : pyval -> string.

(** The loop of [main] prints one line for each record, in order. *)
Lemma print_days_run (days : list Entry.t) (st : state World) :
  print_days repr days st
  = (Ok tt, {| net := net st; stdout := stdout st ++ map (day_line repr) days |}).
Proof.
  revert st. induction days as [|day rest IH]; intros st; simpl.
  - rewrite app_nil_r. destruct st; reflexivity.
  - unfold bind, print; simpl. rewrite IH; simpl.
    rewrite <- app_assoc. reflexivity.
Qed.

(** [main], call by call. *)
Lemma main_run (API_KEY : string) (st : state World) :
  main http utcoffset repr API_KEY st
  = match show_weather http (WeatherAPI_init API_KEY) "Одесса" st with
    | (Ok _, st1) =>
        match get_forecast http utcoffset (WeatherForecast_init API_KEY) "Одесса" st1 with
        | (Ok days, st2) =>
            (Ok tt, {| net := net st2;
                       stdout := stdout st2 ++ map (day_line repr) days |})
        | (Raise e, st2) => (Raise e, st2)
        end
    | (Raise e, st1) => (Raise e, st1)
    end.
Proof.
  unfold main, bind.
  destruct (show_weather _ _ _ st) as [[[]|e] st1]; [|reflexivity].
  destruct (get_forecast _ _ _ _ st1) as [[days|e] st2]; [|reflexivity].
  apply print_days_run.
Qed.

End MainFacts.

(** X17. When the fetch of the current weather fails, be it the
    transport or the response, [main] stops there with that exception:
    nothing is printed, and the network has seen the one request for the
    weather and no request for the forecast. *)
Theorem main_stops_at_weather_failure {World : Type}
    (http : Request -> World -> result pyval * World) (utcoffset : Z -> Z)
    (repr : pyval -> string) (API_KEY : string) (st : state World) (e : exn) :
  fst (_get_weather http (WeatherAPI_init API_KEY) "Одесса" st) = Raise e ->
  main http utcoffset repr API_KEY st
  = (Raise e,
     {| net := snd (http (weather_request (WeatherAPI_init API_KEY) "Одесса") (net st));
        stdout := stdout st |}).
Proof.
  intros H. rewrite main_run, show_weather_run.
  rewrite get_weather_run in *. simpl in H. rewrite H. reflexivity.
Qed.

Lemma main_stops_at_weather_failure_witness :
  main scripted eet sample_repr "k3y"
    (start [Raise JSONDecodeError; Ok (PDict (sample_forecast sample_list8))])
  = (Raise JSONDecodeError,
     {| net := [Ok (PDict (sample_forecast sample_list8))]; stdout := [] |}).
Proof.
  apply (main_stops_at_weather_failure scripted eet sample_repr "k3y"
           (start [Raise JSONDecodeError; Ok (PDict (sample_forecast sample_list8))])
           JSONDecodeError).
  reflexivity.
Defined.

(** X18. When the weather has been shown and the fetch of the forecast
    then fails, [main] ends with that exception after two requests, and
    the line of the current weather is all that has been printed: no
    record of the forecast reaches the output. *)
Theorem main_forecast_failure {World : Type}
    (http : Request -> World -> result pyval * World) (utcoffset : Z -> Z)
    (repr : pyval -> string) (API_KEY : string) (st : state World)
    (weather_data : Snapshot.t) (e : exn) :
  let output := WeatherAPI_init API_KEY in
  let forecast := WeatherForecast_init API_KEY in
  let shown := snd (show_weather http output "Одесса" st) in
  fst (_get_weather http output "Одесса" st) = Ok weather_data ->
  fst (get_forecast http utcoffset forecast "Одесса" shown) = Raise e ->
  main http utcoffset repr API_KEY st
  = (Raise e,
     {| net := snd (http (forecast_request forecast "Одесса")
                      (snd (http (weather_request output "Одесса") (net st))));
        stdout := stdout st ++ [weather_line "Одесса" weather_data] |}).
Proof.
  intros output forecast shown Hw Hf. subst shown.
  rewrite main_run. fold output forecast.
  rewrite show_weather_run in *.
  rewrite get_weather_run in *. simpl in Hw. rewrite Hw in *. simpl in Hf.
  rewrite get_forecast_run in *. simpl in *. rewrite Hf. reflexivity.
Qed.

Lemma main_forecast_failure_witness :
  main scripted eet sample_repr "k3y"
    (start [Ok (PDict sample_weather); Ok (PDict (sample_forecast sample_list3_bad))])
  = (Raise KeyError,
     {| net := [];
        stdout := ["Температура в Одесса: 21.5>°C, влажность: 60>%, скорость ветра: 3.2> м/с."] |}).
Proof.
  apply (main_forecast_failure scripted eet sample_repr "k3y"
           (start [Ok (PDict sample_weather);
                   Ok (PDict (sample_forecast sample_list3_bad))])
           {| Snapshot.temperature := 21.5; Snapshot.humidity := 60;
              Snapshot.wind_speed := 3.2 |} KeyError);
    vm_compute; reflexivity.
Defined.

(** X19. When both fetches succeed, [main] returns after two requests,
    the one for the weather before the one for the forecast, and has
    printed the line of the current weather and then one line for each
    record of the forecast, in the order of the response: six lines at
    most. *)
Theorem main_prints_weather_then_forecast {World : Type}
    (http : Request -> World -> result pyval * World) (utcoffset : Z -> Z)
    (repr : pyval -> string) (API_KEY : string) (st : state World)
    (weather_data : Snapshot.t) (days : list Entry.t) :
  let output := WeatherAPI_init API_KEY in
  let forecast := WeatherForecast_init API_KEY in
  let shown := snd (show_weather http output "Одесса" st) in
  fst (_get_weather http output "Одесса" st) = Ok weather_data ->
  fst (get_forecast http utcoffset forecast "Одесса" shown) = Ok days ->
  main http utcoffset repr API_KEY st
  = (Ok tt,
     {| net := snd (http (forecast_request forecast "Одесса")
                      (snd (http (weather_request output "Одесса") (net st))));
        stdout := stdout st ++ weather_line "Одесса" weather_data
                               :: map (day_line repr) days |})
  /\ (length (weather_line "Одесса" weather_data :: map (day_line repr) days) <= 6)%nat.
Proof.
  intros output forecast shown Hw Hf. subst shown.
  pose proof (get_forecast_returns http utcoffset forecast "Одесса" _ days Hf) as Hlen.
  split.
  - rewrite main_run. fold output forecast.
    rewrite show_weather_run in *.
    rewrite get_weather_run in *. simpl in Hw. rewrite Hw in *. simpl in Hf.
    rewrite get_forecast_run in *. simpl in *. rewrite Hf.
    rewrite <- app_assoc. reflexivity.
  - simpl. rewrite length_map.
    destruct Hlen as [->|(d & l & _ & _ & H)]; [simpl; lia|].
    apply Forall2_length in H. rewrite <- H, length_take. lia.
Qed.

Lemma main_prints_weather_then_forecast_witness :
  fst (main scripted eet sample_repr "k3y"
         (start [Ok (PDict sample_weather); Ok (PDict sample_int_temp)]))
  = Ok tt
  /\ stdout (snd (main scripted eet sample_repr "k3y"
                    (start [Ok (PDict sample_weather); Ok (PDict sample_int_temp)])))
     = ["Температура в Одесса: 21.5>°C, влажность: 60>%, скорость ветра: 3.2> м/с.";
        "{'date': '2023-11-14', 'temp': 8, 'humidity': 81, 'wind_speed': 4.1}"].
Proof.
  pose proof (main_prints_weather_then_forecast scripted eet sample_repr "k3y"
                (start [Ok (PDict sample_weather); Ok (PDict sample_int_temp)])
                {| Snapshot.temperature := 21.5; Snapshot.humidity := 60;
                   Snapshot.wind_speed := 3.2 |}
                [ {| Entry.date := "2023-11-14"; Entry.temp := PInt 8;
                     Entry.humidity := PInt 81; Entry.wind_speed := PFloat 4.1 |} ])
    as H.
  cbv zeta in H.
  destruct H as [H _]; [vm_compute; reflexivity..|].
  rewrite H. split; vm_compute; reflexivity.
Defined.
